(* ===== verification/_CoqProject ===== *)
-Q . S2P
Prelude.v
ObjectId.v
Models.v
Gateway.v
Store.v
Regex.v
Handlers.v
Abstract.v
Search.v
App.v
Scenario.v
Interleave.v
Races.v
