(* ===== verification/Prelude.v ===== *)
(** * Verification of the "Bibliothèque Numérique" book API

    The repository is a FastAPI service over a MongoDB collection of books
    ([src/Backend/main.py]), with pydantic request and response models
    ([src/Backend/app/models.py]) and one smoke test
    ([src/Backend/test_main.py], which fails at its import of main).  A request goes through three layers:
    FastAPI parses and validates the body against a pydantic model (a
    failure answers 422 before any handler runs); the handler checks the
    path identifier with [ObjectId.is_valid] (400), awaits one or more
    operations of the Motor collection [collection]; and the returned
    document is validated again against [BookModel] ([response_model]) and
    serialised with its ["_id"] as a 24-digit hexadecimal string.

    Files of the development, in dependency order:

    - [Prelude.v] (this file): the notation scope [bib_scope], the [result]
      type, the hint database [bib], the Ltac [invc] and [bool_simpl], ASCII
      case folding, [contains] and [contains_ci] (the substring tests the
      spec uses), and the list lemmas the components share.
    - [ObjectId.v], Module [ObjectId]: the identifier codec.  [is_valid]
      (bson's [ObjectId.is_valid] on a [str]), [of_string] (the
      constructor [ObjectId(id)] of main.py lines 61, 76, 78, 82, 93),
      [to_hex] (the [str(...)] of lines 36, 52, 64, 79, 85), [generate]
      (bson's [ObjectId()], 4-byte time, 5-byte process random, 3-byte
      counter) and [PyObjectId_validate] (models.py lines 11-14).
      [bytes.fromhex] is modelled as Python runs it: ASCII whitespace
      before a byte is skipped, so a string of 24 characters may spell
      fewer than 12 bytes.  An identifier is an integer: the big-endian
      value of its bytes plus 2^96 times the number of bytes missing
      from 12 (0 for every id the driver generates, which are the
      96-bit integers).  Theorems: both round trips of the codec through
      [PyObjectId_validate] (the printed form drops the whitespace), the
      exact set of strings it rejects, and that the counter makes
      ids of one second and one process distinct until it wraps at 2^24.
    - [Models.v], Module [Models]: JSON values, pydantic v1's [str]
      coercion, the validation of [BookModel] (alias [_id], population by
      field name) and [UpdateBookModel] (all fields optional), including
      the [dict(value)] coercion of a non-object body, the [.dict()] views
      the handlers build, and the response shaping of
      [response_model=BookModel].  A body that [dict()] accepts but
      whose keys are not all strings makes the call of [BookModel] on it raise a
      [TypeError], which pydantic reports as a [type_error] (422).  The
      hooks of [PyObjectId]:
      [__get_validators__] and [__modify_schema__], a dictionary update
      whose lookups are proved.
    - [Gateway.v], Module [Gateway]: the interface between the handlers and
      the collection.  Documents, store errors, [$set] and the caseless
      [$regex] filter; the class [RegexEngine] (a pattern compiler that
      may reject, a caseless search, and the law that a literal pattern
      (ASCII, no metacharacter, no NUL) searches ASCII values as
      [contains_ci]); the class [Gateway] of the five
      collection operations with its laws [GatewayLaws] (invariant
      [gw_wf] preserved, read, insert, update, delete and find
      behaviour).
    - [Store.v], Module [Store]: the MongoDB collection as an ordered list
      of documents (natural order) plus the driver's id-generator state;
      [insert_one], [find_one], [find], [update_one] (with MongoDB's no-op
      detection of [modified_count]) and [delete_one], each with its error
      path ([DuplicateKey], [BadRegex]).  The invariant [wf_world]: ids
      pairwise distinct and in range, every document has the keys title,
      author, category in that order.  Its instances [mongo_gateway] and
      [mongo_gateway_laws] discharge the contract of Gateway.v.
    - [Regex.v], Module [Regex]: the server's [$regex] with option [i]
      for a fragment of PCRE (literals, escapes, [.], [^], [$], groups,
      [|], [*], [+], [?]): a total parser (a fold with a stack of open
      groups) that rejects what PCRE rejects, a pattern with a NUL (which
      MongoDB refuses) and the constructs outside the fragment, a matcher [ends] computing the end positions of the
      matches from a position, and the instance [pcre_engine] of
      [RegexEngine].  Lemmas: the matcher is sound and complete for the
      inductive semantics [matches] ([ends_sound], [ends_complete],
      [search_correct]); a literal pattern searches as [contains_ci].
    - [Handlers.v], Module [Handlers]: each endpoint of main.py as a finite
      program of awaited collection commands ([prog]: [Ret] or [Await] of
      a command and its continuation; each [Await] is an [await] of the
      Python code), the FastAPI dispatch [handle] (validation, then
      handler), and [run], which executes a program alone against any
      [Gateway].  Theorems, against the interface: the endpoint behaviours
      of the spec (create then get, delete then get, updates with and
      without fields, listing and searching, invalid and unknown ids),
      preservation of the invariant by every request, the exact
      conditions under which a request answers 500, and the typing of
      every answer against the interface table of the spec; an ["_id"]
      in a creation is ignored unless it is an array or an object (422);
      a request changes no book but the one its path names.
    - [Abstract.v], Module [Abstract]: the collection of spec section 4.2
      as a [gmap] from ids to fields, its five operations as functions on
      the map, and the abstraction function [abs] from the list of
      documents.  Lemmas: each operation of Store.v refines its operation
      on the map ([find] up to the order of the answer; [abs_perm]: the
      map forgets nothing else).  Theorems: each endpoint of main.py, run
      on the MongoDB collection, refines the operation of the map it
      implements, on every branch of the handler (POST as insert, PUT as
      update, DELETE as delete, GET by id as lookup, GET /books as the
      spec's [find_many], a caseless substring filter on the present
      parameters, for literal ASCII parameters and ASCII values); once the 3-byte counter wraps onto a stored id of the
      same second, [POST /books] answers 500.
    - [Search.v], Module [Search]: [GET /books] with that engine, on any
      store that meets the contract: [title=.] lists every book whose
      title has a character other than a newline, and a lone special
      character of PCRE answers 500; both depart from the spec's
      substring search.
    - [App.v], Module [App]: the application of main.py lines 8-23: its
      title, the [CORSMiddleware] options as written, Starlette's
      middleware ([__init__], [preflight_response], [send]) over
      lower-case header lists, the composition [serve] of the middleware
      with the routes and with Starlette's [ServerErrorMiddleware] (an
      uncaught exception is a plain-text 500 without CORS headers),
      [MONGO_URL], and the client, database and collection handles.
      Theorems: any origin passes the preflight and is echoed with
      credentials allowed, and so is the origin of a request with a
      cookie whose handler does not fail.
    - [Scenario.v], Module [Scenario]: concrete worlds, searched with
      [Regex.pcre_engine], and the closed instances (witnesses) of the
      theorems with hypotheses.
    - [Interleave.v], Module [Interleave]: requests in flight on one event
      loop.  A configuration is the store and the remaining programs of
      the requests; a step runs one command of one request atomically (or
      ends it with a 500 on a store error) or lets a request arrive.
      Theorems: the store invariant holds in every reachable configuration
      (rule induction, with the invariant that every program in flight
      only writes books); a request run alone is one schedule; a book that no
      request in flight names by its path is never changed, whatever the
      interleaving.
    - [Races.v], Module [Races]: two schedules from the concrete worlds in
      which [create_book] and [update_book] answer 500 after a write that
      succeeded, because a [DELETE] ran at their last [await]; the
      witnesses of the theorems of Interleave.v.

    Source code and library models.  The definitions that translate lines
    of src/ are the handlers of Handlers.v ([root], [create_book],
    [list_books] with [query_cond], [list_query] and [shape_books],
    [get_book], [update_book] with [update_fallback], [delete_book], the
    answers [welcome], [deleted], [invalid_id], [not_found], and the
    shaping [doc_dict], [return_book]), the records [BookModel] and
    [UpdateBookModel], [BookModel_schema_example] and the two [.dict()]
    views of Models.v, the class [PyObjectId] ([PyObjectId_validate] of
    ObjectId.v, [PyObjectId_get_validators] and [PyObjectId_modify_schema]
    of Models.v), the title [app_title], the CORS options [app_cors],
    [MONGO_URL] and the handles [client], [db] and [collection] of
    App.v.  The
    rest models the libraries those lines call, whose code is not in the
    repository: bson's ObjectId codec, pydantic v1's validation, FastAPI's
    dispatch, the Motor collection and MongoDB's operations, Starlette's
    CORS middleware and the asyncio event loop.  Those models are written
    from the libraries' documented behaviour, are executable, and the
    theorems about the handlers either go through them or, for the
    collection, only through the laws of the [Gateway] interface.

    Bounds and fuel: no definition uses fuel.  Programs are finite trees
    whose recursion is structural on the continuation.  The matcher of Regex.v iterates a
    star [S (length s)] times, one more than the positions a match can
    move through, which [ends_complete] shows is enough.  Generated
    identifiers are bounded by 2^96 and the generator's counter by 2^24;
    the hexadecimal printer produces two digits per byte of the id, 24
    for every generated one.

    Plan for the following sittings: FastAPI's conversion of query-string
    and path parameters; the listing under concurrent writes (a [find]
    cursor read in batches); character classes and counted repetition in
    the regular-expression fragment.

    Not modelled: the network I/O of the connection ([AsyncIOMotorClient]
    connects lazily; its handles of main.py lines 21-23 are modelled as the
    address they name, and the store is the contents of the collection),
    the imports of main.py and models.py (main.py line 4 imports
    [models] from a directory that is not on the path: a finding), and
    so the smoke test of test_main.py, which fails at that import; what
    the driver and the server do with an id of fewer than 12 bytes; the
    termination of the handlers' awaits (a listing awaits its cursor,
    read here as one atomic operation); the headers the framework adds to
    every answer ([content-type], [content-length]), JSON parsing of the
    raw HTTP body (bodies are JSON values), floating-point JSON numbers (pydantic turns them into strings with
    Python's float printing), the text of pydantic's error messages (a 422
    answer carries the locations of the failing fields only), and cursor
    batching of [find] (a listing is one atomic read), PCRE's character
    classes, counted repetition, escapes of letters and Unicode case
    folding (the engine rejects the first three and folds ASCII only). *)

From stdpp Require Export base list strings.
From Stdlib Require Export ZArith Ascii String Lia.

Declare Scope bib_scope.
Delimit Scope bib_scope with bib.
Open Scope bib_scope.

Create HintDb bib.
Create Rewrite HintDb bib_rw.

(** ** Results: a value or an error *)

Inductive result (E A : Type) : Type :=
| Ok (a : A)
| Err (e : E).
Arguments Ok {E A} a.
Arguments Err {E A} e.

Notation "x <- c ;; k" :=
  (match c with Ok x => k | Err e => Err e end)
  (at level 60, c at next level, right associativity) : bib_scope.

(** ** Tactics *)

Ltac invc H := inversion H; subst; clear H.

(** Turn the boolean tests of the models into propositions. *)
Ltac bool_simpl :=
  repeat match goal with
  | H : (_ && _)%bool = true |- _ => apply andb_true_iff in H as [? ?]
  | H : (_ || _)%bool = false |- _ => apply orb_false_iff in H as [? ?]
  | H : negb _ = true |- _ => apply negb_true_iff in H
  | H : negb _ = false |- _ => apply negb_false_iff in H
  | H : Z.eqb _ _ = true |- _ => apply Z.eqb_eq in H
  | H : Z.eqb _ _ = false |- _ => apply Z.eqb_neq in H
  | H : Nat.eqb _ _ = true |- _ => apply Nat.eqb_eq in H
  | H : Nat.eqb _ _ = false |- _ => apply Nat.eqb_neq in H
  | H : String.eqb _ _ = true |- _ => apply String.eqb_eq in H
  | H : String.eqb _ _ = false |- _ => apply String.eqb_neq in H
  end.

(** ** ASCII case folding and substring tests *)

(** Case folding of one ASCII character: 'A'..'Z' to 'a'..'z'. *)
Definition lower_ascii (c : ascii) : ascii :=
  let n := nat_of_ascii c in
  if (65 <=? n)%nat && (n <=? 90)%nat then ascii_of_nat (n + 32) else c.

Fixpoint str_lower (s : string) : string :=
  match s with
  | EmptyString => EmptyString
  | String c s' => String (lower_ascii c) (str_lower s')
  end.

(** [starts_with p s]: [s] begins with [p]. *)
Fixpoint starts_with (p s : string) : bool :=
  match p, s with
  | EmptyString, _ => true
  | String c p', String c' s' => Ascii.eqb c c' && starts_with p' s'
  | String _ _, EmptyString => false
  end.

(** [contains p s]: [p] occurs in [s] at some position. *)
Fixpoint contains (p s : string) : bool :=
  match s with
  | EmptyString => starts_with p s
  | String _ s' => starts_with p s || contains p s'
  end.

(** The caseless substring test of the spec (section 4.2). *)
Definition contains_ci (p s : string) : bool :=
  contains (str_lower p) (str_lower s).

Lemma prefix_app_iff (p s : string) :
  starts_with p s = true <-> exists r, s = (p ++ r)%string.
Proof.
  revert s; induction p as [|c p IH]; intros s; simpl.
  - split; [intros _; by exists s | intros _; reflexivity].
  - destruct s as [|c' s]; split.
    + done.
    + intros [r Hr]; discriminate.
    + intros [->%Ascii.eqb_eq [r ->]%IH]%andb_true_iff. by exists r.
    + intros [r Hr]. invc Hr. rewrite Ascii.eqb_refl. apply IH. by exists r.
Qed.

Lemma contains_iff (p s : string) :
  contains p s = true <-> exists a b, s = (a ++ p ++ b)%string.
Proof.
  induction s as [|c s IH]; simpl.
  - rewrite prefix_app_iff. split.
    + intros [r Hr]. by exists EmptyString, r.
    + intros [a [b Hab]]. destruct a; [|discriminate]. by exists b.
  - rewrite orb_true_iff, prefix_app_iff, IH. split.
    + intros [[r Hr]|[a [b ->]]].
      * by exists EmptyString, r.
      * by exists (String c a), b.
    + intros [[|c' a] [b Hab]].
      * left. by exists b.
      * right. invc Hab. by exists a, b.
Qed.

Lemma str_lower_app (a b : string) :
  str_lower (a ++ b) = (str_lower a ++ str_lower b)%string.
Proof. induction a as [|c a IH]; simpl; [reflexivity | by rewrite IH]. Qed.

Lemma contains_app (a p b : string) : contains p (a ++ p ++ b) = true.
Proof. apply contains_iff. eauto. Qed.

Lemma contains_ci_app (a p q b : string) :
  str_lower p = str_lower q -> contains_ci p (a ++ q ++ b) = true.
Proof.
  intros Hpq. unfold contains_ci. rewrite !str_lower_app, <- Hpq.
  apply contains_app.
Qed.

Lemma contains_empty (s : string) : contains EmptyString s = true.
Proof. destruct s; reflexivity. Qed.

Lemma contains_ci_nil (p : string) : p <> EmptyString -> contains_ci p EmptyString = false.
Proof. destruct p; [done|reflexivity]. Qed.

#[export] Hint Resolve contains_app contains_ci_app contains_empty : bib.
#[export] Hint Rewrite str_lower_app : bib_rw.

(** ** Lists *)

(** A test that holds of no element leaves [filter] without effect, and
    [find] with a test that fails everywhere finds nothing. *)
Lemma find_none_forall {A} (f : A -> bool) (l : list A) :
  find f l = None <-> Forall (fun x => f x = false) l.
Proof.
  induction l as [|x l IH]; simpl; [split; auto|].
  destruct (f x) eqn:E; split; intros H.
  - discriminate.
  - invc H. congruence.
  - constructor; [done|]. by apply IH.
  - invc H. by apply IH.
Qed.

Lemma find_some_in {A} (f : A -> bool) (l : list A) x :
  find f l = Some x -> In x l /\ f x = true.
Proof. intros H. split; [eapply find_some; eauto | eapply find_some; eauto]. Qed.

#[export] Hint Resolve find_some_in : bib.
