(* ===== verification/ObjectId.v ===== *)
(** * The identifier codec: MongoDB object ids and their hexadecimal form

    An object id is a byte string, 12 bytes for every id the driver
    generates; here an integer, the big-endian reading of the bytes plus
    2^96 for each byte missing from 12 ([pack]), so that a 12-byte id is
    an integer [0 <= v < 2^96].  [bytes.fromhex] skips ASCII whitespace
    before each byte, and bson's [ObjectId(str)] checks only that the
    string has 24 characters: such a string with whitespace is a shorter
    id, which [str(...)] prints without the whitespace.  The handlers of main.py check a path parameter
    with [ObjectId.is_valid] (lines 59, 70, 91), build the id with
    [ObjectId(id)] (lines 61, 76, 78, 82, 93) and print it with [str(...)]
    (lines 36, 52, 64, 79, 85); the driver creates ids with [ObjectId()]
    when a document is inserted without ["_id"].  These are functions of
    the bson library, modelled from its documented behaviour; the helper
    [PyObjectId.validate] of models.py (lines 11-14) is modelled from the
    source. *)

From S2P Require Import Prelude.

Module ObjectId.

Local Open Scope Z_scope.

(** ** Definitions *)

(** The value of a hexadecimal digit, upper or lower case, as
    [bytes.fromhex] reads it. *)
Definition hex_val (c : ascii) : option Z :=
  let n := Z.of_nat (nat_of_ascii c) in
  if (48 <=? n) && (n <=? 57) then Some (n - 48)
  else if (97 <=? n) && (n <=? 102) then Some (n - 87)
  else if (65 <=? n) && (n <=? 70) then Some (n - 55)
  else None.

(** The lower-case digit of [0 <= d < 16], as [binascii.hexlify] prints it. *)
Definition hex_char (d : Z) : ascii :=
  if d <? 10 then ascii_of_nat (Z.to_nat (48 + d))
  else ascii_of_nat (Z.to_nat (87 + d)).

Fixpoint all_hex (s : string) : bool :=
  match s with
  | EmptyString => true
  | String c s' => match hex_val c with Some _ => all_hex s' | None => false end
  end.

(** Big-endian reading of a string of hexadecimal digits. *)
Fixpoint hex_acc (acc : Z) (s : string) : option Z :=
  match s with
  | EmptyString => Some acc
  | String c s' =>
      match hex_val c with
      | Some d => hex_acc (acc * 16 + d) s'
      | None => None
      end
  end.

(** ASCII whitespace, [Py_ISSPACE]: space, tab, newline, vertical tab,
    form feed, carriage return. *)
Definition py_space (c : ascii) : bool :=
  let n := nat_of_ascii c in (n =? 32)%nat || ((9 <=? n)%nat && (n <=? 13)%nat).

(** [bytes.fromhex(s)]: ASCII whitespace is skipped before each byte, a
    byte is two hexadecimal digits; [None] is the [ValueError]. *)
Fixpoint fromhex (s : string) : option (list Z) :=
  match s with
  | EmptyString => Some []
  | String c r =>
      if py_space c then fromhex r
      else match r with
           | String c2 r' =>
               match hex_val c, hex_val c2 with
               | Some hi, Some lo => (fun bs => (hi * 16 + lo) :: bs) <$> fromhex r'
               | _, _ => None
               end
           | EmptyString => None
           end
  end.

(** The string without its ASCII whitespace. *)
Fixpoint strip_ws (s : string) : string :=
  match s with
  | EmptyString => EmptyString
  | String c r => if py_space c then strip_ws r else String c (strip_ws r)
  end.

(** The big-endian value of a list of bytes. *)
Definition be_value (bs : list Z) : Z := fold_left (fun a b => a * 256 + b) bs 0.

(** An id of at most 12 bytes as an integer: the value of its bytes, plus
    [2^96] for each byte it lacks, so that ids of different lengths stay
    distinct as bson's byte strings are.  A 12-byte id is its value. *)
Definition pack (bs : list Z) : Z := be_value bs + 2 ^ 96 * (12 - Z.of_nat (List.length bs)).

(** [ObjectId.is_valid(oid)] for a [str]: 24 characters that
    [bytes.fromhex] reads (bson does not check the number of bytes). *)
Definition is_valid (s : string) : bool :=
  (String.length s =? 24)%nat && match fromhex s with Some _ => true | None => false end.

(** [ObjectId(oid)] for a [str]: [None] is the [InvalidId] exception. *)
Definition of_string (s : string) : option Z :=
  if is_valid s then pack <$> fromhex s else None.

(** The [k] lower-case hexadecimal digits of [v], most significant first. *)
Fixpoint hex_digits (k : nat) (v : Z) : string :=
  match k with
  | O => EmptyString
  | S k' =>
      String (hex_char (v / 16 ^ Z.of_nat k'))
             (hex_digits k' (v mod 16 ^ Z.of_nat k'))
  end.

(** [str(oid)]: [binascii.hexlify] of the bytes, two lower-case digits a
    byte: 24 digits for a 12-byte id. *)
Definition to_hex (v : Z) : string :=
  hex_digits (2 * (12 - Z.to_nat (v / 2 ^ 96))) (v mod 2 ^ 96).

(** What [bytes.fromhex] reads: pairs of hexadecimal digits, with ASCII
    whitespace before any of them. *)
Inductive hex_pairs : string -> Prop :=
| hp_nil : hex_pairs EmptyString
| hp_space c s : py_space c = true -> hex_pairs s -> hex_pairs (String c s)
| hp_byte c1 c2 s : hex_val c1 <> None -> hex_val c2 <> None -> hex_pairs s ->
    hex_pairs (String c1 (String c2 s)).

(** [ObjectId()]: 4 bytes of time in seconds, 5 random bytes drawn once
    per process, 3 bytes of a counter. *)
Definition generate (time rnd inc : Z) : Z :=
  (time mod 2 ^ 32) * 2 ^ 64 + (rnd mod 2 ^ 40) * 2 ^ 24 + inc mod 2 ^ 24.

(** The counter after one id: [(inc + 1) % (0xFFFFFF + 1)]. *)
Definition next_inc (inc : Z) : Z := (inc + 1) mod 2 ^ 24.

(** models.py [PyObjectId.validate]: reject with [ValueError] or build. *)
Definition PyObjectId_validate (v : string) : result string Z :=
  if negb (is_valid v) then Err "Invalid objectid"%string
  else match of_string v with
       | Some o => Ok o
       | None => Err "Invalid objectid"%string
       end.

(** The check, for the character of code [n], that printing its value as
    a digit gives it back in lower case. *)
Definition hex_char_val_at (n : nat) : bool :=
  match hex_val (ascii_of_nat n) with
  | Some d => Ascii.eqb (hex_char d) (lower_ascii (ascii_of_nat n))
  | None => true
  end.

(** ** Digits *)

Lemma hex_val_range c d : hex_val c = Some d -> 0 <= d < 16.
Proof.
  unfold hex_val. intros H.
  repeat match goal with
  | H : context [if ?b then _ else _] |- _ => destruct b eqn:?
  end; bool_simpl; try discriminate; invc H;
  rewrite ?Z.leb_le in *; lia.
Qed.

Lemma hex_val_char d : 0 <= d < 16 -> hex_val (hex_char d) = Some d.
Proof.
  intros Hd.
  assert (d = 0 \/ d = 1 \/ d = 2 \/ d = 3 \/ d = 4 \/ d = 5 \/ d = 6 \/
          d = 7 \/ d = 8 \/ d = 9 \/ d = 10 \/ d = 11 \/ d = 12 \/ d = 13 \/
          d = 14 \/ d = 15) as Hc by lia.
  repeat destruct Hc as [-> | Hc]; [..| subst]; reflexivity.
Qed.

(** Printing the value of a digit gives the digit in lower case. *)
Lemma hex_char_val_all : forallb hex_char_val_at (seq 0 256) = true.
Proof. vm_compute. reflexivity. Qed.

Lemma hex_char_val c d : hex_val c = Some d -> hex_char d = lower_ascii c.
Proof.
  intros H.
  assert (Hc : hex_char_val_at (nat_of_ascii c) = true).
  { eapply forallb_forall; [apply hex_char_val_all|].
    apply in_seq. pose proof (nat_ascii_bounded c). lia. }
  unfold hex_char_val_at in Hc. rewrite ascii_nat_embedding, H in Hc.
  by apply Ascii.eqb_eq.
Qed.

#[export] Hint Resolve hex_val_range hex_val_char : bib.

Lemma length_hex_digits k v : String.length (hex_digits k v) = k.
Proof. revert v; induction k; intros v; simpl; auto. Qed.

Lemma pow16_pos k : 0 < 16 ^ Z.of_nat k.
Proof. apply Z.pow_pos_nonneg; lia. Qed.

Lemma pow16_succ k : 16 ^ Z.of_nat (S k) = 16 * 16 ^ Z.of_nat k.
Proof. rewrite Nat2Z.inj_succ, Z.pow_succ_r; lia. Qed.

(** The leading digit of a [k+1]-digit number is a digit. *)
Lemma lead_digit_range k v :
  0 <= v < 16 ^ Z.of_nat (S k) -> 0 <= v / 16 ^ Z.of_nat k < 16.
Proof.
  rewrite pow16_succ. pose proof (pow16_pos k). intros Hv. split.
  - apply Z.div_pos; lia.
  - apply Z.div_lt_upper_bound; lia.
Qed.

(** Reading back printed digits: the decoder inverts [hex_digits]. *)
Lemma hex_acc_digits k : forall a v,
  0 <= v < 16 ^ Z.of_nat k ->
  hex_acc a (hex_digits k v) = Some (a * 16 ^ Z.of_nat k + v).
Proof.
  induction k as [|k IH]; intros a v Hv; simpl.
  - f_equal. simpl in Hv. lia.
  - pose proof (lead_digit_range k v Hv) as Hq.
    pose proof (pow16_pos k) as Hp.
    rewrite hex_val_char by done.
    rewrite IH by (apply Z.mod_pos_bound; lia).
    f_equal. rewrite pow16_succ.
    rewrite (Z.div_mod v (16 ^ Z.of_nat k)) at 3 by lia. lia.
Qed.

Lemma all_hex_digits k : forall v,
  0 <= v < 16 ^ Z.of_nat k -> all_hex (hex_digits k v) = true.
Proof.
  induction k as [|k IH]; intros v Hv; simpl; [done|].
  pose proof (pow16_pos k).
  rewrite hex_val_char by (by apply lead_digit_range).
  apply IH, Z.mod_pos_bound; lia.
Qed.

(** Reading a string of digits: its value fits in its length and prints
    back as the string in lower case. *)
Lemma hex_acc_spec s : forall a,
  all_hex s = true ->
  exists v, hex_acc a s = Some (a * 16 ^ Z.of_nat (String.length s) + v) /\
            0 <= v < 16 ^ Z.of_nat (String.length s) /\
            hex_digits (String.length s) v = str_lower s.
Proof.
  induction s as [|c s IH]; intros a Hs; simpl in *.
  - exists 0. split; [f_equal; lia | split; [lia | reflexivity]].
  - destruct (hex_val c) as [d|] eqn:Hd; [|discriminate].
    pose proof (hex_val_range _ _ Hd).
    destruct (IH (a * 16 + d) Hs) as (v & Hv & Hr & Hdig).
    exists (d * 16 ^ Z.of_nat (String.length s) + v).
    pose proof (pow16_pos (String.length s)).
    rewrite pow16_succ. repeat split; [rewrite Hv; f_equal; lia | nia | nia |].
    rewrite Z.div_add_l, Z.div_small, Z.add_0_r by lia.
    rewrite Z.add_comm, Z.mod_add, Z.mod_small by lia.
    rewrite Hdig. f_equal. by apply hex_char_val.
Qed.

Lemma bound_96 : 2 ^ 96 = 16 ^ Z.of_nat 24.
Proof. reflexivity. Qed.

(** ** [bytes.fromhex] *)

Lemma hex_not_space_all :
  forallb (fun n => match hex_val (ascii_of_nat n) with
                    | Some _ => negb (py_space (ascii_of_nat n))
                    | None => true
                    end) (seq 0 256) = true.
Proof. vm_compute. reflexivity. Qed.

Lemma hex_not_space c : hex_val c <> None -> py_space c = false.
Proof.
  intros H. pose proof (proj1 (forallb_forall _ _) hex_not_space_all (nat_of_ascii c)) as Hc.
  cbv beta in Hc. rewrite ascii_nat_embedding in Hc.
  destruct (hex_val c); [|done]. apply negb_true_iff, Hc, in_seq.
  pose proof (nat_ascii_bounded c). lia.
Qed.

Lemma strip_ws_all_hex t : all_hex t = true -> strip_ws t = t.
Proof.
  induction t as [|c t IH]; simpl; [done|].
  destruct (hex_val c) eqn:Hc; [|discriminate]. intros Ht.
  rewrite hex_not_space by congruence. by rewrite IH.
Qed.

Lemma length_strip_ws t : (String.length (strip_ws t) <= String.length t)%nat.
Proof. induction t as [|c t IH]; simpl; [lia|]. destruct (py_space c); simpl; lia. Qed.

(** What [bytes.fromhex] reads, without the whitespace, is a string of
    digits twice as long as the bytes, whose value they are. *)
Lemma fromhex_spec n : forall s bs a,
  (String.length s <= n)%nat -> fromhex s = Some bs ->
  all_hex (strip_ws s) = true /\ String.length (strip_ws s) = (2 * List.length bs)%nat /\
  hex_acc a (strip_ws s) = Some (fold_left (fun x b => x * 256 + b) bs a).
Proof.
  induction n as [|n IH]; intros [|c r] bs a Hl Hf; simpl in *; try lia.
  - by injection Hf as <-.
  - by injection Hf as <-.
  - destruct (py_space c) eqn:Hs; [apply IH; [lia | done]|].
    destruct r as [|c2 r']; [discriminate|].
    destruct (hex_val c) as [hi|] eqn:Hh, (hex_val c2) as [lo|] eqn:Hlo; try discriminate.
    destruct (fromhex r') as [bs'|] eqn:Hr; [|discriminate]. injection Hf as <-.
    cbn [strip_ws]. rewrite (hex_not_space c2) by congruence. simpl. rewrite Hh, Hlo.
    destruct (IH r' bs' ((a * 16 + hi) * 16 + lo) ltac:(simpl in Hl; lia) Hr) as (Ha & Hlen & Hacc).
    repeat split; [done | simpl; lia |]. rewrite Hacc. f_equal. f_equal. lia.
Qed.

(** A string of digits of even length is read as half as many bytes. *)
Lemma fromhex_digits k : forall t,
  all_hex t = true -> String.length t = (2 * k)%nat ->
  exists bs, fromhex t = Some bs /\ List.length bs = k.
Proof.
  induction k as [|k IH]; intros [|c [|c2 t]] Ht Hl; simpl in *; try lia.
  - by exists [].
  - destruct (hex_val c) as [hi|] eqn:Hh; [|discriminate].
    destruct (hex_val c2) as [lo|] eqn:Hlo; [|discriminate].
    rewrite hex_not_space by congruence.
    destruct (IH t Ht ltac:(lia)) as (bs & Hbs & Hlen). rewrite Hbs.
    exists ((hi * 16 + lo) :: bs). simpl. auto.
Qed.

Lemma fromhex_pairs_1 s : hex_pairs s -> fromhex s <> None.
Proof.
  intros H. induction H as [|c s Hc _ IH|c1 c2 s H1 H2 _ IH]; cbn [fromhex].
  - discriminate.
  - by rewrite Hc.
  - rewrite hex_not_space by done.
    destruct (hex_val c1), (hex_val c2); try done.
    destruct (fromhex s); [discriminate | done].
Qed.

Lemma fromhex_pairs_2 n : forall s, (String.length s <= n)%nat -> fromhex s <> None -> hex_pairs s.
Proof.
  induction n as [|n IH]; intros [|c r] Hl Hf; simpl in *; try lia; [constructor..|].
  destruct (py_space c) eqn:Hs; [constructor; [done | apply IH; [lia | done]]|].
  destruct r as [|c2 r']; [done|].
  destruct (hex_val c) eqn:Hh, (hex_val c2) eqn:Hh2; try done.
  constructor; [congruence | congruence |]. apply IH; [simpl in Hl; lia|].
  by destruct (fromhex r').
Qed.

Lemma fromhex_pairs s : fromhex s <> None <-> hex_pairs s.
Proof. split; [apply (fromhex_pairs_2 (String.length s)); lia | apply fromhex_pairs_1]. Qed.

(** ** The codec *)

Lemma to_hex_small v : 0 <= v < 2 ^ 96 -> to_hex v = hex_digits 24 v.
Proof.
  intros Hv. unfold to_hex. rewrite Z.div_small, Z.mod_small by done. reflexivity.
Qed.

Lemma pow16_le k k' : (k <= k')%nat -> 16 ^ Z.of_nat k <= 16 ^ Z.of_nat k'.
Proof. intros H. apply Z.pow_le_mono_r; lia. Qed.

(** Decode after encode is the identity on 12-byte ids. *)
Lemma of_string_to_hex_id v :
  0 <= v < 2 ^ 96 -> of_string (to_hex v) = Some v.
Proof.
  intros Hv. rewrite to_hex_small by done. rewrite bound_96 in Hv.
  pose proof (all_hex_digits 24 v Hv) as Ha.
  destruct (fromhex_digits 12 (hex_digits 24 v) Ha (length_hex_digits 24 v)) as (bs & Hbs & Hlen).
  destruct (fromhex_spec _ _ bs 0 (le_n _) Hbs) as (_ & _ & Hacc).
  rewrite strip_ws_all_hex, hex_acc_digits in Hacc by done.
  unfold of_string, is_valid. rewrite length_hex_digits, Hbs. cbn -[pack].
  injection Hacc as Hbe. unfold pack, be_value. rewrite Hlen, <- Hbe. f_equal. lia.
Qed.

Lemma of_string_spec s v :
  of_string s = Some v ->
  String.length s = 24%nat /\ to_hex v = str_lower (strip_ws s).
Proof.
  unfold of_string, is_valid. intros H.
  destruct (String.length s =? 24)%nat eqn:Hl; [|discriminate].
  destruct (fromhex s) as [bs|] eqn:Hf; [|discriminate]. simpl in H. injection H as <-.
  apply Nat.eqb_eq in Hl. split; [done|].
  destruct (fromhex_spec _ _ bs 0 (le_n _) Hf) as (Ha & Hlen & Hacc).
  destruct (hex_acc_spec _ 0 Ha) as (v' & Hv' & Hr & Hd).
  rewrite Hacc in Hv'. injection Hv' as Hbe. rewrite Z.mul_0_l, Z.add_0_l in Hbe.
  pose proof (length_strip_ws s) as Hle. rewrite Hlen in Hr, Hd.
  assert (Hb : 16 ^ Z.of_nat (2 * List.length bs) <= 2 ^ 96)
    by (rewrite bound_96; apply pow16_le; lia).
  unfold to_hex, pack. fold (be_value bs) in Hbe.
  rewrite Z.mul_comm, Z.div_add, Z.div_small, Z.add_0_l by lia.
  rewrite Z.mod_add, Z.mod_small by lia.
  replace (2 * (12 - Z.to_nat (12 - Z.of_nat (List.length bs))))%nat with (2 * List.length bs)%nat
    by lia.
  by rewrite Hbe.
Qed.

(** C21. Encode after decode: a string [PyObjectId.validate] accepts
    prints back by [str(...)] as the same string in lower case with its
    ASCII whitespace removed: bson reads ["507f1f77bcf86cd7994390  "] as
    an id of 11 bytes whose [str] has 22 digits. *)
Theorem to_hex_of_string s v :
  PyObjectId_validate s = Ok v -> to_hex v = str_lower (strip_ws s).
Proof.
  unfold PyObjectId_validate. destruct (is_valid s); simpl; [|discriminate].
  destruct (of_string s) as [o|] eqn:Hs; intros H; [|discriminate]. injection H as <-.
  by apply of_string_spec in Hs as [_ ?].
Qed.

Lemma is_valid_of_string s :
  is_valid s = true <-> exists v, of_string s = Some v.
Proof.
  unfold of_string. split.
  - intros Hv. rewrite Hv. unfold is_valid in Hv. apply andb_true_iff in Hv as [_ Hf].
    destruct (fromhex s); [eauto | discriminate].
  - intros [v Hv]. destruct (is_valid s); [done | discriminate].
Qed.

(** Two accepted strings denote the same id exactly when they agree up to
    the case of their letters and their whitespace. *)
Lemma of_string_inj s1 s2 v :
  of_string s1 = Some v -> of_string s2 = Some v -> str_lower (strip_ws s1) = str_lower (strip_ws s2).
Proof.
  intros H1 H2. apply of_string_spec in H1 as (_ & H1), H2 as (_ & H2). congruence.
Qed.

(** C30. [PyObjectId.validate] fails exactly on the strings that are not
    24 characters long or that [bytes.fromhex] does not read as pairs of
    hexadecimal digits with ASCII whitespace between them, and always with
    the message ["Invalid objectid"]. *)
Theorem PyObjectId_validate_rejects s :
  (PyObjectId_validate s = Err "Invalid objectid"%string <->
   String.length s <> 24%nat \/ ~ hex_pairs s) /\
  (forall e, PyObjectId_validate s = Err e -> e = "Invalid objectid"%string).
Proof.
  unfold PyObjectId_validate. rewrite <- fromhex_pairs.
  destruct (is_valid s) eqn:Hv; cbn [negb].
  - destruct (proj1 (is_valid_of_string s) Hv) as [v Hs]. rewrite Hs.
    unfold is_valid in Hv. apply andb_true_iff in Hv as [Hl Ha].
    apply Nat.eqb_eq in Hl.
    split; [|discriminate]. split; [discriminate|].
    intros [Hn | Hn]; [done | exfalso; apply Hn; by destruct (fromhex s)].
  - split; [|by intros e [= <-]]. split; [intros _|done].
    unfold is_valid in Hv. apply andb_false_iff in Hv as [Hl | Ha].
    + left. by apply Nat.eqb_neq.
    + right. intros Hn. destruct (fromhex s); [discriminate | by apply Hn].
Qed.

Lemma is_valid_to_hex v : 0 <= v < 2 ^ 96 -> is_valid (to_hex v) = true.
Proof. intros Hv. apply is_valid_of_string. exists v. by apply of_string_to_hex_id. Qed.

#[export] Hint Resolve of_string_to_hex_id is_valid_to_hex : bib.

(** C20. [PyObjectId.validate] accepts the string [str(oid)] of every
    12-byte id, 24 characters long, and decodes it back to the same id:
    decode after encode is the identity. *)
Theorem of_string_to_hex v :
  0 <= v < 2 ^ 96 ->
  String.length (to_hex v) = 24%nat /\ PyObjectId_validate (to_hex v) = Ok v.
Proof.
  intros Hv. split; [rewrite to_hex_small by done; apply length_hex_digits|].
  unfold PyObjectId_validate. by rewrite is_valid_to_hex, of_string_to_hex_id.
Qed.


(** ** Generated ids *)

Lemma generate_range t r i : 0 <= generate t r i < 2 ^ 96.
Proof.
  unfold generate.
  pose proof (Z.mod_pos_bound t (2 ^ 32) ltac:(lia)).
  pose proof (Z.mod_pos_bound r (2 ^ 40) ltac:(lia)).
  pose proof (Z.mod_pos_bound i (2 ^ 24) ltac:(lia)). lia.
Qed.

Lemma generate_counter t r i : generate t r i mod 2 ^ 24 = i mod 2 ^ 24.
Proof.
  unfold generate.
  replace ((t mod 2 ^ 32) * 2 ^ 64 + (r mod 2 ^ 40) * 2 ^ 24 + i mod 2 ^ 24)
    with (i mod 2 ^ 24 + ((t mod 2 ^ 32) * 2 ^ 40 + r mod 2 ^ 40) * 2 ^ 24) by lia.
  rewrite Z.mod_add by lia. apply Z.mod_mod. lia.
Qed.

(** Ids generated by one process in one second coincide exactly when
    their counters agree modulo [2^24]. *)
Lemma generate_period t r i1 i2 :
  generate t r i1 = generate t r i2 <-> i1 mod 2 ^ 24 = i2 mod 2 ^ 24.
Proof.
  split.
  - intros H. by rewrite <- (generate_counter t r i1), <- (generate_counter t r i2), H.
  - intros H. unfold generate. by rewrite H.
Qed.

#[export] Hint Resolve generate_range : bib.

End ObjectId.
