(* ===== verification/Models.v ===== *)
(** * The book schema: pydantic models of models.py and their use by FastAPI

    JSON values, pydantic v1's coercion of a field of type [str], the
    validation of [BookModel] (models.py lines 19-33) and [UpdateBookModel]
    (lines 35-38) from a request body, the [.dict()] views the handlers of
    main.py build from them (lines 32 and 73), and the response side of
    [response_model=BookModel]: the document a handler returns is validated
    again and serialised by alias.  HTTP answers are the [response] record.

    The models are pydantic v1 models (they use [Config], [schema_extra],
    [allow_population_by_field_name], [__get_validators__] and [.dict()]):
    an [Optional[str]] field without default is optional with default
    [None], a [str] field accepts a string and turns an integer or a
    boolean into its Python [str()], and [BaseModel.validate] applies
    [dict(value)] to a body that is not a JSON object; when the keys of
    that dictionary are not all strings, the keyword call of the model
    raises a [TypeError], which pydantic reports as a [type_error].  The
    file also
    holds the two hooks of the class [PyObjectId] (models.py lines 6-17)
    that are not its validator. *)

From S2P Require Import Prelude ObjectId.
From Stdlib Require Import DecimalString.

Module Models.

(** ** JSON values and Python dictionaries *)

(** A JSON value as [json.loads] returns it; numbers are integers. *)
#[warnings="-register-all"]
Inductive json : Type :=
| JNull
| JBool (b : bool)
| JInt (z : Z)
| JStr (s : string)
| JArr (l : list json)
| JObj (kvs : list (string * json)).

(** [d.get(k)] on the dictionary built from a JSON object: a key bound
    twice keeps its last value. *)
Fixpoint dict_get (k : string) (kvs : list (string * json)) : option json :=
  match kvs with
  | [] => None
  | (k', v) :: r =>
      match dict_get k r with
      | Some v' => Some v'
      | None => if String.eqb k k' then Some v else None
      end
  end.

(** The keys of a dictionary in the order of their first binding. *)
Fixpoint dict_keys (kvs : list (string * json)) : list string :=
  match kvs with
  | [] => []
  | (k, _) :: r => k :: List.filter (fun k' => negb (String.eqb k k')) (dict_keys r)
  end.

(** Python's [str(n)] for an integer. *)
Definition py_str_of_int (z : Z) : string := NilZero.string_of_int (Z.to_int z).

(** ** pydantic v1 field validation *)

(** [str_validator]: a [str] is kept, an [int] (and so a [bool]) or a
    [float] goes through [str()], anything else is a [StrError]. *)
Definition str_validator (v : json) : option string :=
  match v with
  | JStr s => Some s
  | JInt z => Some (py_str_of_int z)
  | JBool true => Some "True"%string
  | JBool false => Some "False"%string
  | _ => None
  end.

(** The kinds of validation errors the models can raise. *)
Inductive error_kind := ErrMissing | ErrNone | ErrStr | ErrDict | ErrType.

(** An error at a location: a field of the body, or [""] for the body. *)
Definition error := (string * error_kind)%type.

(** A required [str] field: missing, [null] and non-strings are errors. *)
Definition validate_required_str (loc : string) (v : option json)
    : result (list error) string :=
  match v with
  | None => Err [(loc, ErrMissing)]
  | Some JNull => Err [(loc, ErrNone)]
  | Some j =>
      match str_validator j with
      | Some s => Ok s
      | None => Err [(loc, ErrStr)]
      end
  end.

(** An [Optional[str]] field: missing and [null] give [None]. *)
Definition validate_optional_str (loc : string) (v : option json)
    : result (list error) (option string) :=
  match v with
  | None | Some JNull => Ok None
  | Some j =>
      match str_validator j with
      | Some s => Ok (Some s)
      | None => Err [(loc, ErrStr)]
      end
  end.

Definition errs_of {A} (r : result (list error) A) : list error :=
  match r with Ok _ => [] | Err e => e end.

(** ** The models *)

(** [class BookModel]: [id] has alias ["_id"] and default [None]. *)
Record BookModel := mkBookModel {
  bm_id : option string;
  bm_title : string;
  bm_author : string;
  bm_category : string
}.

(** [class UpdateBookModel]: three optional fields. *)
Record UpdateBookModel := mkUpdateBookModel {
  ub_title : option string;
  ub_author : option string;
  ub_category : option string
}.

(** [BookModel( **data)]: the id is read under its alias, then under its
    name ([allow_population_by_field_name]); unknown keys are ignored;
    the errors of all fields are reported together, in field order. *)
Definition BookModel_init (kvs : list (string * json))
    : result (list error) BookModel :=
  let rid := validate_optional_str "_id"
               (match dict_get "_id" kvs with
                | Some v => Some v
                | None => dict_get "id" kvs
                end) in
  let rt := validate_required_str "title" (dict_get "title" kvs) in
  let ra := validate_required_str "author" (dict_get "author" kvs) in
  let rc := validate_required_str "category" (dict_get "category" kvs) in
  match rid, rt, ra, rc with
  | Ok i, Ok t, Ok a, Ok c => Ok (mkBookModel i t a c)
  | _, _, _, _ => Err (errs_of rid ++ errs_of rt ++ errs_of ra ++ errs_of rc)
  end.

(** [UpdateBookModel( **data)]. *)
Definition UpdateBookModel_init (kvs : list (string * json))
    : result (list error) UpdateBookModel :=
  let rt := validate_optional_str "title" (dict_get "title" kvs) in
  let ra := validate_optional_str "author" (dict_get "author" kvs) in
  let rc := validate_optional_str "category" (dict_get "category" kvs) in
  match rt, ra, rc with
  | Ok t, Ok a, Ok c => Ok (mkUpdateBookModel t a c)
  | _, _, _ => Err (errs_of rt ++ errs_of ra ++ errs_of rc)
  end.

(** ** Validation of a request body *)

(** The outcome of validating a body: a model, or a [ValidationError]
    (422). *)
Inductive validated (A : Type) : Type :=
| Valid (a : A)
| Invalid (errs : list error).
Arguments Valid {A} a.
Arguments Invalid {A} errs.

(** One element of [dict(value)]: an iterable of exactly two items. *)
Definition dict_item (j : json) : option (json * json) :=
  match j with
  | JArr [k; v] => Some (k, v)
  | JStr (String c1 (String c2 EmptyString)) =>
      Some (JStr (String c1 EmptyString), JStr (String c2 EmptyString))
  | JObj kvs =>
      match dict_keys kvs with
      | [k1; k2] => Some (JStr k1, JStr k2)
      | _ => None
      end
  | _ => None
  end.

Definition hashable (j : json) : bool :=
  match j with JArr _ | JObj _ => false | _ => true end.

(** [dict(l)] for a list: [None] is the [TypeError] or [ValueError] that
    pydantic turns into a [DictError]. *)
Fixpoint py_dict (l : list json) : option (list (json * json)) :=
  match l with
  | [] => Some []
  | j :: r =>
      match dict_item j with
      | Some (k, v) =>
          if hashable k then
            match py_dict r with Some ps => Some ((k, v) :: ps) | None => None end
          else None
      | None => None
      end
  end.

(** [cls( **d)] needs string keys; another key raises a [TypeError],
    which the field's [_apply_validators] catches as a validation error. *)
Fixpoint str_keys (ps : list (json * json)) : option (list (string * json)) :=
  match ps with
  | [] => Some []
  | (JStr k, v) :: r =>
      match str_keys r with Some kvs => Some ((k, v) :: kvs) | None => None end
  | _ :: _ => None
  end.

Definition of_result {A} (r : result (list error) A) : validated A :=
  match r with Ok a => Valid a | Err e => Invalid e end.

(** FastAPI's validation of a required body [Body(...)] against a model:
    an absent or [null] body is missing; a JSON object goes to the model;
    anything else goes through [BaseModel.validate]'s [dict(value)]. *)
Definition validate_body {A} (init : list (string * json) -> result (list error) A)
    (body : json) : validated A :=
  match body with
  | JNull => Invalid [(""%string, ErrMissing)]
  | JObj kvs => of_result (init kvs)
  | JArr l =>
      match py_dict l with
      | None => Invalid [(""%string, ErrDict)]
      | Some ps =>
          match str_keys ps with
          | Some kvs => of_result (init kvs)
          | None => Invalid [(""%string, ErrType)]
          end
      end
  | JStr EmptyString => of_result (init [])
  | _ => Invalid [(""%string, ErrDict)]
  end.

(** ** Views of the models used by the handlers *)

(** [book.dict(exclude={"id"})] (main.py line 32). *)
Definition BookModel_dict_exclude_id (b : BookModel) : list (string * string) :=
  [("title", bm_title b); ("author", bm_author b); ("category", bm_category b)]%string.

(** [{k: v for k, v in book.dict().items() if v is not None}] (line 73). *)
Definition update_dict (u : UpdateBookModel) : list (string * string) :=
  omap (fun '(k, v) => (fun x => (k, x)) <$> v)
    [("title", ub_title u); ("author", ub_author u); ("category", ub_category u)]%string.

(** ** Responses *)

(** An HTTP answer: status code and JSON body. *)
Record response := Resp { status : Z; body : json }.

(** [raise HTTPException(status_code=c, detail=m)]. *)
Definition http_error (code : Z) (msg : string) : response :=
  Resp code (JObj [("detail", JStr msg)]%string).

(** An uncaught exception: Starlette's plain 500 answer. *)
Definition internal_error : response :=
  Resp 500 (JStr "Internal Server Error"%string).

Definition error_kind_str (k : error_kind) : string :=
  match k with
  | ErrMissing => "value_error.missing"
  | ErrNone => "type_error.none.not_allowed"
  | ErrStr => "type_error.str"
  | ErrDict => "type_error.dict"
  | ErrType => "type_error"
  end%string.

Definition error_json (e : error) : json :=
  JObj [("loc", JArr (JStr "body" :: (if String.eqb e.1 "" then [] else [JStr e.1])));
        ("type", JStr (error_kind_str e.2))]%string.

(** FastAPI's answer to a [RequestValidationError]. *)
Definition validation_error (errs : list error) : response :=
  Resp 422 (JObj [("detail", JArr (map error_json errs))]%string).

(** The serialisation of a [BookModel] by alias. *)
Definition BookModel_json (b : BookModel) : json :=
  JObj [("_id", match bm_id b with Some s => JStr s | None => JNull end);
        ("title", JStr (bm_title b)); ("author", JStr (bm_author b));
        ("category", JStr (bm_category b))]%string.

(** [response_model=BookModel] applied to the dictionary a handler
    returns: validation, then serialisation; [None] is the validation
    failure FastAPI answers with 500. *)
Definition response_book (kvs : list (string * json)) : option json :=
  match BookModel_init kvs with
  | Ok b => Some (BookModel_json b)
  | Err _ => None
  end.

(** [BookModel.Config.schema_extra]: the example body the OpenAPI
    documentation shows for [POST /books]. *)
Definition BookModel_schema_example : json :=
  JObj [("title", JStr "Le Petit Prince");
        ("author", JStr "Antoine de Saint-Exupéry");
        ("category", JStr "Roman")]%string.

(** ** The hooks of [PyObjectId] *)

(** models.py [PyObjectId.__get_validators__]: the generator yields the
    one class validator [cls.validate]. *)
Definition PyObjectId_get_validators : list (string -> result string Z) :=
  [ObjectId.PyObjectId_validate].

(** [d.update(k=v)] on a dictionary: the binding of [k] takes the value
    [v] in place, or [k] is added at the end. *)
Fixpoint dict_update (k : string) (v : json) (d : list (string * json)) : list (string * json) :=
  match d with
  | [] => [(k, v)]
  | (k', v') :: r => if String.eqb k k' then (k', v) :: r else (k', v') :: dict_update k v r
  end.

(** models.py [PyObjectId.__modify_schema__]:
    [field_schema.update(type="string")]. *)
Definition PyObjectId_modify_schema (field_schema : list (string * json)) : list (string * json) :=
  dict_update "type" (JStr "string") field_schema.

(** The list of pairs a JSON array body of [[key, value]] items is. *)
Definition pairs_body (kvs : list (string * json)) : json :=
  JArr (map (fun kv => JArr [JStr kv.1; kv.2]) kvs).

(** ** Theorems *)

Lemma py_dict_pairs kvs :
  py_dict (map (fun kv => JArr [JStr kv.1; kv.2]) kvs) =
  Some (map (fun kv => (JStr kv.1, kv.2)) kvs).
Proof. induction kvs as [|[k v] kvs IH]; simpl; [done|]. by rewrite IH. Qed.

Lemma str_keys_pairs kvs : str_keys (map (fun kv => (JStr kv.1, kv.2)) kvs) = Some kvs.
Proof. induction kvs as [|[k v] kvs IH]; simpl; [done|]. by rewrite IH. Qed.

(** An array of [[key, value]] pairs with string keys validates as the
    object with those bindings: pydantic v1 applies [dict()] to it. *)
Lemma validate_body_pairs {A} (init : list (string * json) -> result (list error) A) kvs :
  validate_body init (pairs_body kvs) = validate_body init (JObj kvs).
Proof. unfold pairs_body. simpl. by rewrite py_dict_pairs, str_keys_pairs. Qed.

Lemma dict_get_None k kvs : ~ In k (map fst kvs) -> dict_get k kvs = None.
Proof.
  induction kvs as [|[k' v] kvs IH]; simpl; intros Hn; [done|].
  rewrite IH by tauto. destruct (String.eqb_spec k k'); [subst; tauto | done].
Qed.

Lemma dict_get_cons_ne k k' v kvs : k <> k' -> dict_get k ((k', v) :: kvs) = dict_get k kvs.
Proof.
  intros Hne. simpl. destruct (dict_get k kvs); [done|].
  by rewrite (proj2 (String.eqb_neq k k') Hne).
Qed.

(** A body whose ["_id"] is a value [str] accepts, or [null], validates
    to the model of the body without it, up to the id; an array or an
    object there is a [StrError] at ["_id"]. *)
Lemma BookModel_init_id kvs v :
  ~ In "_id"%string (map fst kvs) -> ~ In "id"%string (map fst kvs) ->
  match v with
  | JArr _ | JObj _ =>
      exists errs, BookModel_init (("_id"%string, v) :: kvs) = Err (("_id"%string, ErrStr) :: errs)
  | _ =>
      match BookModel_init (("_id"%string, v) :: kvs), BookModel_init kvs with
      | Ok b1, Ok b2 => BookModel_dict_exclude_id b1 = BookModel_dict_exclude_id b2
      | Err e1, Err e2 => e1 = e2
      | _, _ => False
      end
  end.
Proof.
  intros Hi Hid. unfold BookModel_init.
  rewrite (dict_get_cons_ne "title"), (dict_get_cons_ne "author"), (dict_get_cons_ne "category"),
    (dict_get_cons_ne "id") by (intros ?; discriminate).
  rewrite (dict_get_None "_id"%string kvs Hi), (dict_get_None "id"%string kvs Hid).
  cbn [dict_get String.eqb Ascii.eqb Bool.eqb].
  rewrite (dict_get_None "_id"%string kvs Hi). cbn [validate_optional_str].
  destruct (validate_required_str "title" _) as [t|et];
  destruct (validate_required_str "author" _) as [a|ea];
  destruct (validate_required_str "category" _) as [c|ec];
  destruct v as [| [] | z | s | l | o]; cbn [str_validator errs_of app]; eauto.
Qed.

Lemma dict_update_keys k v d :
  map fst (dict_update k v d) = if existsb (String.eqb k) (map fst d) then map fst d else map fst d ++ [k].
Proof.
  induction d as [|[k' v'] d IH]; simpl; [done|].
  destruct (String.eqb_spec k k') as [<-|Hne]; simpl; [done|].
  rewrite IH. by destruct (existsb _ _).
Qed.

Lemma dict_update_nodup k v d :
  List.NoDup (map fst d) -> List.NoDup (map fst (dict_update k v d)).
Proof.
  intros Hnd. rewrite dict_update_keys. destruct (existsb (String.eqb k) (map fst d)) eqn:He; [done|].
  apply (Permutation_NoDup (Permutation_cons_append _ _)).
  constructor; [|done]. intros Hx. rewrite <- not_true_iff_false, existsb_exists in He.
  apply He. exists k. split; [done | apply String.eqb_refl].
Qed.

Lemma dict_get_update_eq k v d :
  List.NoDup (map fst d) -> dict_get k (dict_update k v d) = Some v.
Proof.
  induction d as [|[k' v'] d IH]; simpl; intros Hnd.
  - by rewrite String.eqb_refl.
  - apply NoDup_cons_iff in Hnd as [Hn Hnd].
    destruct (String.eqb_spec k k') as [<-|Hne]; simpl.
    + rewrite dict_get_None by done. by rewrite String.eqb_refl.
    + rewrite IH by done. done.
Qed.

Lemma dict_get_update_ne k k0 v d :
  k0 <> k -> dict_get k0 (dict_update k v d) = dict_get k0 d.
Proof.
  intros Hne. induction d as [|[k' v'] d IH]; simpl.
  - destruct (dict_get k0 []) eqn:E; [discriminate|]. by rewrite (proj2 (String.eqb_neq k0 k) Hne).
  - destruct (String.eqb_spec k k') as [<-|Hne']; simpl.
    + by rewrite (proj2 (String.eqb_neq k0 k) Hne).
    + by rewrite IH.
Qed.

(** The schema of a [PyObjectId] field says [type: string], keeps every
    other entry, and is still a dictionary. *)
Lemma PyObjectId_modify_schema_spec fs :
  List.NoDup (map fst fs) ->
  dict_get "type" (PyObjectId_modify_schema fs) = Some (JStr "string") /\
  (forall k, k <> "type"%string -> dict_get k (PyObjectId_modify_schema fs) = dict_get k fs) /\
  List.NoDup (map fst (PyObjectId_modify_schema fs)).
Proof.
  intros Hnd. unfold PyObjectId_modify_schema. split; [by apply dict_get_update_eq|].
  split; [intros k Hk; by apply dict_get_update_ne | by apply dict_update_nodup].
Qed.

End Models.
