(* ===== verification/Gateway.v ===== *)
(** * The store gateway: what the handlers need of the collection

    The data the handlers and the collection exchange (documents, store
    errors), the semantics of the [$set] update and of a filter of
    caseless [$regex] conditions, and the contract of the five collection
    operations the handlers await (spec section 4.2) as the class
    [Gateway] with its laws [GatewayLaws].  The handlers' theorems
    (Handlers.v) are proved against this class; the MongoDB model of
    Store.v is an instance.

    Regular expressions are the class [RegexEngine]: a compiler that may
    reject a pattern and a caseless search, with the law that a pattern
    of ASCII characters without metacharacters searches as a caseless
    substring test on ASCII text. *)

From S2P Require Import Prelude ObjectId.

Module Gateway.

Local Open Scope Z_scope.

(** ** Documents *)

(** A stored document: its ["_id"] and its other fields in order. *)
Record doc := mkDoc { d_id : Z; d_fields : list (string * string) }.

#[export] Instance doc_eq_dec : EqDecision doc.
Proof. solve_decision. Defined.

Inductive mongo_error :=
| DuplicateKey (oid : Z)
| BadRegex (pat : string).

(** Whether a document has the given id. *)
Definition has_id (oid : Z) (d : doc) : bool := d_id d =? oid.

(** ** Regular expressions *)

Definition is_meta (c : ascii) : bool :=
  existsb (Ascii.eqb c) (list_ascii_of_string "\^$.|?*+()[]{}").

Definition is_ascii (c : ascii) : bool := (nat_of_ascii c <? 128)%nat.

Definition ascii_str (s : string) : bool :=
  forallb is_ascii (list_ascii_of_string s).

(** A pattern that the server reads as its own characters: ASCII, no
    metacharacter of PCRE, and no NUL (MongoDB refuses a regular
    expression with an embedded null byte). *)
Definition literal (p : string) : bool :=
  forallb (fun c => negb (is_meta c) && is_ascii c && negb (Ascii.eqb c "000"%char))
    (list_ascii_of_string p).

(** The regular expressions of the server, with [$options: "i"]. *)
Class RegexEngine := {
  regex : Type;
  re_compile : string -> option regex;
  re_search : regex -> string -> bool;
  re_literal : forall p, literal p = true ->
    exists r, re_compile p = Some r /\
      forall s, ascii_str s = true -> re_search r s = contains_ci p s
}.

(** ** Fields *)

Fixpoint field_get (k : string) (fs : list (string * string)) : option string :=
  match fs with
  | [] => None
  | (k', v) :: r => if String.eqb k k' then Some v else field_get k r
  end.

(** [$set] of one field: replaced in place, or appended when absent. *)
Fixpoint set_field (k v : string) (fs : list (string * string))
    : list (string * string) :=
  match fs with
  | [] => [(k, v)]
  | (k', v') :: r =>
      if String.eqb k k' then (k', v) :: r else (k', v') :: set_field k v r
  end.

Definition apply_set (patch fs : list (string * string)) : list (string * string) :=
  fold_left (fun acc kv => set_field kv.1 kv.2 acc) patch fs.

Section WithRegex.
Context {RE : RegexEngine}.

(** A [$regex] condition on field [k]: a document without the field does
    not match. *)
Definition cond_holds (k : string) (r : regex) (d : doc) : bool :=
  match field_get k (d_fields d) with
  | Some v => re_search r v
  | None => false
  end.

(** The server compiles every pattern of the filter before reading. *)
Fixpoint compile_query (q : list (string * string))
    : result mongo_error (list (string * regex)) :=
  match q with
  | [] => Ok []
  | (k, p) :: q' =>
      match re_compile p with
      | None => Err (BadRegex p)
      | Some r => cq <- compile_query q' ;; Ok ((k, r) :: cq)
      end
  end.

Definition doc_matches (cq : list (string * regex)) (d : doc) : bool :=
  forallb (fun kr => cond_holds kr.1 kr.2 d) cq.

End WithRegex.

(** ** Well-formed documents *)

Definition book_keys : list string := ["title"; "author"; "category"]%string.

(** A document as the handlers write it: a 96-bit id and the three keys
    of [BookModel], in the order of [book.dict()]. *)
Definition doc_wf (d : doc) : Prop :=
  0 <= d_id d < 2 ^ 96 /\ map fst (d_fields d) = book_keys.

(** ** The contract of the collection *)

Section Contract.
Context {RE : RegexEngine}.

(** The five operations the handlers await, on a store of type [W]. *)
Class Gateway (W : Type) := {
  gw_insert_one : list (string * string) -> W -> W * result mongo_error Z;
  gw_find_one : Z -> W -> option doc;
  gw_find : list (string * string) -> W -> result mongo_error (list doc);
  gw_update_one : Z -> list (string * string) -> W -> W * Z;
  gw_delete_one : Z -> W -> W * Z
}.

(** What the operations promise on a store that satisfies the invariant
    [gw_wf]: lookups by id, a fresh id for an inserted book, [$set]
    applied to one book with the modified count of a no-op update being 0,
    deletion of one book, and a listing that holds each matching book
    exactly once. *)
Class GatewayLaws (W : Type) `{!Gateway W} := {
  gw_wf : W -> Prop;
  gw_find_one_wf w oid d :
    gw_wf w -> gw_find_one oid w = Some d -> d_id d = oid /\ doc_wf d;
  gw_insert_one_spec w fs :
    gw_wf w -> map fst fs = book_keys ->
    gw_wf (gw_insert_one fs w).1 /\
    match (gw_insert_one fs w).2 with
    | Ok oid =>
        0 <= oid < 2 ^ 96 /\ gw_find_one oid w = None /\
        gw_find_one oid (gw_insert_one fs w).1 = Some (mkDoc oid fs) /\
        forall o, o <> oid -> gw_find_one o (gw_insert_one fs w).1 = gw_find_one o w
    | Err _ => forall o, gw_find_one o (gw_insert_one fs w).1 = gw_find_one o w
    end;
  gw_update_one_spec w oid patch :
    gw_wf w -> Forall (fun kv => In kv.1 book_keys) patch ->
    gw_wf (gw_update_one oid patch w).1 /\
    gw_find_one oid (gw_update_one oid patch w).1 =
      (fun d => mkDoc oid (apply_set patch (d_fields d))) <$> gw_find_one oid w /\
    (forall o, o <> oid ->
       gw_find_one o (gw_update_one oid patch w).1 = gw_find_one o w) /\
    (gw_update_one oid patch w).2 =
      match gw_find_one oid w with
      | Some d => if decide (apply_set patch (d_fields d) = d_fields d) then 0 else 1
      | None => 0
      end;
  gw_delete_one_spec w oid :
    gw_wf w ->
    gw_wf (gw_delete_one oid w).1 /\
    gw_find_one oid (gw_delete_one oid w).1 = None /\
    (forall o, o <> oid -> gw_find_one o (gw_delete_one oid w).1 = gw_find_one o w) /\
    (gw_delete_one oid w).2 = (match gw_find_one oid w with Some _ => 1 | None => 0 end);
  gw_find_spec w q :
    gw_wf w ->
    match compile_query q with
    | Err e => gw_find q w = Err e
    | Ok cq => exists ds, gw_find q w = Ok ds /\ List.NoDup ds /\
        forall d, In d ds <-> gw_find_one (d_id d) w = Some d /\ doc_matches cq d = true
    end
}.

End Contract.

(** ** Lemmas *)

Lemma has_id_spec oid d : reflect (d_id d = oid) (has_id oid d).
Proof. unfold has_id. apply Z.eqb_spec. Qed.

End Gateway.
