(* ===== verification/Store.v ===== *)
(** * The document store: the MongoDB collection [books]

    The collection [collection = db.books] of main.py (line 23), as an
    ordered list of documents (MongoDB's natural order), together with the
    state of the driver's id generator (bson's [ObjectId._inc], the
    process's random bytes, the clock).  The handlers use five operations
    of Motor's collection: [insert_one] (line 33), [find_one] on ["_id"]
    (lines 34, 61, 78, 82), [find] with a filter of caseless [$regex]
    conditions (lines 42-51), [update_one] with [$set] (line 76) and
    [delete_one] (line 93).  They are modelled from MongoDB's documented
    behaviour: a duplicate ["_id"] is a [DuplicateKeyError], an update
    whose [$set] changes nothing reports [modified_count] 0, an invalid
    regular expression fails the whole query.

    The model is an instance of the class [Gateway.Gateway]: its laws are
    proved here from the invariant [wf_world]. *)

From S2P Require Import Prelude ObjectId Gateway.

Module Store.
Import Gateway.

Local Open Scope Z_scope.

(** ** The world *)

(** The collection and the id generator of the driver process. *)
Record world := mkWorld {
  w_docs : list doc;
  w_time : Z;
  w_rand : Z;
  w_inc : Z
}.

Implicit Types (ds : list doc) (d : doc) (oid : Z) (w : world).

(** ** Operations *)

(** [find_one({"_id": oid})]. *)
Definition find_one (oid : Z) (w : world) : option doc :=
  find (has_id oid) (w_docs w).

(** [insert_one(fields)]: the driver adds ["_id": ObjectId()] (the counter
    moves even if the server then rejects the document). *)
Definition insert_one (fs : list (string * string)) (w : world)
    : world * result mongo_error Z :=
  let oid := ObjectId.generate (w_time w) (w_rand w) (w_inc w) in
  let w1 := mkWorld (w_docs w) (w_time w) (w_rand w) (ObjectId.next_inc (w_inc w)) in
  if existsb (has_id oid) (w_docs w) then (w1, Err (DuplicateKey oid))
  else (mkWorld (w_docs w ++ [mkDoc oid fs]) (w_time w) (w_rand w) (w_inc w1), Ok oid).

Fixpoint replace_first (oid : Z) (d' : doc) (ds : list doc) : list doc :=
  match ds with
  | [] => []
  | d :: r => if has_id oid d then d' :: r else d :: replace_first oid d' r
  end.

Fixpoint remove_first (oid : Z) (ds : list doc) : list doc :=
  match ds with
  | [] => []
  | d :: r => if has_id oid d then r else d :: remove_first oid r
  end.

Definition with_docs (w : world) (ds : list doc) : world :=
  mkWorld ds (w_time w) (w_rand w) (w_inc w).

(** [update_one({"_id": oid}, {"$set": patch})], returning
    [modified_count]. *)
Definition update_one (oid : Z) (patch : list (string * string)) (w : world)
    : world * Z :=
  match find_one oid w with
  | None => (w, 0)
  | Some d =>
      let fs' := apply_set patch (d_fields d) in
      if decide (fs' = d_fields d) then (w, 0)
      else (with_docs w (replace_first oid (mkDoc oid fs') (w_docs w)), 1)
  end.

(** [delete_one({"_id": oid})], returning [deleted_count]. *)
Definition delete_one (oid : Z) (w : world) : world * Z :=
  match find_one oid w with
  | None => (w, 0)
  | Some _ => (with_docs w (remove_first oid (w_docs w)), 1)
  end.

Section WithRegex.
Context {RE : RegexEngine}.

(** [find(query)], read to the end by [async for]. *)
Definition find (q : list (string * string)) (w : world)
    : result mongo_error (list doc) :=
  cq <- compile_query q ;; Ok (List.filter (doc_matches cq) (w_docs w)).

(** The collection as a [Gateway]. *)
#[export] Instance mongo_gateway : Gateway world := {|
  gw_insert_one := insert_one;
  gw_find_one := find_one;
  gw_find := find;
  gw_update_one := update_one;
  gw_delete_one := delete_one
|}.

End WithRegex.

(** ** The invariant *)

Definition wf_docs (ds : list doc) : Prop :=
  List.NoDup (map d_id ds) /\ Forall doc_wf ds.

Definition wf_world (w : world) : Prop := wf_docs (w_docs w).

(** The invariant as a test, for concrete stores. *)
Definition wf_docsb (ds : list doc) : bool :=
  bool_decide (NoDup (map d_id ds)) &&
  forallb (fun d => bool_decide (0 <= d_id d < 2 ^ 96 /\ map fst (d_fields d) = book_keys)) ds.

(** ** Lookups by id in a list of documents *)

Lemma find_id_some ds oid d :
  List.find (has_id oid) ds = Some d -> d_id d = oid /\ In d ds.
Proof.
  intros H. apply find_some_in in H as [Hin Hid]. unfold has_id in Hid.
  bool_simpl. auto.
Qed.

Lemma find_id_none ds oid :
  List.find (has_id oid) ds = None <-> ~ In oid (map d_id ds).
Proof.
  rewrite find_none_forall, List.Forall_forall, in_map_iff. unfold has_id.
  split.
  - intros H [d [<- Hd]]. specialize (H d Hd). bool_simpl. done.
  - intros H d Hd. apply Z.eqb_neq. intros <-. eauto.
Qed.

Lemma find_id_in ds d :
  List.NoDup (map d_id ds) -> In d ds -> List.find (has_id (d_id d)) ds = Some d.
Proof.
  induction ds as [|d' ds IH]; simpl; [done|]. intros Hnd Hin.
  apply NoDup_cons_iff in Hnd as [Hn Hnd]. unfold has_id at 1.
  destruct (Z.eqb_spec (d_id d') (d_id d)) as [E|E].
  - destruct Hin as [->|Hin]; [done|].
    exfalso. apply Hn. rewrite E. by apply in_map.
  - destruct Hin as [->|Hin]; [done|]. by apply IH.
Qed.

Lemma find_id_app ds1 ds2 oid :
  List.find (has_id oid) (ds1 ++ ds2) =
  match List.find (has_id oid) ds1 with Some d => Some d | None => List.find (has_id oid) ds2 end.
Proof. induction ds1 as [|d ds1 IH]; simpl; [done|]. by destruct (has_id oid d). Qed.

Lemma existsb_has_id ds oid : existsb (has_id oid) ds = true <-> In oid (map d_id ds).
Proof.
  rewrite existsb_exists, in_map_iff.
  split; intros (d & H1 & H2); exists d; split; try done;
    [by destruct (has_id_spec oid d) | by apply Z.eqb_eq].
Qed.

Lemma map_id_replace_first oid d' ds :
  d_id d' = oid -> map d_id (replace_first oid d' ds) = map d_id ds.
Proof.
  intros Hid. induction ds as [|d ds IH]; simpl; [done|].
  destruct (has_id_spec oid d); simpl; congruence.
Qed.

Lemma Forall_replace_first (P : doc -> Prop) oid d' ds :
  P d' -> Forall P ds -> Forall P (replace_first oid d' ds).
Proof.
  intros Hd'. induction 1 as [|d ds Hd Hds IH]; simpl; [constructor|].
  destruct (has_id oid d); constructor; auto.
Qed.

(** Replacing the document of id [oid]: lookups of [oid] see the new one,
    lookups of other ids are unchanged. *)
Lemma find_replace_first ds oid d' o :
  List.NoDup (map d_id ds) -> d_id d' = oid -> In oid (map d_id ds) ->
  List.find (has_id o) (replace_first oid d' ds) =
    if decide (o = oid) then Some d' else List.find (has_id o) ds.
Proof.
  intros Hnd Hid. induction ds as [|d ds IH]; simpl; [done|].
  apply NoDup_cons_iff in Hnd as [Hn Hnd]. intros Hin.
  destruct (has_id_spec oid d) as [E|E]; simpl.
  - destruct (has_id_spec o d') as [E'|E']; case_decide; try congruence.
    destruct (has_id_spec o d); congruence.
  - destruct Hin as [Hin|Hin]; [congruence|]. rewrite IH by done.
    destruct (has_id_spec o d); case_decide; congruence.
Qed.

(** Removing the document of id [oid]: it is gone, the others stay. *)
Lemma find_remove_first ds oid o :
  List.NoDup (map d_id ds) ->
  List.find (has_id o) (remove_first oid ds) =
    if decide (o = oid) then None else List.find (has_id o) ds.
Proof.
  induction ds as [|d ds IH]; simpl; intros Hnd; [by case_decide|].
  apply NoDup_cons_iff in Hnd as [Hn Hnd].
  destruct (has_id_spec oid d) as [E|E]; simpl.
  - destruct (has_id_spec o d) as [E'|E']; case_decide; try congruence.
    apply find_id_none. by rewrite <- E'.
  - rewrite IH by done. destruct (has_id_spec o d); case_decide; congruence.
Qed.

Lemma remove_first_incl oid ds x :
  In x (map d_id (remove_first oid ds)) -> In x (map d_id ds).
Proof.
  induction ds as [|d ds IH]; simpl; [done|].
  destruct (has_id oid d); simpl; [auto|]. intros [?|?]; auto.
Qed.

Lemma wf_docs_remove_first oid ds : wf_docs ds -> wf_docs (remove_first oid ds).
Proof.
  intros [Hnd Hf]. split.
  - induction ds as [|d ds IH]; simpl; [constructor|].
    apply NoDup_cons_iff in Hnd as [Hn Hnd]. invc Hf.
    destruct (has_id oid d); [done|]. simpl. constructor; auto.
    intros Hin. by apply Hn, (remove_first_incl oid).
  - induction Hf as [|d ds Hd Hf IH]; simpl; [constructor|].
    apply NoDup_cons_iff in Hnd as [_ Hnd].
    destruct (has_id oid d); [done|]. constructor; auto.
Qed.

(** ** [$set] keeps the keys of a document *)

Lemma set_field_keys k v fs :
  In k (map fst fs) -> map fst (set_field k v fs) = map fst fs.
Proof.
  induction fs as [|[k' v'] fs IH]; simpl; [done|]. intros Hin.
  destruct (String.eqb_spec k k'); simpl; [done|].
  destruct Hin as [?|Hin]; [congruence|]. by rewrite IH.
Qed.

Lemma apply_set_keys patch : forall fs,
  Forall (fun kv => In kv.1 (map fst fs)) patch ->
  map fst (apply_set patch fs) = map fst fs.
Proof.
  induction patch as [|[k v] patch IH]; intros fs Hp; simpl; [done|].
  invc Hp. unfold apply_set in IH |- *. simpl.
  pose proof (set_field_keys k v fs H1) as Hk.
  rewrite IH; [done|]. rewrite Hk. done.
Qed.

Lemma wf_docsb_spec ds : wf_docsb ds = true <-> wf_docs ds.
Proof.
  unfold wf_docsb, wf_docs, doc_wf.
  rewrite andb_true_iff, bool_decide_eq_true, NoDup_ListNoDup, forallb_forall,
    List.Forall_forall.
  setoid_rewrite bool_decide_eq_true. done.
Qed.

#[export] Hint Resolve wf_docs_remove_first : bib.

(** ** The operations meet the contract of the gateway *)

Lemma find_one_wf w oid d :
  wf_world w -> find_one oid w = Some d -> d_id d = oid /\ doc_wf d.
Proof.
  intros [_ Hf] H. apply find_id_some in H as [Hid Hin]. split; [done|].
  by eapply List.Forall_forall in Hf.
Qed.

Lemma find_one_in w d : wf_world w -> In d (w_docs w) -> find_one (d_id d) w = Some d.
Proof. intros [Hnd _]. by apply find_id_in. Qed.

Lemma insert_one_spec w fs :
  wf_world w -> map fst fs = book_keys ->
  wf_world (insert_one fs w).1 /\
  match (insert_one fs w).2 with
  | Ok oid =>
      0 <= oid < 2 ^ 96 /\ find_one oid w = None /\
      find_one oid (insert_one fs w).1 = Some (mkDoc oid fs) /\
      forall o, o <> oid -> find_one o (insert_one fs w).1 = find_one o w
  | Err _ => forall o, find_one o (insert_one fs w).1 = find_one o w
  end.
Proof.
  intros [Hnd Hf] Hk. unfold insert_one, find_one, wf_world, wf_docs. simpl.
  set (oid := ObjectId.generate (w_time w) (w_rand w) (w_inc w)).
  pose proof (ObjectId.generate_range (w_time w) (w_rand w) (w_inc w)) as Hr.
  destruct (existsb (has_id oid) (w_docs w)) eqn:Ex; simpl; [done|].
  assert (Hn : ~ In oid (map d_id (w_docs w))) by (rewrite <- existsb_has_id; congruence).
  split; [split|].
  - rewrite map_app. apply List.NoDup_app; [done | simpl; constructor; [intros [] | constructor] |].
    intros a Ha [<-|[]]. simpl in Ha. contradiction.
  - apply Forall_app. split; [done|]. repeat constructor; simpl; [lia..| done].
  - repeat split; [lia | lia | by apply find_id_none | |].
    + rewrite find_id_app, (proj2 (find_id_none _ _) Hn). simpl.
      by destruct (has_id_spec oid (mkDoc oid fs)).
    + intros o Ho. rewrite find_id_app.
      destruct (List.find (has_id o) (w_docs w)); [done|]. simpl.
      destruct (has_id_spec o (mkDoc oid fs)); simpl in *; congruence.
Qed.

Lemma update_one_spec w oid patch :
  wf_world w -> Forall (fun kv => In kv.1 book_keys) patch ->
  wf_world (update_one oid patch w).1 /\
  find_one oid (update_one oid patch w).1 =
    (fun d => mkDoc oid (apply_set patch (d_fields d))) <$> find_one oid w /\
  (forall o, o <> oid -> find_one o (update_one oid patch w).1 = find_one o w) /\
  (update_one oid patch w).2 =
    match find_one oid w with
    | Some d => if decide (apply_set patch (d_fields d) = d_fields d) then 0 else 1
    | None => 0
    end.
Proof.
  intros Hwf Hp. unfold update_one.
  destruct (find_one oid w) as [d|] eqn:Hd; simpl; [|done].
  destruct (find_one_wf w oid d Hwf Hd) as [Hid [Hr Hk]].
  pose proof Hd as Hin. apply find_id_some in Hin as [_ Hin].
  destruct Hwf as [Hnd Hf].
  assert (Hin' : In oid (map d_id (w_docs w))) by (rewrite <- Hid; by apply in_map).
  case_decide as Heq; simpl.
  - split; [by split|]. split; [|split; [by intros | done]].
    rewrite Hd, Heq, <- Hid. by destruct d.
  - unfold find_one, with_docs, wf_world, wf_docs. simpl. repeat split.
    + by rewrite map_id_replace_first.
    + apply Forall_replace_first; [|done]. split; simpl; [by rewrite <- Hid|].
      rewrite apply_set_keys; [done|]. by rewrite Hk.
    + rewrite find_replace_first by done. by case_decide.
    + intros o Ho. rewrite find_replace_first by done. by case_decide.
Qed.

Lemma delete_one_spec w oid :
  wf_world w ->
  wf_world (delete_one oid w).1 /\
  find_one oid (delete_one oid w).1 = None /\
  (forall o, o <> oid -> find_one o (delete_one oid w).1 = find_one o w) /\
  (delete_one oid w).2 = (match find_one oid w with Some _ => 1 | None => 0 end).
Proof.
  intros Hwf. unfold delete_one.
  destruct (find_one oid w) eqn:Hd; simpl; [|done].
  pose proof (proj1 Hwf) as Hnd. unfold find_one, with_docs, wf_world. simpl.
  split; [by apply wf_docs_remove_first|].
  split; [rewrite find_remove_first by done; by case_decide|].
  split; [|done]. intros o Ho. rewrite find_remove_first by done. by case_decide.
Qed.

(** The id generator wraps: when the driver's counter comes back,
    modulo [2^24], to the counter of a stored id of the same second and
    process, [insert_one] fails with a duplicate key, so at most [2^24]
    books can be created per second. *)
Lemma insert_one_counter_wrap fs w i :
  In (ObjectId.generate (w_time w) (w_rand w) i) (map d_id (w_docs w)) ->
  w_inc w mod 2 ^ 24 = i mod 2 ^ 24 ->
  (insert_one fs w).2 = Err (DuplicateKey (ObjectId.generate (w_time w) (w_rand w) (w_inc w))).
Proof.
  intros Hin Hc. unfold insert_one.
  rewrite (proj2 (ObjectId.generate_period _ _ _ _) Hc), (proj2 (existsb_has_id _ _) Hin).
  reflexivity.
Qed.

Section Instance.
Context {RE : RegexEngine}.

Lemma find_spec w q :
  wf_world w ->
  match compile_query q with
  | Err e => find q w = Err e
  | Ok cq => exists ds, find q w = Ok ds /\ List.NoDup ds /\
      forall d, In d ds <-> find_one (d_id d) w = Some d /\ doc_matches cq d = true
  end.
Proof.
  intros Hwf. unfold find. destruct (compile_query q) as [cq|e]; [|done].
  eexists; split; [reflexivity|]. split.
  - apply List.NoDup_filter. apply (List.NoDup_map_inv d_id). apply Hwf.
  - intros d. rewrite List.filter_In. split.
    + intros [Hin Hm]. split; [by apply find_one_in | done].
    + intros [Hfd Hm]. apply find_id_some in Hfd. tauto.
Qed.

#[export] Instance mongo_gateway_laws : GatewayLaws world := {|
  gw_wf := wf_world;
  gw_find_one_wf := find_one_wf;
  gw_insert_one_spec := insert_one_spec;
  gw_update_one_spec := update_one_spec;
  gw_delete_one_spec := delete_one_spec;
  gw_find_spec := find_spec
|}.

End Instance.

End Store.
