(* ===== verification/Regex.v ===== *)
(** * A regular-expression engine for a fragment of PCRE

    The search parameters of [GET /books] reach MongoDB as [$regex]
    patterns with [$options: "i"] (main.py lines 43-48), which the server
    compiles with PCRE.  This file is an instance of [Gateway.RegexEngine]
    for a fragment of PCRE's syntax: literal characters, escapes of
    non-alphanumeric characters, [.], the anchors [^] and [$], groups,
    alternation, and the quantifiers [*], [+] and [?] (with a lazy [?]
    after a quantifier, which does not change what a search finds).
    Character classes, counted repetition, possessive quantifiers, escapes
    of letters or digits, and a lone [\]] or [}] (which PCRE reads as a
    literal) are outside the fragment and rejected; so are the patterns
    PCRE rejects ([(] unclosed, [)] unmatched, a quantifier with nothing
    to repeat, a trailing backslash) and those MongoDB refuses before
    PCRE sees them (an embedded NUL).

    The parser [parse] is a left-to-right fold over the pattern with a
    stack of open groups, so it is total and structural.  The matcher
    [ends r s i] computes the positions at which a match of [r] that
    starts at [i] in [s] can end; [*] iterates once per position of [s],
    which is enough because a star that repeats at a position it has
    already reached adds nothing ([ends_complete]).  Letters are compared
    after ASCII case folding, the [i] option of the handlers. *)

From S2P Require Import Prelude Gateway.

Module Regex.
Import Gateway.

(** ** Syntax *)

Inductive re :=
| RNone
| REps
| RChr (c : ascii)
| RAny
| RBol
| REol
| RCat (r1 r2 : re)
| RAlt (r1 r2 : re)
| RStar (r : re).

Definition RPlus (r : re) : re := RCat r (RStar r).
Definition ROpt (r : re) : re := RAlt r REps.

(** A sequence, read in reverse order, as a concatenation. *)
Definition seq_re (rev_rs : list re) : re := fold_left (fun acc r => RCat r acc) rev_rs REps.

(** Alternatives as a right-nested alternation. *)
Fixpoint alt_re (rs : list re) : re :=
  match rs with
  | [] => RNone
  | [r] => r
  | r :: rs' => RAlt r (alt_re rs')
  end.

(** ** Parsing *)

(** What may follow an atom: 0 any quantifier, 1 only the lazy [?]
    (the atom was just quantified), 2 nothing (an anchor, or an atom
    already quantified twice). *)
Definition quant_state := nat.

(** An open group: the alternatives closed so far and the current
    sequence, most recent atom first. *)
Record frame := Frame { f_alts : list re; f_seq : list (re * quant_state) }.

Definition close_frame (f : frame) : re :=
  alt_re (f_alts f ++ [seq_re (map fst (f_seq f))]).

Definition empty_frame : frame := Frame [] [].

Definition push_atom (a : re) (q : quant_state) (st : list frame) : option (list frame) :=
  match st with
  | f :: st' => Some (Frame (f_alts f) ((a, q) :: f_seq f) :: st')
  | [] => None
  end.

Definition quantify (k : ascii) (st : list frame) : option (list frame) :=
  match st with
  | Frame alts ((a, 0%nat) :: sq) :: st' =>
      let a' := if Ascii.eqb k "*"%char then RStar a
                else if Ascii.eqb k "+"%char then RPlus a else ROpt a in
      Some (Frame alts ((a', 1%nat) :: sq) :: st')
  | Frame alts ((a, 1%nat) :: sq) :: st' =>
      if Ascii.eqb k "?"%char then Some (Frame alts ((a, 2%nat) :: sq) :: st') else None
  | _ => None
  end.

Definition is_alnum (c : ascii) : bool :=
  let n := nat_of_ascii c in
  ((48 <=? n) && (n <=? 57)) || ((65 <=? n) && (n <=? 90)) || ((97 <=? n) && (n <=? 122)).

(** One character of the pattern; the [bool] is a pending backslash.  A
    NUL anywhere is refused, as MongoDB refuses it. *)
Definition parse_char (stt : option (bool * list frame)) (c : ascii) : option (bool * list frame) :=
  if Ascii.eqb c "000"%char then None else
  match stt with
  | None => None
  | Some (true, st) =>
      if is_alnum c then None else (fun st' => (false, st')) <$> push_atom (RChr c) 0 st
  | Some (false, st) =>
      if Ascii.eqb c "\"%char then Some (true, st)
      else if Ascii.eqb c "("%char then Some (false, empty_frame :: st)
      else if Ascii.eqb c ")"%char then
        match st with
        | f :: st' => (fun st'' => (false, st'')) <$> push_atom (close_frame f) 0 st'
        | [] => None
        end
      else if Ascii.eqb c "|"%char then
        match st with
        | Frame alts sq :: st' =>
            Some (false, Frame (alts ++ [seq_re (map fst sq)]) [] :: st')
        | [] => None
        end
      else if Ascii.eqb c "*"%char || Ascii.eqb c "+"%char || Ascii.eqb c "?"%char then
        (fun st' => (false, st')) <$> quantify c st
      else if Ascii.eqb c "."%char then (fun st' => (false, st')) <$> push_atom RAny 0 st
      else if Ascii.eqb c "^"%char then (fun st' => (false, st')) <$> push_atom RBol 2 st
      else if Ascii.eqb c "$"%char then (fun st' => (false, st')) <$> push_atom REol 2 st
      else if Ascii.eqb c "["%char || Ascii.eqb c "]"%char || Ascii.eqb c "{"%char || Ascii.eqb c "}"%char then None
      else (fun st' => (false, st')) <$> push_atom (RChr c) 0 st
  end.

(** The pattern, or [None] when PCRE (or the fragment) rejects it. *)
Definition parse (p : string) : option re :=
  match fold_left parse_char (list_ascii_of_string p) (Some (false, [empty_frame])) with
  | Some (false, [f]) => Some (close_frame f)
  | _ => None
  end.

(** ** Matching *)

Definition fold_eq (a b : ascii) : bool := Ascii.eqb (lower_ascii a) (lower_ascii b).

(** One round of the star: the positions reached so far and those one
    more repetition reaches from them. *)
Definition star_round (f : nat -> list nat) (xs : list nat) : list nat :=
  List.nodup Nat.eq_dec (xs ++ flat_map f xs).

Definition star_iter (k : nat) (f : nat -> list nat) (xs : list nat) : list nat :=
  Nat.iter k (star_round f) xs.

(** The positions [j] such that [s[i..j)] matches [r], in the context of
    the whole subject [s] (for the anchors). *)
Fixpoint ends (r : re) (s : list ascii) (i : nat) : list nat :=
  match r with
  | RNone => []
  | REps => [i]
  | RChr c =>
      match nth_error s i with Some x => if fold_eq c x then [S i] else [] | None => [] end
  | RAny =>
      match nth_error s i with
      | Some x => if Ascii.eqb x "010"%char then [] else [S i]
      | None => []
      end
  | RBol => if Nat.eqb i 0 then [i] else []
  | REol =>
      if Nat.eqb i (List.length s) then [i]
      else match nth_error s i with
           | Some x => if Nat.eqb (S i) (List.length s) && Ascii.eqb x "010"%char then [i] else []
           | None => []
           end
  | RCat r1 r2 => flat_map (ends r2 s) (ends r1 s i)
  | RAlt r1 r2 => ends r1 s i ++ ends r2 s i
  | RStar r1 => star_iter (S (List.length s)) (ends r1 s) [i]
  end.

(** An unanchored search: a match starts at some position. *)
Definition search (r : re) (v : string) : bool :=
  let s := list_ascii_of_string v in
  existsb (fun i => match ends r s i with [] => false | _ => true end) (List.seq 0 (S (List.length s))).

(** ** The reference semantics *)

(** [matches r s i j]: [s[i..j)] matches [r] in the subject [s]. *)
Inductive matches (s : list ascii) : re -> nat -> nat -> Prop :=
| m_eps i : matches s REps i i
| m_chr c i x : nth_error s i = Some x -> fold_eq c x = true -> matches s (RChr c) i (S i)
| m_any i x : nth_error s i = Some x -> x <> "010"%char -> matches s RAny i (S i)
| m_bol : matches s RBol 0 0
| m_eol_end : matches s REol (List.length s) (List.length s)
| m_eol_nl i : S i = List.length s -> nth_error s i = Some "010"%char -> matches s REol i i
| m_cat r1 r2 i k j : matches s r1 i k -> matches s r2 k j -> matches s (RCat r1 r2) i j
| m_altl r1 r2 i j : matches s r1 i j -> matches s (RAlt r1 r2) i j
| m_altr r1 r2 i j : matches s r2 i j -> matches s (RAlt r1 r2) i j
| m_star0 r i : matches s (RStar r) i i
| m_starS r i k j : matches s r i k -> matches s (RStar r) k j -> matches s (RStar r) i j.

(** The expression a literal pattern compiles to. *)
Definition lit (cs : list ascii) : re := fold_right (fun c r => RCat (RChr c) r) REps cs.

(** Caseless prefix test on lists of characters. *)
Fixpoint pre_ci (cs t : list ascii) : bool :=
  match cs, t with
  | [], _ => true
  | c :: cs', x :: t' => fold_eq c x && pre_ci cs' t'
  | _ :: _, [] => false
  end.

(** ** The parser on literal patterns *)

Lemma parse_char_plain st c :
  is_meta c = false -> Ascii.eqb c "000"%char = false ->
  parse_char (Some (false, st)) c = (fun st' => (false, st')) <$> push_atom (RChr c) 0 st.
Proof.
  unfold is_meta. cbn [list_ascii_of_string existsb]. intros H Hn. bool_simpl.
  repeat match goal with H : (_ || _)%bool = false |- _ => apply orb_false_iff in H as [? ?] end.
  unfold parse_char. rewrite Hn. repeat match goal with H : Ascii.eqb _ _ = false |- _ => rewrite H end.
  reflexivity.
Qed.

Lemma fold_parse_literal cs alts sq st :
  forallb (fun c => negb (is_meta c) && is_ascii c && negb (Ascii.eqb c "000"%char)) cs = true ->
  fold_left parse_char cs (Some (false, Frame alts sq :: st)) =
    Some (false, Frame alts (rev (map (fun c => (RChr c, 0%nat)) cs) ++ sq) :: st).
Proof.
  revert sq. induction cs as [|c cs IH]; intros sq Hl; [done|].
  simpl in Hl. apply andb_true_iff in Hl as [[[Hm _]%andb_true_iff Hn]%andb_true_iff Hl].
  apply negb_true_iff in Hm, Hn. cbn [fold_left]. rewrite parse_char_plain by done. cbn [push_atom fmap option_fmap option_map f_alts f_seq].
  rewrite IH by done. cbn [map rev]. by rewrite <- app_assoc.
Qed.

Lemma fold_left_rev_cat (l : list re) a :
  fold_left (fun acc r => RCat r acc) (rev l) a = fold_right RCat a l.
Proof.
  induction l as [|r l IH]; simpl; [done|]. by rewrite fold_left_app, IH.
Qed.

Lemma seq_re_lit cs : seq_re (map fst (rev (map (fun c => (RChr c, 0%nat)) cs) ++ [])) = lit cs.
Proof.
  rewrite app_nil_r, map_rev, map_map. unfold seq_re. rewrite fold_left_rev_cat.
  unfold lit. induction cs as [|c cs IH]; cbn [map fold_right fst] in *; congruence.
Qed.

Lemma parse_literal p : literal p = true -> parse p = Some (lit (list_ascii_of_string p)).
Proof.
  intros Hl. unfold parse, empty_frame. rewrite fold_parse_literal by done.
  unfold close_frame. simpl. by rewrite seq_re_lit.
Qed.

(** ** The matcher on literal patterns *)

Lemma nth_error_drop (s : list ascii) i :
  match nth_error s i with
  | Some x => drop i s = x :: drop (S i) s
  | None => drop i s = []
  end.
Proof.
  revert s; induction i as [|i IH]; intros [|x s]; simpl; try done. apply IH.
Qed.

Lemma ends_lit cs s i :
  ends (lit cs) s i = if pre_ci cs (drop i s) then [i + List.length cs]%nat else [].
Proof.
  revert i; induction cs as [|c cs IH]; intros i; simpl.
  - by rewrite Nat.add_0_r.
  - pose proof (nth_error_drop s i) as Hd.
    destruct (nth_error s i) as [x|]; rewrite Hd; simpl; [|done].
    destruct (fold_eq c x); simpl; [|done]. rewrite IH, app_nil_r.
    by rewrite Nat.add_succ_r.
Qed.

Lemma existsb_map_comp {A B} (f : A -> B) (g : B -> bool) l :
  existsb g (map f l) = existsb (fun x => g (f x)) l.
Proof. induction l as [|x l IH]; simpl; [done|]. by rewrite IH. Qed.

Lemma existsb_ext_eq {A} (f g : A -> bool) l :
  (forall x, f x = g x) -> existsb f l = existsb g l.
Proof. intros H. induction l as [|x l IH]; simpl; [done|]. by rewrite H, IH. Qed.

(** Searching from every position of the subject. *)
Lemma existsb_positions (f : list ascii -> bool) (s : list ascii) :
  existsb (fun i => f (drop i s)) (List.seq 0 (S (List.length s))) =
    (fix go (t : list ascii) := f t || match t with [] => false | _ :: t' => go t' end) s.
Proof.
  induction s as [|x s IH]; simpl; [by rewrite orb_false_r|]. f_equal.
  rewrite <- IH, <- seq_shift, existsb_map_comp. done.
Qed.

Lemma pre_ci_lower p v :
  pre_ci (list_ascii_of_string p) (list_ascii_of_string v) = starts_with (str_lower p) (str_lower v).
Proof.
  revert v; induction p as [|c p IH]; intros [|x v]; simpl; try done. by rewrite IH.
Qed.

Lemma search_lit p v :
  search (lit (list_ascii_of_string p)) v = contains_ci p v.
Proof.
  unfold search, contains_ci.
  rewrite (existsb_ext_eq _ (fun i => pre_ci (list_ascii_of_string p) (drop i (list_ascii_of_string v)))).
  2:{ intros i. rewrite ends_lit. by destruct (pre_ci _ _). }
  rewrite (existsb_positions (pre_ci (list_ascii_of_string p))).
  induction v as [|x v IH]; simpl.
  - rewrite orb_false_r. exact (pre_ci_lower p EmptyString).
  - rewrite IH. f_equal. exact (pre_ci_lower p (String x v)).
Qed.

(** ** [ends] is the reference semantics *)

Lemma star_round_in f xs x :
  In x (star_round f xs) <-> In x xs \/ exists y, In y xs /\ In x (f y).
Proof.
  unfold star_round. rewrite List.nodup_In, in_app_iff, in_flat_map. done.
Qed.

Lemma star_iter_S k f xs : star_iter (S k) f xs = star_round f (star_iter k f xs).
Proof. reflexivity. Qed.

Lemma star_iter_S' k f xs : star_iter (S k) f xs = star_iter k f (star_round f xs).
Proof. unfold star_iter. by rewrite Nat.iter_succ_r. Qed.

Lemma star_iter_mono_set k f xs ys :
  (forall x, In x xs -> In x ys) -> forall x, In x (star_iter k f xs) -> In x (star_iter k f ys).
Proof.
  induction k as [|k IH]; intros Hs; [done|]. intros x. rewrite !star_iter_S, !star_round_in.
  intros [Hx | (y & Hy & Hx)]; [left; by apply IH | right; exists y; split; [by apply IH | done]].
Qed.

Lemma star_iter_grow k d f xs x : In x (star_iter k f xs) -> In x (star_iter (k + d) f xs).
Proof.
  induction d as [|d IH]; intros Hx; [by rewrite Nat.add_0_r|].
  rewrite Nat.add_succ_r, star_iter_S, star_round_in. left. by apply IH.
Qed.

Lemma star_snoc s r i k j :
  matches s (RStar r) i k -> matches s r k j -> matches s (RStar r) i j.
Proof.
  intros H. remember (RStar r) as rr eqn:E. revert j.
  induction H; intros j' Hj; try discriminate; injection E as ->.
  - eapply m_starS; [exact Hj | apply m_star0].
  - eapply m_starS; [exact H | by apply IHmatches2].
Qed.

Lemma ends_sound r s i j : In j (ends r s i) -> matches s r i j.
Proof.
  revert i j. induction r as [| | c | | | | r1 IH1 r2 IH2 | r1 IH1 r2 IH2 | r IH]; intros i j;
    cbn [ends].
  - done.
  - intros [<- | []]. constructor.
  - destruct (nth_error s i) as [x|] eqn:Hx; [|done].
    destruct (fold_eq c x) eqn:Hc; [|done]. intros [<- | []]. by econstructor.
  - destruct (nth_error s i) as [x|] eqn:Hx; [|done].
    destruct (Ascii.eqb_spec x "010"%char); [done|]. intros [<- | []]. by econstructor.
  - destruct (Nat.eqb_spec i 0) as [->|]; [|done]. intros [<- | []]. constructor.
  - destruct (Nat.eqb_spec i (List.length s)) as [->|Hn].
    + intros [<- | []]. constructor.
    + destruct (nth_error s i) as [x|] eqn:Hx; [|done].
      destruct (Nat.eqb_spec (S i) (List.length s)); [|done].
      destruct (Ascii.eqb_spec x "010"%char) as [->|]; [|done].
      intros [<- | []]. by constructor.
  - intros (k & Hk & Hj)%in_flat_map. econstructor; [by apply IH1 | by apply IH2].
  - intros [Hj | Hj]%in_app_iff; [apply m_altl; by apply IH1 | apply m_altr; by apply IH2].
  - generalize (S (List.length s)) as n. intros n. revert j.
    induction n as [|n IHn]; intros j.
    + intros [<- | []]. constructor.
    + rewrite star_iter_S, star_round_in. intros [Hj | (k & Hk & Hj)]; [by apply IHn|].
      eapply star_snoc; [by apply IHn | by apply IH].
Qed.

Lemma nth_error_lt (s : list ascii) i x : nth_error s i = Some x -> (i < List.length s)%nat.
Proof. intros H. apply nth_error_Some. by rewrite H. Qed.

Lemma matches_le s r i j :
  matches s r i j -> (i <= j)%nat /\ ((i <= List.length s)%nat -> (j <= List.length s)%nat).
Proof.
  induction 1;
    repeat match goal with H : nth_error _ _ = Some _ |- _ => apply nth_error_lt in H end;
    intuition lia.
Qed.

(** A star reaching [j] from [i] needs at most [j - i] rounds that move. *)
Lemma star_complete s r i j :
  (forall a b, (a <= List.length s)%nat -> matches s r a b -> In b (ends r s a)) ->
  (i <= List.length s)%nat ->
  matches s (RStar r) i j -> In j (star_iter (S (j - i)) (ends r s) [i]).
Proof.
  intros Hr Hi H. remember (RStar r) as rr eqn:E. revert Hi.
  induction H as [| | | | | | | | | r' i | r' i k j Hik _ Hkj IH]; try discriminate;
    injection E as ->; intros Hi.
  - rewrite Nat.sub_diag, star_iter_S, star_round_in. left. by left.
  - destruct (matches_le _ _ _ _ Hik) as [Hle Hkn].
    destruct (matches_le _ _ _ _ Hkj) as [Hle' _].
    specialize (IH eq_refl (Hkn Hi)).
    destruct (Nat.eq_dec i k) as [<-|Hne]; [done|].
    assert (Hs : forall x, In x [k] -> In x (star_round (ends r s) [i])).
    { intros x [<- | []]. apply star_round_in. right. exists i. split; [by left | by apply Hr]. }
    pose proof (star_iter_mono_set _ _ _ _ Hs _ IH) as IH'. rewrite <- star_iter_S' in IH'.
    replace (S (j - i)) with (S (S (j - k)) + (j - i - S (j - k)))%nat by lia.
    by apply star_iter_grow.
Qed.

Lemma ends_complete r s i j :
  (i <= List.length s)%nat -> matches s r i j -> In j (ends r s i).
Proof.
  revert i j. induction r as [| | c | | | | r1 IH1 r2 IH2 | r1 IH1 r2 IH2 | r IH]; intros i j Hi H;
    cbn [ends]; inversion H; subst;
    repeat match goal with Hx : nth_error _ _ = Some _ |- _ => rewrite Hx; clear Hx end.
  - by left.
  - match goal with Hc : fold_eq _ _ = true |- _ => rewrite Hc end. by left.
  - destruct (Ascii.eqb_spec x "010"%char); [done|]. by left.
  - by left.
  - rewrite Nat.eqb_refl. by left.
  - destruct (Nat.eqb_spec j (List.length s)); [by left|].
    match goal with Hs : S j = _ |- _ => rewrite Hs end. rewrite Nat.eqb_refl. simpl. by left.
  - apply in_flat_map. exists k. split; [by apply IH1|].
    apply IH2; [|done]. by apply (matches_le s r1 i k).
  - apply in_app_iff. left. by apply IH1.
  - apply in_app_iff. right. by apply IH2.
  - rewrite star_iter_S. apply star_round_in. left. apply (star_iter_grow 0). by left.
  - destruct (matches_le _ _ _ _ H) as [Hij Hjn].
    pose proof (star_complete s r i j (fun a b Ha Hab => IH a b Ha Hab) Hi H) as Hs.
    replace (S (List.length s)) with (S (j - i) + (List.length s - (j - i)))%nat
      by (specialize (Hjn Hi); lia).
    by apply star_iter_grow.
Qed.

(** The matcher computes the reference semantics from every position of
    the subject. *)
Lemma ends_correct r s i j :
  (i <= List.length s)%nat -> In j (ends r s i) <-> matches s r i j.
Proof. intros Hi. split; [apply ends_sound | by apply ends_complete]. Qed.

Lemma length_list_ascii_of_string v : List.length (list_ascii_of_string v) = String.length v.
Proof. induction v as [|c v IH]; simpl; congruence. Qed.

(** A search finds a match exactly when some substring matches. *)
Lemma search_correct r v :
  search r v = true <->
  exists i j, (i <= String.length v)%nat /\ matches (list_ascii_of_string v) r i j.
Proof.
  unfold search. rewrite existsb_exists. rewrite <- (length_list_ascii_of_string v).
  split.
  - intros (i & Hi%in_seq & He). destruct (ends r _ i) as [|j js] eqn:E; [done|].
    exists i, j. split; [lia|]. apply ends_sound. rewrite E. by left.
  - intros (i & j & Hi & Hm). exists i. split; [apply in_seq; lia|].
    apply ends_complete in Hm; [|done]. by destruct (ends r _ i).
Qed.

(** ** The engine *)

#[export] Program Instance pcre_engine : RegexEngine := {|
  regex := re;
  re_compile := parse;
  re_search := search
|}.
Next Obligation.
  intros p Hl. exists (lit (list_ascii_of_string p)). split; [by apply parse_literal|].
  intros s _. apply search_lit.
Qed.

End Regex.
