(* ===== verification/Handlers.v ===== *)
(** * The HTTP request handlers of main.py

    Each endpoint is a program of the type [prog]: it either answers
    ([Ret]) or awaits one operation of the collection ([Await c k]) and
    continues with its result.  An [Await] is one [await collection....]
    of the Python code, the only points where the coroutine can be
    suspended.  [handle] is FastAPI's dispatch: the body is validated
    against the route's model first (422 when it fails), then the
    handler runs.  [run] executes a program
    against a store that implements [Gateway.Gateway], each operation
    atomically; an error of the store ([DuplicateKeyError], an invalid
    regular expression) propagates out of the handler as a 500 answer.

    [answer_typed] lists the answers the interface table of the spec
    allows for each route.  The theorems are proved against the laws
    [Gateway.GatewayLaws], so they hold of every store that meets the
    contract, the MongoDB model of Store.v among them. *)

From S2P Require Import Prelude ObjectId Models Gateway.

Module Handlers.
Import Models Gateway.

Local Open Scope Z_scope.

(** ** Programs *)

(** The operations of the collection the handlers await, indexed by the
    type of their result. *)
Inductive cmd : Type -> Type :=
| InsertOne (fs : list (string * string)) : cmd Z
| FindOne (oid : Z) : cmd (option doc)
| Find (q : list (string * string)) : cmd (list doc)
| UpdateOne (oid : Z) (patch : list (string * string)) : cmd Z
| DeleteOne (oid : Z) : cmd Z.

Inductive prog : Type :=
| Ret (r : response)
| Await {A : Type} (c : cmd A) (k : A -> prog).

(** ** Shaping the answer *)

(** The document as the handler returns it, after
    [book["_id"] = str(book["_id"])]. *)
Definition doc_dict (d : doc) : list (string * json) :=
  ("_id", JStr (ObjectId.to_hex (d_id d)))%string ::
    map (fun kv => (kv.1, JStr kv.2)) (d_fields d).

(** [return book] through [response_model=BookModel]. *)
Definition return_book (code : Z) (d : doc) : response :=
  match response_book (doc_dict d) with
  | Some j => Resp code j
  | None => internal_error
  end.

(** [return books] through [response_model=list[BookModel]]. *)
Fixpoint shape_books (ds : list doc) : option (list json) :=
  match ds with
  | [] => Some []
  | d :: r =>
      match response_book (doc_dict d), shape_books r with
      | Some j, Some js => Some (j :: js)
      | _, _ => None
      end
  end.

Definition not_found : response := http_error 404 "Livre non trouvé"%string.
Definition invalid_id : response := http_error 400 "ID invalide"%string.

Definition welcome : response :=
  Resp 200 (JObj [("message", JStr "Bienvenue sur l'API de la Bibliothèque")]%string).

Definition deleted : response :=
  Resp 200 (JObj [("message", JStr "Livre supprimé")]%string).

(** ** The handlers *)

(** [GET /]. *)
Definition root : prog := Ret welcome.

(** [POST /books]: insert, then read the new document back.  The read
    may find nothing (a concurrent delete); [created_book["_id"]] then
    raises a [TypeError]. *)
Definition create_book (book : BookModel) : prog :=
  let book_dict := BookModel_dict_exclude_id book in
  Await (InsertOne book_dict) (fun new_id =>
  Await (FindOne new_id) (fun created_book =>
  match created_book with
  | None => Ret internal_error
  | Some d => Ret (return_book 201 d)
  end)).

(** One [if p: query[k] = {"$regex": p, "$options": "i"}]: an absent
    parameter and the empty string add no condition. *)
Definition query_cond (k : string) (p : option string) : list (string * string) :=
  match p with
  | Some s => if String.eqb s "" then [] else [(k, s)]
  | None => []
  end.

Definition list_query (title author category : option string)
    : list (string * string) :=
  query_cond "title" title ++ query_cond "author" author ++
  query_cond "category" category.

(** [GET /books?title=&author=&category=]. *)
Definition list_books (title author category : option string) : prog :=
  Await (Find (list_query title author category)) (fun books =>
  match shape_books books with
  | Some js => Ret (Resp 200 (JArr js))
  | None => Ret internal_error
  end).

(** [GET /books/{id}]. *)
Definition get_book (id : string) : prog :=
  if negb (ObjectId.is_valid id) then Ret invalid_id
  else match ObjectId.of_string id with
  | None => Ret internal_error
  | Some oid =>
      Await (FindOne oid) (fun book =>
      match book with
      | None => Ret not_found
      | Some d => Ret (return_book 200 d)
      end)
  end.

(** The end of [PUT /books/{id}], reached when nothing was modified: the
    document as it is, 404 if there is none. *)
Definition update_fallback (oid : Z) : prog :=
  Await (FindOne oid) (fun existing_book =>
  match existing_book with
  | None => Ret not_found
  | Some d => Ret (return_book 200 d)
  end).

(** [PUT /books/{id}]: [$set] of the supplied fields when there is one,
    the updated document when [modified_count == 1], otherwise
    [update_fallback]. *)
Definition update_book (id : string) (book : UpdateBookModel) : prog :=
  if negb (ObjectId.is_valid id) then Ret invalid_id
  else match ObjectId.of_string id with
  | None => Ret internal_error
  | Some oid =>
      let book_dict := update_dict book in
      let fallback := update_fallback oid in
      if (1 <=? List.length book_dict)%nat then
        Await (UpdateOne oid book_dict) (fun modified_count =>
        if modified_count =? 1 then
          Await (FindOne oid) (fun updated_book =>
          match updated_book with
          | None => Ret internal_error
          | Some d => Ret (return_book 200 d)
          end)
        else fallback)
      else fallback
  end.

(** [DELETE /books/{id}]. *)
Definition delete_book (id : string) : prog :=
  if negb (ObjectId.is_valid id) then Ret invalid_id
  else match ObjectId.of_string id with
  | None => Ret internal_error
  | Some oid =>
      Await (DeleteOne oid) (fun deleted_count =>
      if deleted_count =? 1 then Ret deleted else Ret not_found)
  end.

(** ** Requests and dispatch *)

Inductive request :=
| GetRoot
| PostBooks (body : json)
| GetBooks (title author category : option string)
| GetBook (id : string)
| PutBook (id : string) (body : json)
| DeleteBook (id : string).

Definition with_body {A} (v : validated A) (k : A -> prog) : prog :=
  match v with
  | Valid a => k a
  | Invalid errs => Ret (validation_error errs)
  end.

(** The routes of main.py and FastAPI's validation of their parameters. *)
Definition handle (rq : request) : prog :=
  match rq with
  | GetRoot => root
  | PostBooks b => with_body (validate_body BookModel_init b) create_book
  | GetBooks t a c => list_books t a c
  | GetBook id => get_book id
  | PutBook id b => with_body (validate_body UpdateBookModel_init b) (update_book id)
  | DeleteBook id => delete_book id
  end.

(** ** What the handlers answer *)

(** The [BookModel] a stored document answers with. *)
Definition book_of_doc (d : doc) : BookModel :=
  mkBookModel (Some (ObjectId.to_hex (d_id d)))
    (default ""%string (field_get "title" (d_fields d)))
    (default ""%string (field_get "author" (d_fields d)))
    (default ""%string (field_get "category" (d_fields d))).

Definition book_json (d : doc) : json := BookModel_json (book_of_doc d).

(** The answer to a read of [oid] on a well-formed store. *)
Definition answer_found (code : Z) (od : option doc) : response :=
  match od with Some d => Resp code (book_json d) | None => not_found end.

(** The document [update_one] leaves: [$set] of the patch. *)
Definition updated_doc (oid : Z) (patch : list (string * string)) (d : doc) : doc :=
  mkDoc oid (apply_set patch (d_fields d)).

(** A book in an answer: the serialisation of a [BookModel] whose
    ["_id"] is an identifier of 24 hexadecimal digits. *)
Definition book_body (j : json) : Prop :=
  exists s t a c, j = BookModel_json (mkBookModel (Some s) t a c) /\ ObjectId.is_valid s = true.

(** The answers the interface table of the spec (section 6) allows for
    each route, with the 422 and 500 of the framework. *)
Definition answer_typed (rq : request) (r : response) : Prop :=
  match rq with
  | GetRoot => r = welcome
  | PostBooks _ => (status r = 201 /\ book_body (body r)) \/ status r = 422 \/ r = internal_error
  | GetBooks _ _ _ =>
      (status r = 200 /\ exists js, body r = JArr js /\ Forall book_body js) \/ r = internal_error
  | GetBook _ => (status r = 200 /\ book_body (body r)) \/ r = invalid_id \/ r = not_found
  | PutBook _ _ =>
      (status r = 200 /\ book_body (body r)) \/ r = invalid_id \/ r = not_found \/
      status r = 422 \/ r = internal_error
  | DeleteBook _ => r = deleted \/ r = invalid_id \/ r = not_found
  end.


(** ** Sequential execution against a store *)

Section Run.
Context {RE : RegexEngine} {W : Type} `{!Gateway W}.

(** One operation, atomically. *)
Definition exec {A} (c : cmd A) (w : W) : W * result mongo_error A :=
  match c in cmd A return W * result mongo_error A with
  | InsertOne fs => gw_insert_one fs w
  | FindOne oid => (w, Ok (gw_find_one oid w))
  | Find q => (w, gw_find q w)
  | UpdateOne oid p => ((gw_update_one oid p w).1, Ok (gw_update_one oid p w).2)
  | DeleteOne oid => ((gw_delete_one oid w).1, Ok (gw_delete_one oid w).2)
  end.

(** A program run to its answer with no other request in between. *)
Fixpoint run (p : prog) (w : W) : response * W :=
  match p with
  | Ret r => (r, w)
  | Await c k =>
      match exec c w with
      | (w', Ok a) => run (k a) w'
      | (w', Err _) => (internal_error, w')
      end
  end.

End Run.

(** ** Shaping lemmas *)

Lemma doc_wf_fields d :
  doc_wf d -> exists t a c,
    d_fields d = [("title", t); ("author", a); ("category", c)]%string.
Proof.
  intros [_ Hk]. destruct d as [oid fs]; simpl in *.
  destruct fs as [|[k1 t] [|[k2 a] [|[k3 c] [|]]]]; try discriminate.
  simpl in Hk. invc Hk. eauto.
Qed.

(** A well-formed document passes [response_model=BookModel]. *)
Lemma return_book_wf code d :
  doc_wf d -> return_book code d = Resp code (book_json d).
Proof.
  intros Hd. destruct (doc_wf_fields d Hd) as (t & a & c & Hf).
  destruct d as [oid fs]; simpl in Hf; subst fs. reflexivity.
Qed.

Lemma shape_books_wf ds :
  Forall doc_wf ds -> shape_books ds = Some (map book_json ds).
Proof.
  induction 1 as [|d ds Hd _ IH]; simpl; [done|].
  pose proof (return_book_wf 200 d Hd) as Hr. unfold return_book in Hr.
  destruct (response_book (doc_dict d)); [|done]. rewrite IH. by invc Hr.
Qed.

Lemma update_dict_keys u : Forall (fun kv => In kv.1 book_keys) (update_dict u).
Proof.
  destruct u as [[t|] [a|] [c|]]; cbn;
    repeat (apply List.Forall_cons; [cbn; tauto|]); apply List.Forall_nil.
Qed.

Lemma of_string_valid id oid :
  ObjectId.of_string id = Some oid -> ObjectId.is_valid id = true.
Proof. intros H. apply ObjectId.is_valid_of_string. eauto. Qed.

#[export] Hint Resolve return_book_wf update_dict_keys of_string_valid : bib.

Section Theorems.
Context {RE : RegexEngine} {W : Type} `{!Gateway W} `{!GatewayLaws W}.

Lemma found_wf w oid d :
  gw_wf w -> gw_find_one oid w = Some d -> doc_wf d.
Proof. intros Hw Hd. by apply (gw_find_one_wf w oid d Hw Hd). Qed.

Lemma found_id w oid d :
  gw_wf w -> gw_find_one oid w = Some d -> d_id d = oid.
Proof. intros Hw Hd. by apply (gw_find_one_wf w oid d Hw Hd). Qed.

Lemma run_find_answer w oid code :
  gw_wf w ->
  run (Await (FindOne oid) (fun b =>
         match b with None => Ret not_found | Some d => Ret (return_book code d) end)) w =
  (answer_found code (gw_find_one oid w), w).
Proof.
  intros Hw. simpl. destruct (gw_find_one oid w) as [d|] eqn:Hd; [|done].
  simpl. erewrite return_book_wf; [done|]. by eapply found_wf.
Qed.

Lemma run_create_book w b :
  gw_wf w ->
  run (create_book b) w =
    match gw_insert_one (BookModel_dict_exclude_id b) w with
    | (w1, Ok oid) => (Resp 201 (book_json (mkDoc oid (BookModel_dict_exclude_id b))), w1)
    | (w1, Err _) => (internal_error, w1)
    end.
Proof.
  intros Hw. pose proof (gw_insert_one_spec w (BookModel_dict_exclude_id b) Hw eq_refl)
    as [Hw1 Hr].
  unfold create_book. simpl.
  destruct (gw_insert_one (BookModel_dict_exclude_id b) w) as [w1 [oid|e]];
    simpl in *; [|done].
  destruct Hr as (_ & _ & Hfind & _). rewrite Hfind. simpl.
  rewrite return_book_wf; [done|]. by eapply found_wf.
Qed.

Lemma run_delete_book w id oid :
  ObjectId.of_string id = Some oid ->
  run (delete_book id) w =
    (if (gw_delete_one oid w).2 =? 1 then deleted else not_found,
     (gw_delete_one oid w).1).
Proof.
  intros Hid. unfold delete_book. rewrite (of_string_valid _ _ Hid), Hid. simpl.
  by destruct ((gw_delete_one oid w).2 =? 1).
Qed.

(** C1. Create then read: on a well-formed store, [POST /books] with a
    body that validates to [b] answers 201 with the fields of [b] and the
    id the store generated, and [GET /books/{id}] with that id, printed
    as the answer prints it, then answers 200 with the same book. *)
Theorem create_then_get w body b w1 oid :
  gw_wf w -> validate_body BookModel_init body = Valid b ->
  gw_insert_one (BookModel_dict_exclude_id b) w = (w1, Ok oid) ->
  run (handle (PostBooks body)) w =
    (Resp 201 (BookModel_json (mkBookModel (Some (ObjectId.to_hex oid))
                 (bm_title b) (bm_author b) (bm_category b))), w1) /\
  run (handle (GetBook (ObjectId.to_hex oid))) w1 =
    (Resp 200 (BookModel_json (mkBookModel (Some (ObjectId.to_hex oid))
                 (bm_title b) (bm_author b) (bm_category b))), w1).
Proof.
  intros Hw Hv Hins.
  pose proof (gw_insert_one_spec w (BookModel_dict_exclude_id b) Hw eq_refl) as [Hw1 Hr].
  rewrite Hins in Hw1, Hr. simpl in Hw1, Hr. destruct Hr as (Hb & _ & Hfind & _).
  split.
  - unfold handle, with_body. cbv iota beta. rewrite Hv. cbv iota beta.
    rewrite run_create_book, Hins by done. done.
  - unfold handle, get_book.
    rewrite ObjectId.is_valid_to_hex, ObjectId.of_string_to_hex_id by done.
    cbv beta iota delta [negb]. rewrite run_find_answer, Hfind by done.
    done.
Qed.

(** The general behaviour of [get_book]. *)
Lemma run_get_book w id :
  gw_wf w ->
  run (get_book id) w =
    (match ObjectId.of_string id with
     | None => invalid_id
     | Some oid => answer_found 200 (gw_find_one oid w)
     end, w).
Proof.
  intros Hw. unfold get_book.
  destruct (ObjectId.of_string id) as [oid|] eqn:Hid.
  - rewrite (of_string_valid _ _ Hid). cbv beta iota delta [negb].
    by apply run_find_answer.
  - destruct (ObjectId.is_valid id) eqn:Hv; [|done].
    exfalso. apply ObjectId.is_valid_of_string in Hv as [v Hv]. congruence.
Qed.

(** An id that [ObjectId(id)] cannot read is answered 400 by the three
    handlers that take one, before any operation of the store. *)
Lemma run_invalid_id w id u :
  ObjectId.of_string id = None ->
  run (get_book id) w = (invalid_id, w) /\
  run (update_book id u) w = (invalid_id, w) /\
  run (delete_book id) w = (invalid_id, w).
Proof.
  intros Hid. assert (Hv : ObjectId.is_valid id = false).
  { destruct (ObjectId.is_valid id) eqn:Hv; [|done].
    apply ObjectId.is_valid_of_string in Hv as [v Hv]. congruence. }
  unfold get_book, update_book, delete_book. by rewrite Hv.
Qed.

(** C2. Delete then read: [DELETE /books/{id}] answers 200 when a book
    had the id and 404 otherwise; afterwards the store is well formed
    and [GET /books/{id}] answers 404. *)
Theorem delete_then_get w id oid :
  gw_wf w -> ObjectId.of_string id = Some oid ->
  (run (handle (DeleteBook id)) w).1 =
    (match gw_find_one oid w with Some _ => deleted | None => not_found end) /\
  gw_wf (run (handle (DeleteBook id)) w).2 /\
  run (handle (GetBook id)) (run (handle (DeleteBook id)) w).2 =
    (not_found, (run (handle (DeleteBook id)) w).2).
Proof.
  intros Hw Hid.
  destruct (gw_delete_one_spec w oid Hw) as (Hw1 & Hgone & _ & Hn).
  assert (E : run (handle (DeleteBook id)) w =
    (if (gw_delete_one oid w).2 =? 1 then deleted else not_found,
     (gw_delete_one oid w).1)) by apply (run_delete_book w id oid Hid).
  rewrite E. cbn [fst snd].
  split; [rewrite Hn; by destruct (gw_find_one oid w)|].
  split; [done|]. change (handle (GetBook id)) with (get_book id).
  rewrite run_get_book, Hid, Hgone by done. done.
Qed.

Lemma updated_doc_nil w oid od :
  gw_wf w -> gw_find_one oid w = od -> updated_doc oid [] <$> od = od.
Proof.
  intros Hw Hod. destruct od as [d|]; [|done]. simpl.
  rewrite <- (found_id w oid d Hw Hod). by destruct d.
Qed.

(** The general behaviour of [update_book]: [$set] of the supplied fields
    on the book of that id, whichever branch the handler takes. *)
Lemma run_update_book w id u oid :
  gw_wf w -> ObjectId.of_string id = Some oid ->
  gw_wf (run (update_book id u) w).2 /\
  (run (update_book id u) w).1 =
    answer_found 200 (updated_doc oid (update_dict u) <$> gw_find_one oid w) /\
  forall o, gw_find_one o (run (update_book id u) w).2 =
    if decide (o = oid) then updated_doc oid (update_dict u) <$> gw_find_one oid w
    else gw_find_one o w.
Proof.
  intros Hw Hid. unfold update_book.
  rewrite (of_string_valid _ _ Hid), Hid. cbv beta iota zeta delta [negb].
  destruct (1 <=? List.length (update_dict u))%nat eqn:Hlen.
  - destruct (gw_update_one_spec w oid (update_dict u) Hw (update_dict_keys u))
      as (Hw1 & Hfo & Hoth & Hn).
    set (w1 := (gw_update_one oid (update_dict u) w).1) in *.
    cbn [run exec]. fold w1. rewrite Hn.
    destruct (gw_find_one oid w) as [d|] eqn:Hd; simpl in Hfo.
    + case_decide as Heq; simpl; rewrite Hfo; simpl;
        (rewrite return_book_wf by (eapply found_wf; eauto));
        (split; [done|]); (split; [done|]);
        intros o; (case_decide; [by subst | by apply Hoth]).
    + simpl. rewrite Hfo. simpl. split; [done|]. split; [done|].
      intros o. case_decide; [by subst | by apply Hoth].
  - assert (Hsame : updated_doc oid (update_dict u) <$> gw_find_one oid w =
                    gw_find_one oid w).
    { destruct (update_dict u); [by apply (updated_doc_nil w) | discriminate]. }
    unfold update_fallback. rewrite Hsame, run_find_answer by done. split; [done|]. split; [done|].
    intros o. case_decide; [by subst | done].
Qed.

(** The general behaviour of [list_books]. *)
Lemma run_list_books w t a c :
  gw_wf w ->
  match compile_query (list_query t a c) with
  | Err _ => run (handle (GetBooks t a c)) w = (internal_error, w)
  | Ok cq => exists ds,
      run (handle (GetBooks t a c)) w = (Resp 200 (JArr (map book_json ds)), w) /\
      List.NoDup ds /\
      forall d, In d ds <-> gw_find_one (d_id d) w = Some d /\ doc_matches cq d = true
  end.
Proof.
  intros Hw. pose proof (gw_find_spec w (list_query t a c) Hw) as Hf.
  unfold handle, list_books. cbn [run exec].
  destruct (compile_query (list_query t a c)) as [cq|e].
  - destruct Hf as (ds & Hds & Hnd & Hin). exists ds. split; [|done].
    rewrite Hds. simpl. rewrite shape_books_wf; [done|].
    apply List.Forall_forall. intros d Hd. apply Hin in Hd as [Hd _].
    by eapply found_wf.
  - by rewrite Hf.
Qed.

Lemma apply_set_update_dict u t a c :
  apply_set (update_dict u) [("title", t); ("author", a); ("category", c)]%string =
  [("title", default t (ub_title u)); ("author", default a (ub_author u));
   ("category", default c (ub_category u))]%string.
Proof. destruct u as [[t'|] [a'|] [c'|]]; reflexivity. Qed.

Lemma no_filter_matches d : doc_matches [] d = true.
Proof. reflexivity. Qed.

(** C3. Update applies exactly the supplied fields: when the book of the
    id has title [t], author [a] and category [c], [PUT /books/{id}]
    answers 200 with each field replaced by the supplied value if there is
    one and kept otherwise, the store holds that book afterwards, and no
    other book changes. *)
Theorem update_book_fields w id u oid t a c :
  gw_wf w -> ObjectId.of_string id = Some oid ->
  gw_find_one oid w = Some (mkDoc oid [("title", t); ("author", a); ("category", c)]%string) ->
  (run (update_book id u) w).1 =
    Resp 200 (BookModel_json (mkBookModel (Some (ObjectId.to_hex oid))
      (default t (ub_title u)) (default a (ub_author u)) (default c (ub_category u)))) /\
  gw_find_one oid (run (update_book id u) w).2 =
    Some (mkDoc oid [("title", default t (ub_title u)); ("author", default a (ub_author u));
                     ("category", default c (ub_category u))]%string) /\
  forall o, o <> oid -> gw_find_one o (run (update_book id u) w).2 = gw_find_one o w.
Proof.
  intros Hw Hid Hd. destruct (run_update_book w id u oid Hw Hid) as (_ & Hr & Hl).
  rewrite Hd in Hr, Hl. unfold updated_doc in Hr, Hl. simpl in Hr, Hl.
  rewrite apply_set_update_dict in Hr, Hl. split; [done|]. split.
  - rewrite Hl. by case_decide.
  - intros o Ho. rewrite Hl. by case_decide.
Qed.

(** C4. An update with no supplied field (all absent or [null]) performs
    no write: the store is left as it is and the answer is the stored book
    (200) or 404 when the id has no book. *)
Theorem update_empty_patch w id u oid :
  gw_wf w -> ObjectId.of_string id = Some oid -> update_dict u = [] ->
  run (update_book id u) w = (answer_found 200 (gw_find_one oid w), w).
Proof.
  intros Hw Hid Hnil. unfold update_book.
  rewrite (of_string_valid _ _ Hid), Hid, Hnil. cbv beta iota zeta delta [negb].
  simpl (1 <=? List.length [])%nat. cbv iota. by apply run_find_answer.
Qed.

(** C5. Listing with no filter: [GET /books] without parameters answers
    200 with every stored book exactly once and nothing else. *)
Theorem list_all_books w :
  gw_wf w -> exists ds,
    run (handle (GetBooks None None None)) w = (Resp 200 (JArr (map book_json ds)), w) /\
    List.NoDup ds /\ forall d, In d ds <-> gw_find_one (d_id d) w = Some d.
Proof.
  intros Hw. pose proof (run_list_books w None None None Hw) as H. simpl in H.
  destruct H as (ds & Hr & Hnd & Hin). exists ds. split; [done|]. split; [done|].
  intros d. rewrite Hin. tauto.
Qed.

(** C6. Search by title: for a [title] parameter made of ASCII characters
    without regular-expression metacharacters or NUL, [GET /books?title=p]
    answers 200 with exactly the stored books whose title contains [p]
    ignoring case (for ASCII titles), each once. *)
Theorem list_books_title w p :
  gw_wf w -> literal p = true -> p <> ""%string ->
  exists ds,
    run (handle (GetBooks (Some p) None None)) w = (Resp 200 (JArr (map book_json ds)), w) /\
    List.NoDup ds /\
    forall d, ascii_str (default ""%string (field_get "title" (d_fields d))) = true ->
      (In d ds <-> gw_find_one (d_id d) w = Some d /\
                   contains_ci p (default ""%string (field_get "title" (d_fields d))) = true).
Proof.
  intros Hw Hl Hne. destruct (re_literal p Hl) as (r & Hc & Hs).
  pose proof (run_list_books w (Some p) None None Hw) as H.
  unfold list_query, query_cond in H. rewrite (proj2 (String.eqb_neq p "") Hne) in H.
  simpl in H. rewrite Hc in H. destruct H as (ds & Hr & Hnd & Hin).
  exists ds. split; [done|]. split; [done|]. intros d Ha. rewrite Hin.
  unfold doc_matches, cond_holds. simpl. rewrite andb_true_r.
  destruct (field_get "title" (d_fields d)) as [v|]; simpl in *.
  - by rewrite Hs.
  - rewrite contains_ci_nil by done. split; intros [_ ?]; discriminate.
Qed.

(** C7. Read by id: [GET /books/{id}] never changes the store; it answers
    400 exactly when [ObjectId.is_valid] rejects the id; otherwise it
    answers 200 with the book of that id, or 404 when there is none. *)
Theorem get_book_answers w id :
  gw_wf w ->
  (run (handle (GetBook id)) w).2 = w /\
  ((run (handle (GetBook id)) w).1 = invalid_id <-> ObjectId.is_valid id = false) /\
  forall oid, ObjectId.of_string id = Some oid ->
    (run (handle (GetBook id)) w).1 = answer_found 200 (gw_find_one oid w).
Proof.
  intros Hw. change (handle (GetBook id)) with (get_book id).
  rewrite run_get_book by done. split; [done|]. split.
  - destruct (ObjectId.of_string id) as [oid|] eqn:Hid; simpl.
    + rewrite (of_string_valid _ _ Hid).
      split; [destruct (gw_find_one oid w); discriminate | discriminate].
    + split; [intros _ | done]. destruct (ObjectId.is_valid id) eqn:Hv; [|done].
      apply ObjectId.is_valid_of_string in Hv as [v Hv]. congruence.
  - intros oid ->. done.
Qed.

(** C8. Invalid ids: when [ObjectId.is_valid] rejects the path id,
    [GET] and [DELETE] answer 400, and so does [PUT] once its body has
    validated, all without touching the store. *)
Theorem invalid_id_rejected w id body u :
  ObjectId.is_valid id = false ->
  validate_body UpdateBookModel_init body = Valid u ->
  run (handle (GetBook id)) w = (invalid_id, w) /\
  run (handle (PutBook id body)) w = (invalid_id, w) /\
  run (handle (DeleteBook id)) w = (invalid_id, w).
Proof.
  intros Hv Hb. assert (Hid : ObjectId.of_string id = None)
    by (unfold ObjectId.of_string; by rewrite Hv).
  destruct (run_invalid_id w id u Hid) as (Hg & Hu & Hd).
  unfold handle, with_body. rewrite Hb. auto.
Qed.

Lemma answer_found_status od : status (answer_found 200 od) <> 500.
Proof. unfold answer_found, not_found, http_error. destruct od; simpl; lia. Qed.

(** C9. Invariant: every request leaves a well-formed store well formed
    (ids distinct, every book with its three fields). *)
Theorem handle_preserves_wf w rq : gw_wf w -> gw_wf (run (handle rq) w).2.
Proof.
  intros Hw. destruct rq as [|body|t a c|id|id body|id]; unfold handle, with_body.
  - done.
  - destruct (validate_body BookModel_init body) as [b|]; try done.
    rewrite run_create_book by done.
    destruct (gw_insert_one_spec w (BookModel_dict_exclude_id b) Hw eq_refl) as [Hw1 _].
    by destruct (gw_insert_one _ w) as [w1 [oid|e]].
  - pose proof (run_list_books w t a c Hw) as H. unfold handle in H.
    destruct (compile_query _); [destruct H as (ds & -> & _) | rewrite H]; done.
  - by rewrite run_get_book.
  - destruct (validate_body UpdateBookModel_init body) as [u|]; try done.
    destruct (ObjectId.of_string id) as [oid|] eqn:Hid.
    + by apply (run_update_book w id u oid Hw Hid).
    + by rewrite (proj1 (proj2 (run_invalid_id w id u Hid))).
  - destruct (ObjectId.of_string id) as [oid|] eqn:Hid.
    + rewrite (run_delete_book w id oid Hid). apply (gw_delete_one_spec w oid Hw).
    + by rewrite (proj2 (proj2 (run_invalid_id w id (mkUpdateBookModel None None None) Hid))).
Qed.

(** C10. No internal error on a well-formed store: a request is answered
    500 only when the insertion of a new book fails in the store (a
    duplicate generated id), or when a search parameter is not a regular
    expression the server accepts. *)
Theorem handle_internal_error w rq :
  gw_wf w -> (run (handle rq) w).1 = internal_error ->
  match rq with
  | PostBooks body =>
      exists b e, validate_body BookModel_init body = Valid b /\
                  (gw_insert_one (BookModel_dict_exclude_id b) w).2 = Err e
  | GetBooks t a c => exists e, compile_query (list_query t a c) = Err e
  | _ => False
  end.
Proof.
  intros Hw H500. apply (f_equal status) in H500.
  destruct rq as [|body|t a c|id|id body|id]; unfold handle, with_body in H500.
  - discriminate.
  - destruct (validate_body BookModel_init body) as [b|]; [|discriminate].
    rewrite run_create_book in H500 by done.
    destruct (gw_insert_one _ w) as [w1 [oid|e]] eqn:Hi; [discriminate|].
    exists b, e. by rewrite Hi.
  - pose proof (run_list_books w t a c Hw) as H. unfold handle in H.
    destruct (compile_query _) as [cq|e]; [|by exists e].
    destruct H as (ds & Hr & _). rewrite Hr in H500. discriminate.
  - rewrite run_get_book in H500 by done.
    destruct (ObjectId.of_string id); [by apply answer_found_status in H500 | discriminate].
  - destruct (validate_body UpdateBookModel_init body) as [u|]; [|discriminate].
    destruct (ObjectId.of_string id) as [oid|] eqn:Hid.
    + destruct (run_update_book w id u oid Hw Hid) as (_ & Hr & _).
      rewrite Hr in H500. by apply answer_found_status in H500.
    + by rewrite (proj1 (proj2 (run_invalid_id w id u Hid))) in H500.
  - destruct (ObjectId.of_string id) as [oid|] eqn:Hid.
    + rewrite (run_delete_book w id oid Hid) in H500. simpl in H500.
      by destruct ((gw_delete_one oid w).2 =? 1).
    + by rewrite (proj2 (proj2 (run_invalid_id w id (mkUpdateBookModel None None None) Hid)))
        in H500.
Qed.

(** C27. [POST /books] ignores an ["_id"] in the body when it is a
    string, a number, a boolean or [null]: the answer and the store are
    those of the body without it.  An array or an object there is not
    ignored: the request answers 422 and the store is untouched. *)
Theorem post_ignores_id w kvs v :
  ~ In "_id"%string (map fst kvs) -> ~ In "id"%string (map fst kvs) ->
  (match v with JArr _ | JObj _ => False | _ => True end ->
     run (handle (PostBooks (JObj (("_id"%string, v) :: kvs)))) w =
     run (handle (PostBooks (JObj kvs))) w) /\
  (match v with JArr _ | JObj _ => True | _ => False end ->
     status (run (handle (PostBooks (JObj (("_id"%string, v) :: kvs)))) w).1 = 422 /\
     (run (handle (PostBooks (JObj (("_id"%string, v) :: kvs)))) w).2 = w).
Proof.
  intros Hi Hid. pose proof (BookModel_init_id kvs v Hi Hid) as H.
  unfold handle, with_body, validate_body, of_result.
  destruct v; (split; intros Hv; [try contradiction | try contradiction]);
    try (destruct H as [errs ->]; done);
    destruct (BookModel_init (_ :: kvs)) as [b1|e1], (BookModel_init kvs) as [b2|e2];
    try contradiction; try (by subst);
    unfold create_book; by rewrite H.
Qed.


Lemma found_range w oid d : gw_wf w -> gw_find_one oid w = Some d -> 0 <= d_id d < 2 ^ 96.
Proof. intros Hw Hd. by apply (found_wf w oid d Hw Hd). Qed.

Lemma book_json_body d : 0 <= d_id d < 2 ^ 96 -> book_body (book_json d).
Proof. intros Hd. do 4 eexists. split; [reflexivity | by apply ObjectId.is_valid_to_hex]. Qed.

Lemma answer_found_typed od :
  (forall d, od = Some d -> 0 <= d_id d < 2 ^ 96) ->
  (status (answer_found 200 od) = 200 /\ book_body (body (answer_found 200 od))) \/
  answer_found 200 od = not_found.
Proof.
  intros H. destruct od as [d|]; simpl; [left|by right].
  split; [done|]. by apply book_json_body, H.
Qed.

(** C11. Every answer has a shape the interface of the spec allows for its
    route: the listed status codes, and for a book the [BookModel] JSON
    with an ["_id"] of 24 hexadecimal digits (an array of them for a
    listing). *)
Theorem handle_answer_typed w rq : gw_wf w -> answer_typed rq (run (handle rq) w).1.
Proof.
  intros Hw. destruct rq as [|body|t a c|id|id body|id]; unfold handle, with_body; cbn [answer_typed].
  - reflexivity.
  - destruct (validate_body BookModel_init body) as [b|]; [|by (right; left)].
    rewrite run_create_book by done.
    destruct (gw_insert_one_spec w (BookModel_dict_exclude_id b) Hw eq_refl) as [_ Hr].
    destruct (gw_insert_one _ w) as [w1 [oid|e]]; simpl in *; [|by (right; right)].
    left. split; [done|]. apply book_json_body, Hr.
  - pose proof (run_list_books w t a c Hw) as H. unfold handle in H.
    destruct (compile_query _) as [cq|e]; [|by rewrite H; right].
    destruct H as (ds & -> & _ & Hin). left. split; [done|]. exists (map book_json ds).
    split; [done|]. apply List.Forall_forall. intros j (d & <- & Hd)%in_map_iff.
    apply book_json_body. apply Hin in Hd as [Hd _]. by eapply found_range.
  - rewrite run_get_book by done. simpl.
    destruct (ObjectId.of_string id) as [oid|]; [|by (right; left)].
    destruct (answer_found_typed (gw_find_one oid w)) as [H|H];
      [intros d Hd; by eapply found_range | by left | by (right; right)].
  - destruct (validate_body UpdateBookModel_init body) as [u|];
      [|by (right; right; right; left)].
    destruct (ObjectId.of_string id) as [oid|] eqn:Hid.
    + destruct (run_update_book w id u oid Hw Hid) as (_ & -> & _).
      destruct (answer_found_typed (updated_doc oid (update_dict u) <$> gw_find_one oid w))
        as [H|H]; [|by (left)|by (right; right; left)].
      intros d' Hd'. destruct (gw_find_one oid w) as [d|] eqn:Hd; [|done].
      injection Hd' as <-. simpl. rewrite <- (found_id w oid d Hw Hd). by eapply found_range.
    + rewrite (proj1 (proj2 (run_invalid_id w id u Hid))). by (right; left).
  - destruct (ObjectId.of_string id) as [oid|] eqn:Hid.
    + rewrite (run_delete_book w id oid Hid). simpl.
      destruct ((gw_delete_one oid w).2 =? 1); [by left | by (right; right)].
    + rewrite (proj2 (proj2 (run_invalid_id w id (mkUpdateBookModel None None None) Hid))).
      by (right; left).
Qed.

End Theorems.

End Handlers.
