(* ===== verification/Abstract.v ===== *)
(** * The collection of the spec and the refinement by the handlers

    Section 4.2 of the spec describes the store as a set of books keyed by
    their ids: [insert] adds a record under a new id, [find_one] reads the
    record of an id, [update_one] applies the present fields of a patch
    and reports whether anything changed, [delete_one] removes the record
    and reports whether there was one, [find_many] keeps the records that
    satisfy every condition.  Here that collection is a finite map
    [coll] from ids to the fields of a book, each operation a function on
    it, and [abs] maps the ordered list of documents of Store.v to it.
    The lemmas state that each operation of Store.v, seen through [abs],
    is the operation of the map; the theorems lift this to the endpoints
    of main.py run on that collection: each handler, on every branch,
    changes the map as the operation it implements and answers with what
    the map holds. *)

From S2P Require Import Prelude ObjectId Models Gateway Store Handlers.
From stdpp Require Import gmap.

Module Abstract.
Import Models Gateway Store Handlers.

Local Open Scope Z_scope.

(** ** The specification *)

Abbreviation coll := (gmap Z (list (string * string))).


(** [insert] under a given id; [None] when the id is taken. *)
Definition spec_insert (oid : Z) (fs : list (string * string)) (m : coll) : option coll :=
  match m !! oid with
  | Some _ => None
  | None => Some (<[oid := fs]> m)
  end.

Definition spec_update (oid : Z) (patch : list (string * string)) (m : coll) : coll * bool :=
  match m !! oid with
  | Some fs =>
      if decide (apply_set patch fs = fs) then (m, false)
      else (<[oid := apply_set patch fs]> m, true)
  | None => (m, false)
  end.


(** [find_many]: the filter is the list of the present parameters, each
    with the field it constrains; a record is kept when, for each of
    them, its field contains the parameter ignoring case. *)
Definition spec_param (k : string) (o : option string) : list (string * string) :=
  match o with
  | Some p => [(k, p)]
  | None => []
  end.

Definition spec_filter (title author category : option string) : list (string * string) :=
  spec_param "title" title ++ spec_param "author" author ++ spec_param "category" category.

Definition spec_cond (fs : list (string * string)) (kp : string * string) : bool :=
  match field_get kp.1 fs with
  | Some v => contains_ci kp.2 v
  | None => false
  end.

Definition spec_find_many (f : list (string * string)) (m : coll) : coll :=
  filter (fun kv : Z * list (string * string) => forallb (spec_cond kv.2) f = true) m.

(** The same restriction with the patterns the server compiled. *)
Section WithRegex.
Context {RE : RegexEngine}.

Definition spec_find (cq : list (string * regex)) (m : coll) : coll :=
  filter (fun kv : Z * list (string * string) => doc_matches cq (mkDoc kv.1 kv.2) = true) m.

End WithRegex.

(** ** The abstraction function *)

(** Each document at its id; of two documents with one id the first
    would be the one seen, as [find_one] sees it. *)
Fixpoint abs (ds : list doc) : coll :=
  match ds with
  | [] => ∅
  | d :: r => <[d_id d := d_fields d]> (abs r)
  end.

(** ** Lemmas on [abs] *)

Lemma NoDup_map_filter {A B} (f : A -> B) (P : A -> bool) l :
  List.NoDup (map f l) -> List.NoDup (map f (List.filter P l)).
Proof.
  induction l as [|x l IH]; simpl; [done|]. intros [Hn Hnd]%NoDup_cons_iff.
  destruct (P x); simpl; [|by apply IH]. constructor; [|by apply IH].
  intros (y & Hy & [Hin _]%List.filter_In)%in_map_iff. apply Hn, in_map_iff. eauto.
Qed.

Lemma abs_lookup ds oid : abs ds !! oid = d_fields <$> List.find (has_id oid) ds.
Proof.
  induction ds as [|d r IH]; cbn [abs List.find]; [done|]. unfold has_id at 1.
  destruct (Z.eqb_spec (d_id d) oid) as [<-|Hne].
  - by rewrite lookup_insert_eq.
  - by rewrite lookup_insert_ne.
Qed.

Lemma abs_lookup_None ds oid : abs ds !! oid = None <-> ~ In oid (map d_id ds).
Proof. rewrite abs_lookup, <- find_id_none. by destruct (List.find _ _). Qed.

Lemma abs_app_fresh ds d :
  ~ In (d_id d) (map d_id ds) -> abs (ds ++ [d]) = <[d_id d := d_fields d]> (abs ds).
Proof.
  induction ds as [|d' r IH]; simpl; intros Hn; [done|].
  apply Decidable.not_or in Hn as [Hne Hn].
  rewrite IH by done. by apply insert_insert_ne.
Qed.

Lemma abs_replace_first ds oid d fs :
  List.find (has_id oid) ds = Some d ->
  abs (replace_first oid (mkDoc oid fs) ds) = <[oid := fs]> (abs ds).
Proof.
  induction ds as [|d' r IH]; simpl; [done|]. unfold has_id at 1 3.
  destruct (Z.eqb_spec (d_id d') oid) as [<-|Hne]; intros Hf; cbn [abs d_id d_fields].
  - by rewrite insert_insert_eq.
  - rewrite IH by done. by apply insert_insert_ne.
Qed.


(** Two well-formed lists with the same abstraction hold the same
    documents: the map forgets the order and nothing else. *)
Lemma abs_in ds d :
  List.NoDup (map d_id ds) -> abs ds !! d_id d = Some (d_fields d) <-> In d ds.
Proof.
  intros Hnd. rewrite abs_lookup. split.
  - destruct (List.find _ ds) as [d'|] eqn:Hf; simpl; [|discriminate]. intros [= Hfs].
    apply find_id_some in Hf as [Hid Hin]. by destruct d, d'; simpl in *; subst.
  - intros Hin. by rewrite (find_id_in ds d Hnd Hin).
Qed.

Lemma abs_perm ds1 ds2 :
  wf_docs ds1 -> wf_docs ds2 -> abs ds1 = abs ds2 -> Permutation ds1 ds2.
Proof.
  intros [Hn1 _] [Hn2 _] Habs.
  apply Sorting.Permutation.NoDup_Permutation; [by eapply List.NoDup_map_inv | by eapply List.NoDup_map_inv|].
  intros d. by rewrite <- (abs_in ds1 d Hn1), <- (abs_in ds2 d Hn2), Habs.
Qed.

(** ** Refinement of each operation *)


(** [insert_one] is [insert] under the id the driver generates: the
    map gains that id when it was free; when it was taken, the server's
    [DuplicateKeyError] is the [None] of the map and the documents are
    left as they were. *)
Lemma insert_one_refines fs w :
  let oid := ObjectId.generate (w_time w) (w_rand w) (w_inc w) in
  match (insert_one fs w).2 with
  | Ok i => i = oid /\ spec_insert oid fs (abs (w_docs w)) = Some (abs (w_docs (insert_one fs w).1))
  | Err e => e = DuplicateKey oid /\ spec_insert oid fs (abs (w_docs w)) = None /\
      w_docs (insert_one fs w).1 = w_docs w
  end.
Proof.
  intros oid. unfold insert_one, spec_insert. fold oid.
  destruct (existsb (has_id oid) (w_docs w)) eqn:He; cbn [fst snd w_docs].
  - apply existsb_has_id in He.
    destruct (abs (w_docs w) !! oid) eqn:Hl; [done|]. by apply abs_lookup_None in Hl.
  - assert (Hn : ~ In oid (map d_id (w_docs w))) by (rewrite <- existsb_has_id; congruence).
    rewrite (proj2 (abs_lookup_None _ _) Hn). split; [done|].
    by rewrite (abs_app_fresh _ (mkDoc oid fs)).
Qed.

(** [update_one] with [$set] is the update of the map: the record of
    the id takes the patched fields, and [modified_count] is 1 exactly
    when the record exists and the patch changes it, 0 otherwise. *)
Lemma update_one_refines w oid patch :
  (abs (w_docs (update_one oid patch w).1), bool_decide ((update_one oid patch w).2 = 1)) =
    spec_update oid patch (abs (w_docs w)) /\
  ((update_one oid patch w).2 = 0 \/ (update_one oid patch w).2 = 1).
Proof.
  unfold update_one, spec_update, find_one. rewrite abs_lookup.
  destruct (List.find (has_id oid) (w_docs w)) as [d|] eqn:Hf; simpl; [|auto].
  pose proof (find_id_some _ _ _ Hf) as [Hid _].
  case_decide as Heq; simpl; [auto|].
  rewrite (abs_replace_first _ _ d) by done. auto.
Qed.


Section Find.
Context {RE : RegexEngine}.

Lemma abs_filter cq ds :
  List.NoDup (map d_id ds) ->
  abs (List.filter (doc_matches cq) ds) = spec_find cq (abs ds).
Proof.
  unfold spec_find.
  induction ds as [|d r IH]; simpl; intros Hnd; [by rewrite map_filter_empty|].
  apply NoDup_cons_iff in Hnd as [Hn Hnd].
  assert (Hd : mkDoc (d_id d) (d_fields d) = d) by (by destruct d).
  destruct (doc_matches cq d) eqn:Hm; simpl.
  - rewrite map_filter_insert_True by (simpl; by rewrite Hd). by rewrite IH.
  - rewrite map_filter_insert_False by (simpl; rewrite Hd; congruence).
    rewrite delete_id by (by apply abs_lookup_None). by apply IH.
Qed.

(** [find] with a filter the server compiles answers, in the natural
    order, documents of distinct ids whose map is the restriction of the
    collection to the records that satisfy every condition. *)
Lemma find_refines w q cq :
  wf_world w -> compile_query q = Ok cq ->
  exists ds, find q w = Ok ds /\ List.NoDup (map d_id ds) /\
    abs ds = spec_find cq (abs (w_docs w)).
Proof.
  intros [Hnd _] Hq. exists (List.filter (doc_matches cq) (w_docs w)).
  unfold find. rewrite Hq. split; [done|]. split; [|by apply abs_filter].
  by apply NoDup_map_filter.
Qed.

(** ** The filter of [list_books] and the one of the spec *)

Lemma field_get_in k fs v : field_get k fs = Some v -> In (k, v) fs.
Proof.
  induction fs as [|[k' v'] fs IH]; simpl; [done|].
  destruct (String.eqb_spec k k') as [->|_]; [intros [= ->]; by left|]. auto.
Qed.

Lemma field_get_key k fs : In k (map fst fs) -> field_get k fs <> None.
Proof.
  induction fs as [|[k' v'] fs IH]; simpl; [done|].
  destruct (String.eqb_spec k k'); [done|]. intros [->|Hk]; [done|]. by apply IH.
Qed.

(** Patterns read as their own characters compile, and search ASCII
    values as the caseless substring test of the spec. *)
Lemma compile_literal q :
  Forall (fun kp => literal kp.2 = true) q ->
  exists cq, compile_query q = Ok cq /\
    forall d, Forall (fun kv => ascii_str kv.2 = true) (d_fields d) ->
      doc_matches cq d = forallb (spec_cond (d_fields d)) q.
Proof.
  induction 1 as [|[k p] q Hp _ (cq & Hcq & Hm)]; [by exists []|].
  destruct (re_literal p Hp) as (r & Hc & Hs). exists ((k, r) :: cq).
  cbn [compile_query]. rewrite Hc, Hcq. split; [done|]. intros d Ha.
  specialize (Hm d Ha). unfold doc_matches in *. cbn [forallb]. rewrite Hm. f_equal.
  unfold cond_holds, spec_cond. cbn [fst snd].
  destruct (field_get k (d_fields d)) as [v|] eqn:Hv; [|done].
  apply Hs. apply field_get_in in Hv. by rewrite List.Forall_forall in Ha; apply (Ha _ Hv).
Qed.

(** [query_cond] drops an empty parameter, which the spec's filter keeps;
    on a record that has the field the two agree. *)
Lemma query_cond_spec k o fs :
  field_get k fs <> None ->
  forallb (spec_cond fs) (query_cond k o) = forallb (spec_cond fs) (spec_param k o).
Proof.
  intros Hk. destruct o as [p|]; [|done]. unfold query_cond.
  destruct (String.eqb_spec p ""%string) as [->|_]; [|done].
  cbn [forallb spec_param]. rewrite andb_true_r. unfold spec_cond. cbn [fst snd].
  destruct (field_get k fs) as [v|]; [|done]. unfold contains_ci. cbn [str_lower].
  by rewrite contains_empty.
Qed.

Lemma query_cond_literal k k' o :
  Forall (fun kp => literal kp.2 = true) (spec_param k o) ->
  Forall (fun kp => literal kp.2 = true) (query_cond k' o).
Proof.
  destruct o as [p|]; [|done]. cbn. intros Hp%List.Forall_inv.
  unfold query_cond. destruct (String.eqb p ""); by repeat constructor.
Qed.

Lemma list_query_literal t a c :
  Forall (fun kp => literal kp.2 = true) (spec_filter t a c) ->
  Forall (fun kp => literal kp.2 = true) (list_query t a c).
Proof.
  unfold spec_filter, list_query. rewrite !List.Forall_app.
  intros (H1 & H2 & H3). split; [|split]; eapply query_cond_literal; eassumption.
Qed.

End Find.

(** ** The handlers on the MongoDB collection

    The handlers of main.py run against the collection of Store.v, each
    endpoint seen through [abs] is the operation of the map. *)

Section Endpoints.
Context {RE : RegexEngine}.

Lemma wf_gw w : wf_world w -> gw_wf w.
Proof. done. Qed.



(** C12. [POST /books] is [insert] of the spec under the id the driver
    generates: when the id is free the map gains the book and the answer
    is 201 with it; when it is taken the answer is 500 and the documents
    are left as they were. *)
Theorem create_book_refines w b :
  wf_world w ->
  let oid := ObjectId.generate (w_time w) (w_rand w) (w_inc w) in
  let fs := BookModel_dict_exclude_id b in
  match spec_insert oid fs (abs (w_docs w)) with
  | Some m => (run (create_book b) w).1 = Resp 201 (book_json (mkDoc oid fs)) /\
      abs (w_docs (run (create_book b) w).2) = m
  | None => (run (create_book b) w).1 = internal_error /\
      w_docs (run (create_book b) w).2 = w_docs w
  end.
Proof.
  intros Hw oid fs. rewrite (run_create_book (W:=world) w b (wf_gw w Hw)). cbn [gw_insert_one mongo_gateway].
  pose proof (insert_one_refines fs w) as Hr. fold oid fs in Hr |- *.
  destruct (insert_one fs w) as [w1 [i|e]]; cbn [fst snd] in *.
  - destruct Hr as [-> ->]. by split.
  - destruct Hr as (_ & -> & Hd). by split.
Qed.



(** [GET /books] with a filter the server compiles answers 200 with
    books of distinct ids whose map is the restriction of the collection
    to the records that satisfy every compiled condition. *)
Lemma list_books_find w t a c cq :
  wf_world w -> compile_query (list_query t a c) = Ok cq ->
  exists ds, run (list_books t a c) w = (Resp 200 (JArr (map book_json ds)), w) /\
    List.NoDup (map d_id ds) /\ abs ds = spec_find cq (abs (w_docs w)).
Proof.
  intros Hw Hq. destruct (find_refines w _ cq Hw Hq) as (ds & Hf & Hnd & Habs).
  exists ds. split; [|done]. unfold list_books. cbn [run exec gw_find mongo_gateway].
  rewrite Hf. cbv beta iota. rewrite shape_books_wf; [done|].
  apply List.Forall_forall. intros d Hd.
  apply (found_wf (W:=world) w (d_id d)); [by apply wf_gw|]. cbn [gw_find_one mongo_gateway].
  apply find_one_in; [done|]. unfold find in Hf. rewrite Hq in Hf. injection Hf as <-.
  by apply List.filter_In in Hd as [? _].
Qed.

Lemma spec_find_literal w q cq :
  wf_world w ->
  Forall (fun d => Forall (fun kv => ascii_str kv.2 = true) (d_fields d)) (w_docs w) ->
  (forall d, Forall (fun kv => ascii_str kv.2 = true) (d_fields d) ->
     doc_matches cq d = forallb (spec_cond (d_fields d)) q) ->
  spec_find cq (abs (w_docs w)) =
    filter (fun kv : Z * list (string * string) => forallb (spec_cond kv.2) q = true) (abs (w_docs w)).
Proof.
  intros Hw Ha Hm. unfold spec_find. apply map_filter_ext. intros i fs Hi.
  rewrite abs_lookup in Hi. destruct (List.find (has_id i) (w_docs w)) as [d|] eqn:Hf; [|done].
  injection Hi as <-. apply find_id_some in Hf as [<- Hd].
  rewrite List.Forall_forall in Ha. rewrite Hm by (apply (Ha d Hd)). by destruct d.
Qed.

(** C15. Search as the spec's [find_many]: when every present search
    parameter is ASCII with no metacharacter of the server's regular
    expressions (and no NUL), and the stored values are ASCII, [GET
    /books] answers 200 with books of distinct ids whose map is the
    restriction of the collection to the records whose fields contain
    each present parameter, ignoring case; an empty parameter constrains
    nothing. *)
Theorem list_books_refines w t a c :
  wf_world w -> Forall (fun kp => literal kp.2 = true) (spec_filter t a c) ->
  Forall (fun d => Forall (fun kv => ascii_str kv.2 = true) (d_fields d)) (w_docs w) ->
  exists ds, run (list_books t a c) w = (Resp 200 (JArr (map book_json ds)), w) /\
    List.NoDup (map d_id ds) /\ abs ds = spec_find_many (spec_filter t a c) (abs (w_docs w)).
Proof.
  intros Hw Hl Ha.
  destruct (compile_literal _ (list_query_literal t a c Hl)) as (cq & Hq & Hm).
  destruct (list_books_find w t a c cq Hw Hq) as (ds & Hr & Hnd & Habs).
  exists ds. split; [done|]. split; [done|]. rewrite Habs, (spec_find_literal w _ cq Hw Ha Hm).
  unfold spec_find_many. apply map_filter_ext. intros i fs Hi.
  rewrite abs_lookup in Hi. destruct (List.find (has_id i) (w_docs w)) as [d|] eqn:Hf; [|done].
  injection Hi as <-. apply find_id_some in Hf as [_ Hd].
  destruct Hw as [_ Hwf]. rewrite List.Forall_forall in Hwf.
  assert (Hk : forall k, In k book_keys -> field_get k (d_fields d) <> None).
  { intros k Hin. apply field_get_key. destruct (Hwf d Hd) as [_ Hkeys]. rewrite Hkeys. exact Hin. }
  unfold list_query, spec_filter. rewrite !forallb_app.
  rewrite !query_cond_spec; [done|..]; apply Hk; cbn; tauto.
Qed.


(** C22. The id generator wraps: when the driver's counter comes back,
    modulo [2^24], to the counter of a stored id of the same second and
    process, [POST /books] answers 500 and stores nothing, so at most
    [2^24] books can be created per second. *)
Theorem create_book_counter_wrap w b i :
  wf_world w ->
  In (ObjectId.generate (w_time w) (w_rand w) i) (map d_id (w_docs w)) ->
  w_inc w mod 2 ^ 24 = i mod 2 ^ 24 ->
  (run (create_book b) w).1 = internal_error /\ w_docs (run (create_book b) w).2 = w_docs w.
Proof.
  intros Hw Hin Hc. rewrite (run_create_book (W:=world) w b (wf_gw w Hw)). cbn [gw_insert_one mongo_gateway].
  pose proof (insert_one_counter_wrap (BookModel_dict_exclude_id b) w i Hin Hc) as He.
  destruct (insert_one _ w) as [w1 r] eqn:E. simpl in He. subst r. split; [done|].
  unfold insert_one in E. rewrite (proj2 (ObjectId.generate_period _ _ _ _) Hc),
    (proj2 (existsb_has_id _ _) Hin) in E. by injection E as <-.
Qed.

End Endpoints.

End Abstract.
