(* ===== verification/Search.v ===== *)
(** * The search of [GET /books] with MongoDB's regular expressions

    [list_books] (main.py lines 40-54) passes each non-empty search
    parameter to the server as [{"$regex": p, "$options": "i"}].  With
    the PCRE-fragment engine of Regex.v in place of the server's PCRE,
    this file states what a parameter with a metacharacter does, where
    the spec (section 4.2) promises a caseless substring search: [.]
    lists every book whose title has a character other than a newline,
    and a parameter that is a lone special character, which PCRE cannot
    compile, answers 500.  The theorems hold of every store that meets
    the contract of Gateway.v; the closed instances run on the MongoDB
    model of Store.v. *)

From S2P Require Import Prelude ObjectId Models Gateway Store Handlers Regex.

Module Search.
Import Models Gateway Store Handlers Regex.

(** ** A concrete store *)

(** "Dune", whose title holds no [.], stored by the driver. *)
Definition w_search : world :=
  mkWorld [mkDoc (ObjectId.generate 1700000000 733007751850 42)
             [("title", "Dune"); ("author", "Frank Herbert"); ("category", "SF")]%string]
    1700000000 733007751850 43.

(** The characters of the title of a document. *)
Definition title_chars (d : doc) : list ascii :=
  list_ascii_of_string (default ""%string (field_get "title" (d_fields d))).

(** The patterns of one special character PCRE cannot compile. *)
Definition lone_specials : list string := ["("; ")"; "*"; "+"; "?"; "\"]%string.

(** ** The pattern [.] *)

Lemma parse_dot : parse "." = Some (RCat RAny REps).
Proof. reflexivity. Qed.

Lemma existsb_head_positions (g : ascii -> bool) (s : list ascii) :
  existsb (fun i => match drop i s with x :: _ => g x | [] => false end)
    (List.seq 0 (S (List.length s))) = existsb g s.
Proof.
  rewrite (existsb_positions (fun t => match t with x :: _ => g x | [] => false end)).
  induction s as [|x s IH]; simpl; [done|]. rewrite IH. by destruct s.
Qed.

Lemma search_dot v :
  search (RCat RAny REps) v = existsb (fun c => negb (Ascii.eqb c "010"%char)) (list_ascii_of_string v).
Proof.
  unfold search. rewrite <- existsb_head_positions. apply existsb_ext_eq. intros i.
  pose proof (nth_error_drop (list_ascii_of_string v) i) as Hd. simpl.
  destruct (nth_error _ i) as [x|]; rewrite Hd; [|done].
  by destruct (Ascii.eqb x "010"%char).
Qed.

Lemma existsb_not_newline cs :
  existsb (fun c => negb (Ascii.eqb c "010"%char)) cs = true <->
  exists c, In c cs /\ c <> "010"%char.
Proof.
  rewrite existsb_exists. split; intros (c & Hin & Hc); exists c; split; try done.
  - intros ->. discriminate.
  - by apply negb_true_iff, Ascii.eqb_neq.
Qed.

(** ** Patterns PCRE cannot compile *)

Lemma parse_lone_special t : In t lone_specials -> parse t = None.
Proof. intros Ht. repeat destruct Ht as [<-|Ht]; try reflexivity. done. Qed.

Section Listing.
Context {W : Type} `{!Gateway W} `{!GatewayLaws W}.

(** C25. [GET /books?title=.] is not a search for the character [.]: it
    answers 200 with every stored book whose title holds a character
    other than a newline (and each once), whether or not that title
    contains a [.]. *)
Theorem list_books_dot w :
  gw_wf w ->
  exists ds,
    run (list_books (Some "."%string) None None) w = (Resp 200 (JArr (map book_json ds)), w) /\
    List.NoDup ds /\
    forall d, In d ds <-> gw_find_one (d_id d) w = Some d /\
      exists c, In c (title_chars d) /\ c <> "010"%char.
Proof.
  intros Hw. pose proof (run_list_books w (Some "."%string) None None Hw) as H.
  cbn [list_query query_cond String.eqb app compile_query re_compile pcre_engine] in H.
  rewrite parse_dot in H. cbn in H. destruct H as (ds & Hr & Hnd & Hin).
  exists ds. split; [exact Hr|]. split; [done|]. intros d. rewrite Hin.
  unfold doc_matches, cond_holds, title_chars. cbn [forallb fst snd]. rewrite andb_true_r.
  destruct (field_get "title" (d_fields d)) as [v|]; cbn [default re_search pcre_engine].
  - by rewrite search_dot, existsb_not_newline.
  - split; [intros [_ ?]; discriminate | intros [_ (c & [] & _)]].
Qed.

(** C26. A search parameter that is a lone special character of PCRE,
    [(], [)], [*], [+], [?] or a backslash, is not a regular expression
    the server compiles: [GET /books] answers 500, whatever the other
    parameters and the store. *)
Theorem list_books_special_char w t a c :
  gw_wf w -> In t lone_specials ->
  run (list_books (Some t) a c) w = (internal_error, w).
Proof.
  intros Hw Ht. pose proof (run_list_books w (Some t) a c Hw) as H.
  assert (Hne : String.eqb t "" = false).
  { apply String.eqb_neq. intros ->. repeat (destruct Ht as [Ht|Ht]; [discriminate|]). exact Ht. }
  unfold list_query, query_cond in H. rewrite Hne in H. cbn [app compile_query re_compile pcre_engine] in H.
  rewrite (parse_lone_special t Ht) in H. exact H.
Qed.

End Listing.

(** ** Closed instances on the MongoDB model *)

Lemma w_search_wf : wf_world w_search.
Proof. apply wf_docsb_spec. vm_compute. reflexivity. Qed.

Lemma list_books_dot_witness :
  gw_wf w_search /\
  exists ds,
    run (list_books (Some "."%string) None None) w_search =
      (Resp 200 (JArr (map book_json ds)), w_search) /\
    List.NoDup ds /\
    forall d, In d ds <-> gw_find_one (d_id d) w_search = Some d /\
      exists c, In c (title_chars d) /\ c <> "010"%char.
Proof.
  assert (Hw : gw_wf w_search) by exact w_search_wf.
  split; [exact Hw | exact (list_books_dot w_search Hw)].
Defined.

Lemma list_books_special_char_witness :
  gw_wf w_search /\ In "("%string lone_specials /\
  run (list_books (Some "("%string) None None) w_search = (internal_error, w_search).
Proof.
  assert (Hw : gw_wf w_search) by exact w_search_wf.
  assert (Ht : In "("%string lone_specials) by (left; reflexivity).
  split; [exact Hw|]. split; [exact Ht|].
  exact (list_books_special_char w_search _ None None Hw Ht).
Defined.

End Search.
