(* ===== verification/App.v ===== *)
(** * The application: CORS middleware around the routes, configuration

    main.py builds [app = FastAPI(...)] and wraps it in Starlette's
    [CORSMiddleware] with [allow_origins=["*"]], [allow_credentials=True],
    [allow_methods=["*"]], [allow_headers=["*"]] (lines 8-17); the
    collection comes from [MONGO_URL] (lines 19-23).  This file holds the
    configuration as the code writes it, the middleware as Starlette
    implements it ([starlette/middleware/cors.py]: the settings computed
    by [__init__], [preflight_response], and [send] for the other
    requests), the composition [serve] of the middleware with the routes
    of Handlers.v and with Starlette's [ServerErrorMiddleware] (which
    answers an uncaught exception with a plain-text 500 that carries no
    CORS header), and the client, database and collection handles of
    lines 21-23.  The smoke test of test_main.py is not modelled: its
    [from main import app] fails, since main.py imports [models] while
    the module is app/models.py.

    Header names are lower case, as ASGI delivers them and as Starlette's
    [MutableHeaders] stores them; the [content-type] and [content-length]
    headers the framework adds to every answer are left out. *)

From S2P Require Import Prelude ObjectId Models Gateway Handlers.

Module App.
Import Models Gateway Handlers.

Local Open Scope Z_scope.

(** ** Headers *)

Definition headers := list (string * string).

(** [Headers.get]: the first value of the name. *)
Definition hget (k : string) (hs : headers) : option string :=
  snd <$> List.find (fun kv => String.eqb kv.1 k) hs.

Definition hhas (k : string) (hs : headers) : bool :=
  existsb (fun kv => String.eqb kv.1 k) hs.

(** [MutableHeaders.__setitem__]: the first entry of the name takes the
    value and the later ones are removed; a new name goes at the end. *)
Fixpoint hset (k v : string) (hs : headers) : headers :=
  match hs with
  | [] => [(k, v)]
  | (k', v') :: r =>
      if String.eqb k' k then (k, v) :: List.filter (fun kv => negb (String.eqb kv.1 k)) r
      else (k', v') :: hset k v r
  end.

(** [MutableHeaders.add_vary_header]. *)
Definition add_vary_header (vary : string) (hs : headers) : headers :=
  match hget "vary" hs with
  | Some existing => hset "vary" (existing ++ ", " ++ vary) hs
  | None => hset "vary" vary hs
  end.

(** ** Python string helpers *)

(** Dropping the leading whitespace of [str.strip]. *)
Fixpoint lstrip_l (l : list ascii) : list ascii :=
  match l with
  | c :: r =>
      match nat_of_ascii c with 9 | 10 | 11 | 12 | 13 | 32 => lstrip_l r | _ => l end%nat
  | [] => []
  end.

(** [str.strip()] on ASCII text. *)
Definition py_strip (s : string) : string :=
  string_of_list_ascii (rev (lstrip_l (rev (lstrip_l (list_ascii_of_string s))))).

(** [s.split(",")], the current piece in [cur]. *)
Fixpoint split_comma (s : string) (cur : string) : list string :=
  match s with
  | EmptyString => [cur]
  | String c r =>
      if Ascii.eqb c "," then cur :: split_comma r ""
      else split_comma r (cur ++ String c "")
  end.

(** One element into a sorted list without repetition: [sorted(set(l))]
    is [fold_right insert_sorted [] l]. *)
Fixpoint insert_sorted (x : string) (l : list string) : list string :=
  match l with
  | [] => [x]
  | y :: r =>
      if String.eqb x y then l
      else if String.ltb x y then x :: l else y :: insert_sorted x r
  end.

Definition mem (x : string) (l : list string) : bool := existsb (String.eqb x) l.

(** ** The configuration of main.py *)

(** [os.getenv("MONGO_URL", "mongodb://localhost:27017")]. *)
Definition MONGO_URL (getenv : string -> option string) : string :=
  default "mongodb://localhost:27017" (getenv "MONGO_URL").

(** The handles of lines 21-23.  [AsyncIOMotorClient] connects lazily, at
    the first operation: a handle is the address of the collection it
    names, the server's URL and the database and collection names. *)
Record motor_client := MotorClient { mc_url : string }.
Record motor_database := MotorDatabase { md_client : motor_client; md_name : string }.
Record motor_collection := MotorCollection { mcol_db : motor_database; mcol_name : string }.

(** [client = AsyncIOMotorClient(MONGO_URL)]. *)
Definition client (getenv : string -> option string) : motor_client :=
  MotorClient (MONGO_URL getenv).

(** [db = client.bibliotheque]. *)
Definition db (getenv : string -> option string) : motor_database :=
  MotorDatabase (client getenv) "bibliotheque".

(** [collection = db.books]. *)
Definition collection (getenv : string -> option string) : motor_collection :=
  MotorCollection (db getenv) "books".

(** [app = FastAPI(title="Bibliothèque Numérique API")]. *)
Definition app_title : string := "Bibliothèque Numérique API".

Record cors_options := CorsOptions {
  allow_origins : list string;
  allow_credentials : bool;
  allow_methods : list string;
  allow_headers : list string
}.

(** The keyword arguments of [app.add_middleware(CORSMiddleware, ...)]. *)
Definition app_cors : cors_options := CorsOptions ["*"] true ["*"] ["*"].

(** ** Starlette's [CORSMiddleware] *)

Definition ALL_METHODS : list string :=
  ["DELETE"; "GET"; "HEAD"; "OPTIONS"; "PATCH"; "POST"; "PUT"].

Definition SAFELISTED_HEADERS : list string :=
  ["Accept"; "Accept-Language"; "Content-Language"; "Content-Type"].

(** What [CORSMiddleware.__init__] stores ([max_age] 600, no
    [expose_headers], no [allow_origin_regex]). *)
Record cors_state := CorsState {
  cs_allow_origins : list string;
  cs_allow_methods : list string;
  cs_allow_headers : list string;
  cs_allow_all_origins : bool;
  cs_allow_all_headers : bool;
  cs_preflight_explicit_allow_origin : bool;
  cs_simple_headers : headers;
  cs_preflight_headers : headers
}.

Definition CORSMiddleware_init (o : cors_options) : cors_state :=
  let methods := if mem "*" (allow_methods o) then ALL_METHODS else allow_methods o in
  let all_origins := mem "*" (allow_origins o) in
  let all_headers := mem "*" (allow_headers o) in
  let explicit := negb all_origins || allow_credentials o in
  let hdrs := fold_right insert_sorted [] (SAFELISTED_HEADERS ++ allow_headers o) in
  let simple :=
    (if all_origins then [("access-control-allow-origin", "*")] else []) ++
    (if allow_credentials o then [("access-control-allow-credentials", "true")] else []) in
  let preflight :=
    (if explicit then [("vary", "Origin")] else [("access-control-allow-origin", "*")]) ++
    [("access-control-allow-methods", String.concat ", " methods);
     ("access-control-max-age", "600")] ++
    (if negb all_headers then [("access-control-allow-headers", String.concat ", " hdrs)]
     else []) ++
    (if allow_credentials o then [("access-control-allow-credentials", "true")] else []) in
  CorsState (allow_origins o) methods (map str_lower hdrs) all_origins all_headers
    explicit simple preflight.

Definition is_allowed_origin (st : cors_state) (origin : string) : bool :=
  cs_allow_all_origins st || mem origin (cs_allow_origins st).

(** An answer on the wire: a JSON body from the routes, or the plain text
    of the middleware. *)
Inductive body_kind := BJson (j : json) | BText (s : string).

Record http_response := HttpResp {
  h_status : Z; h_body : body_kind; h_headers : headers
}.

(** [CORSMiddleware.preflight_response]. *)
Definition preflight_response (st : cors_state) (rh : headers) : http_response :=
  let requested_origin := default "" (hget "origin" rh) in
  let requested_method := default "" (hget "access-control-request-method" rh) in
  let requested_headers := hget "access-control-request-headers" rh in
  let h0 := cs_preflight_headers st in
  let '(h1, f1) :=
    if is_allowed_origin st requested_origin then
      (if cs_preflight_explicit_allow_origin st
       then hset "access-control-allow-origin" requested_origin h0 else h0, [])
    else (h0, ["origin"]) in
  let f2 := if mem requested_method (cs_allow_methods st) then [] else ["method"] in
  let '(h2, f3) :=
    match requested_headers with
    | Some req =>
        if cs_allow_all_headers st then (hset "access-control-allow-headers" req h1, [])
        else if forallb (fun h => mem (py_strip h) (cs_allow_headers st))
                        (split_comma (str_lower req) "")
        then (h1, []) else (h1, ["headers"])
    | None => (h1, [])
    end in
  match f1 ++ f2 ++ f3 with
  | [] => HttpResp 200 (BText "OK") h2
  | failures => HttpResp 400 (BText ("Disallowed CORS " ++ String.concat ", " failures)) h2
  end.

(** [CORSMiddleware.allow_explicit_origin]. *)
Definition allow_explicit_origin (hs : headers) (origin : string) : headers :=
  add_vary_header "Origin" (hset "access-control-allow-origin" origin hs).

(** [CORSMiddleware.send]: the headers of the start of an answer to a
    request with an [origin] header. *)
Definition cors_send (st : cors_state) (rh : headers) (hs : headers) : headers :=
  let hs := fold_left (fun acc kv => hset kv.1 kv.2 acc) (cs_simple_headers st) hs in
  let origin := default "" (hget "origin" rh) in
  let has_cookie := hhas "cookie" rh in
  if cs_allow_all_origins st && has_cookie then allow_explicit_origin hs origin
  else if negb (cs_allow_all_origins st) && is_allowed_origin st origin
  then allow_explicit_origin hs origin
  else hs.

(** ** The application *)

(** A request: one the path operations of main.py answer, with its
    headers, or an [OPTIONS] request (no route of main.py has that
    method). *)
Inductive http_request :=
| Routed (rq : request) (rh : headers)
| Options (rh : headers).

(** Starlette's router on a path whose routes do not take the method. *)
Definition method_not_allowed : response :=
  Resp 405 (JObj [("detail", JStr "Method Not Allowed")]%string).

Section Serve.
Context {RE : RegexEngine} {W : Type} `{!Gateway W}.

(** The routes of [app]. *)
Definition app_routes (r : http_request) (w : W) : response * W :=
  match r with
  | Routed rq _ => run (handle rq) w
  | Options _ => (method_not_allowed, w)
  end.

(** [CORSMiddleware.__call__] around the routes, configured as main.py
    configures it.  An answer 500 is an exception the routes do not
    catch: it leaves the middleware before any header is sent, and
    Starlette's [ServerErrorMiddleware], outside the CORS middleware,
    answers it with its plain-text page and none of the headers the CORS
    middleware adds. *)
Definition serve (r : http_request) (w : W) : http_response * W :=
  let st := CORSMiddleware_init app_cors in
  let rh := match r with Routed _ rh | Options rh => rh end in
  let pass := fun hs => let '(resp, w') := app_routes r w in
                        if status resp =? 500
                        then (HttpResp 500 (BText "Internal Server Error") [], w')
                        else (HttpResp (status resp) (BJson (body resp)) hs, w') in
  match hget "origin" rh with
  | None => pass []
  | Some _ =>
      match r with
      | Options _ =>
          if hhas "access-control-request-method" rh then (preflight_response st rh, w)
          else pass (cors_send st rh [])
      | Routed _ _ => pass (cors_send st rh [])
      end
  end.

End Serve.

(** ** Header lemmas *)

Lemma hget_hhas k hs v : hget k hs = Some v -> hhas k hs = true.
Proof.
  unfold hget, hhas. intros H.
  destruct (List.find _ hs) as [kv|] eqn:Hf; [|discriminate].
  apply existsb_exists. exists kv. split; [by eapply find_some_in | by eapply find_some in Hf as [_ ?]].
Qed.

Lemma hget_hset_eq k v hs : hget k (hset k v hs) = Some v.
Proof.
  unfold hget. induction hs as [|[k' v'] r IH]; simpl; [by rewrite String.eqb_refl|].
  destruct (String.eqb k' k) eqn:E; simpl; [by rewrite String.eqb_refl|].
  by rewrite E.
Qed.

Lemma find_filter_ne k k' (r : headers) :
  k' <> k ->
  List.find (fun kv => String.eqb kv.1 k') (List.filter (fun kv => negb (String.eqb kv.1 k)) r) =
  List.find (fun kv => String.eqb kv.1 k') r.
Proof.
  intros Hne. induction r as [|[a b] r IH]; simpl; [done|].
  destruct (String.eqb a k) eqn:E; simpl.
  - apply String.eqb_eq in E; subst. rewrite IH.
    by rewrite (proj2 (String.eqb_neq k k')) by congruence.
  - by rewrite IH.
Qed.

Lemma hget_hset_ne k k' v hs : k' <> k -> hget k' (hset k v hs) = hget k' hs.
Proof.
  intros Hne. unfold hget. f_equal.
  induction hs as [|[a b] r IH]; simpl.
  - by rewrite (proj2 (String.eqb_neq k k')) by congruence.
  - destruct (String.eqb a k) eqn:E; simpl.
    + apply String.eqb_eq in E; subst.
      rewrite (proj2 (String.eqb_neq k k')) by congruence.
      by rewrite find_filter_ne.
    + by rewrite IH.
Qed.

#[local] Hint Rewrite hget_hset_eq : bib_rw.

(** What [CORSMiddleware.__init__] computes from main.py's options: every
    origin, every method, every header, and credentials. *)
Lemma app_cors_state :
  CORSMiddleware_init app_cors =
  CorsState ["*"] ALL_METHODS ["*"; "accept"; "accept-language"; "content-language"; "content-type"]
    true true true
    [("access-control-allow-origin", "*"); ("access-control-allow-credentials", "true")]
    [("vary", "Origin");
     ("access-control-allow-methods", "DELETE, GET, HEAD, OPTIONS, PATCH, POST, PUT");
     ("access-control-max-age", "600"); ("access-control-allow-credentials", "true")].
Proof. vm_compute. reflexivity. Qed.

(** ** Theorems *)

Section ServeTheorems.
Context {RE : RegexEngine} {W : Type} `{!Gateway W}.

(** C23. Any origin passes the preflight, and its answer allows that very
    origin to send credentials: with [allow_origins=["*"]] and
    [allow_credentials=True] the middleware echoes the [Origin] header
    rather than answering ["*"]. *)
Theorem preflight_any_origin rh (w : W) o m :
  hget "origin" rh = Some o ->
  hget "access-control-request-method" rh = Some m -> mem m ALL_METHODS = true ->
  h_status (serve (Options rh) w).1 = 200 /\ (serve (Options rh) w).2 = w /\
  hget "access-control-allow-origin" (h_headers (serve (Options rh) w).1) = Some o /\
  hget "access-control-allow-credentials" (h_headers (serve (Options rh) w).1) = Some "true"%string.
Proof.
  intros Ho Hm Hmem. unfold serve.
  rewrite Ho, (hget_hhas _ _ _ Hm). unfold preflight_response. rewrite app_cors_state.
  cbn [cs_allow_all_origins is_allowed_origin cs_preflight_explicit_allow_origin
       cs_allow_methods cs_allow_all_headers cs_preflight_headers orb].
  rewrite Ho, Hm. simpl default. rewrite Hmem.
  destruct (hget "access-control-request-headers" rh); simpl;
    (split; [done|]); (split; [done|]);
    repeat (rewrite hget_hset_ne by done); by rewrite ?hget_hset_eq.
Qed.

(** C24. A request that carries a cookie gets the same treatment: unless
    its handler fails with an exception (an answer 500), its answer
    allows the requesting origin, whatever it is, with credentials. *)
Theorem cookie_any_origin rq rh (w : W) o :
  hget "origin" rh = Some o -> hhas "cookie" rh = true ->
  status (run (handle rq) w).1 <> 500 ->
  hget "access-control-allow-origin" (h_headers (serve (Routed rq rh) w).1) = Some o /\
  hget "access-control-allow-credentials" (h_headers (serve (Routed rq rh) w).1) =
    Some "true"%string.
Proof.
  intros Ho Hc H500. unfold serve. rewrite Ho. simpl.
  destruct (run (handle rq) w) as [r w']. simpl in H500 |- *.
  rewrite (proj2 (Z.eqb_neq _ _) H500). simpl.
  unfold cors_send. rewrite app_cors_state. simpl. by rewrite Ho, Hc.
Qed.

End ServeTheorems.

End App.
