(* ===== verification/Scenario.v ===== *)
(** * Concrete runs: the scenarios of the spec on the MongoDB model

    The handlers of Handlers.v run against the store of Store.v from
    concrete worlds (the store after creating "Le Petit Prince", then
    "Dune"; a store of ASCII values for the search of the spec), with the
    closed instances of the theorems at these worlds.  Searches run on the PCRE-fragment engine
    [Regex.pcre_engine]. *)

From S2P Require Import Prelude ObjectId Models Gateway Store Regex Abstract Handlers App.

Module Scenario.
Import Models Gateway Store Abstract Handlers App.

#[export] Existing Instance Regex.pcre_engine.

Local Open Scope Z_scope.

(** ** A concrete world *)

(** The driver's clock, random bytes and counter. *)
Definition T0 : Z := 1700000000.
Definition R0 : Z := 733007751850.
Definition I0 : Z := 42.

Definition w_empty : world := mkWorld [] T0 R0 I0.

Definition prince_body : json := BookModel_schema_example.

Definition dune_kvs : list (string * json) :=
  [("title", JStr "Dune"); ("author", JStr "Frank Herbert"); ("category", JStr "SF")]%string.

Definition dune_body : json := JObj dune_kvs.

Definition dune : BookModel := mkBookModel None "Dune" "Frank Herbert" "SF".

(** The world after creating "Le Petit Prince". *)
Definition w0 : world := (run (handle (PostBooks prince_body)) w_empty).2.

Definition oid_prince : Z := ObjectId.generate T0 R0 I0.
Definition oid_dune : Z := ObjectId.generate T0 R0 (I0 + 1).

(** The world of [w0] once the driver's counter has gone round. *)
Definition w_wrapped : world := mkWorld (w_docs w0) (w_time w0) (w_rand w0) (I0 + 2 ^ 24).

(** The world after also creating "Dune". *)
Definition w_dune : world := (insert_one (BookModel_dict_exclude_id dune) w0).1.

(** The id of "Le Petit Prince" as a client writes it. *)
Definition prince_hex : string := Eval vm_compute in ObjectId.to_hex oid_prince.

(** A store holding "Dune" only, all its values ASCII. *)
Definition w_ascii : world := (insert_one (BookModel_dict_exclude_id dune) w_empty).1.

(** A valid id that no book has, and a string that is not an id. *)
Definition unassigned_id : string := "aaaaaaaaaaaaaaaaaaaaaaaa".
Definition bad_id : string := "not-a-valid-id".
(** 24 characters: 22 hex digits and two spaces, which [bytes.fromhex]
    skips; the id is the 11-byte string they spell. *)
Definition space_id : string := "507F1F77BCF86CD7994390  ".
Definition space_oid : Z := Eval vm_compute in default 0 (ObjectId.of_string space_id).


(** ** Scenarios *)

(** Bodies of the closed instances below. *)
Definition evil_origin : string := "https://evil.example".

Definition preflight_delete : headers :=
  [("origin", evil_origin); ("access-control-request-method", "DELETE")]%string.

Definition cookie_request : headers :=
  [("origin", evil_origin); ("cookie", "session=1")]%string.

Definition conte : UpdateBookModel := mkUpdateBookModel None None (Some "Conte"%string).

Definition no_field : UpdateBookModel := mkUpdateBookModel None None None.

(** ** Closed instances of the theorems *)

Lemma w0_wf : wf_world w0.
Proof. apply wf_docsb_spec. vm_compute. reflexivity. Qed.

Lemma w_dune_wf : wf_world w_dune.
Proof. apply wf_docsb_spec. vm_compute. reflexivity. Qed.

Lemma create_then_get_witness :
  validate_body BookModel_init dune_body = Valid dune /\
  insert_one (BookModel_dict_exclude_id dune) w0 = (w_dune, Ok oid_dune) /\
  (run (handle (PostBooks dune_body)) w0 =
    (Resp 201 (BookModel_json (mkBookModel (Some (ObjectId.to_hex oid_dune))
                 (bm_title dune) (bm_author dune) (bm_category dune))), w_dune) /\
   run (handle (GetBook (ObjectId.to_hex oid_dune))) w_dune =
    (Resp 200 (BookModel_json (mkBookModel (Some (ObjectId.to_hex oid_dune))
                 (bm_title dune) (bm_author dune) (bm_category dune))), w_dune)).
Proof.
  assert (Hv : validate_body BookModel_init dune_body = Valid dune) by reflexivity.
  assert (Hi : insert_one (BookModel_dict_exclude_id dune) w0 = (w_dune, Ok oid_dune))
    by (vm_compute; reflexivity).
  split; [exact Hv|]. split; [exact Hi|].
  exact (create_then_get w0 dune_body dune w_dune oid_dune w0_wf Hv Hi).
Defined.

Lemma delete_then_get_witness :
  ObjectId.of_string (ObjectId.to_hex oid_prince) = Some oid_prince /\
  (run (handle (DeleteBook (ObjectId.to_hex oid_prince))) w0).1 =
    (match find_one oid_prince w0 with Some _ => deleted | None => not_found end) /\
  wf_world (run (handle (DeleteBook (ObjectId.to_hex oid_prince))) w0).2 /\
  run (handle (GetBook (ObjectId.to_hex oid_prince)))
      (run (handle (DeleteBook (ObjectId.to_hex oid_prince))) w0).2 =
    (not_found, (run (handle (DeleteBook (ObjectId.to_hex oid_prince))) w0).2).
Proof.
  assert (Hid : ObjectId.of_string (ObjectId.to_hex oid_prince) = Some oid_prince)
    by (vm_compute; reflexivity).
  split; [exact Hid|].
  exact (delete_then_get w0 (ObjectId.to_hex oid_prince) oid_prince w0_wf Hid).
Defined.

Lemma update_book_fields_witness :
  ObjectId.of_string (ObjectId.to_hex oid_prince) = Some oid_prince /\
  find_one oid_prince w0 =
    Some (mkDoc oid_prince [("title", "Le Petit Prince"); ("author", "Antoine de Saint-Exupéry");
                            ("category", "Roman")]%string) /\
  (run (update_book (ObjectId.to_hex oid_prince) conte) w0).1 =
    Resp 200 (BookModel_json (mkBookModel (Some (ObjectId.to_hex oid_prince))
      (default "Le Petit Prince" (ub_title conte))
      (default "Antoine de Saint-Exupéry" (ub_author conte))
      (default "Roman" (ub_category conte))))%string /\
  find_one oid_prince (run (update_book (ObjectId.to_hex oid_prince) conte) w0).2 =
    Some (mkDoc oid_prince
      [("title", default "Le Petit Prince" (ub_title conte));
       ("author", default "Antoine de Saint-Exupéry" (ub_author conte));
       ("category", default "Roman" (ub_category conte))]%string) /\
  (forall o, o <> oid_prince ->
     find_one o (run (update_book (ObjectId.to_hex oid_prince) conte) w0).2 = find_one o w0).
Proof.
  assert (Hid : ObjectId.of_string (ObjectId.to_hex oid_prince) = Some oid_prince)
    by (vm_compute; reflexivity).
  assert (Hd : find_one oid_prince w0 =
    Some (mkDoc oid_prince [("title", "Le Petit Prince"); ("author", "Antoine de Saint-Exupéry");
                            ("category", "Roman")]%string)) by (vm_compute; reflexivity).
  split; [exact Hid|]. split; [exact Hd|].
  exact (update_book_fields w0 _ conte oid_prince _ _ _ w0_wf Hid Hd).
Defined.

Lemma update_empty_patch_witness :
  ObjectId.of_string unassigned_id = Some (default 0 (ObjectId.of_string unassigned_id)) /\
  update_dict no_field = [] /\
  run (update_book unassigned_id no_field) w0 =
    (answer_found 200 (find_one (default 0 (ObjectId.of_string unassigned_id)) w0), w0).
Proof.
  assert (Hid : ObjectId.of_string unassigned_id =
                Some (default 0 (ObjectId.of_string unassigned_id))) by (vm_compute; reflexivity).
  split; [exact Hid|]. split; [reflexivity|].
  exact (update_empty_patch w0 unassigned_id no_field _ w0_wf Hid eq_refl).
Defined.

Lemma list_all_books_witness :
  wf_world w_dune /\ exists ds,
    run (handle (GetBooks None None None)) w_dune = (Resp 200 (JArr (map book_json ds)), w_dune) /\
    List.NoDup ds /\ forall d, In d ds <-> find_one (d_id d) w_dune = Some d.
Proof. split; [exact w_dune_wf | exact (list_all_books w_dune w_dune_wf)]. Defined.

Lemma list_books_title_witness :
  literal "prince" = true /\ "prince"%string <> ""%string /\
  exists ds,
    run (handle (GetBooks (Some "prince"%string) None None)) w_dune =
      (Resp 200 (JArr (map book_json ds)), w_dune) /\
    List.NoDup ds /\
    forall d, ascii_str (default ""%string (field_get "title" (d_fields d))) = true ->
      (In d ds <-> find_one (d_id d) w_dune = Some d /\
                   contains_ci "prince" (default ""%string (field_get "title" (d_fields d))) = true).
Proof.
  assert (Hl : literal "prince" = true) by reflexivity.
  assert (Hne : "prince"%string <> ""%string) by discriminate.
  split; [exact Hl|]. split; [exact Hne|].
  exact (list_books_title w_dune "prince" w_dune_wf Hl Hne).
Defined.

Lemma get_book_answers_witness :
  wf_world w0 /\
  (run (handle (GetBook bad_id)) w0).2 = w0 /\
  ((run (handle (GetBook bad_id)) w0).1 = invalid_id <-> ObjectId.is_valid bad_id = false) /\
  (forall oid, ObjectId.of_string bad_id = Some oid ->
     (run (handle (GetBook bad_id)) w0).1 = answer_found 200 (find_one oid w0)).
Proof. split; [exact w0_wf | exact (get_book_answers w0 bad_id w0_wf)]. Defined.

Lemma invalid_id_rejected_witness :
  ObjectId.is_valid bad_id = false /\
  validate_body UpdateBookModel_init (JObj []) = Valid no_field /\
  run (handle (GetBook bad_id)) w0 = (invalid_id, w0) /\
  run (handle (PutBook bad_id (JObj []))) w0 = (invalid_id, w0) /\
  run (handle (DeleteBook bad_id)) w0 = (invalid_id, w0).
Proof.
  assert (Hv : ObjectId.is_valid bad_id = false) by reflexivity.
  assert (Hb : validate_body UpdateBookModel_init (JObj []) = Valid no_field) by reflexivity.
  split; [exact Hv|]. split; [exact Hb|].
  exact (invalid_id_rejected w0 bad_id (JObj []) no_field Hv Hb).
Defined.

Lemma handle_preserves_wf_witness :
  wf_world w0 /\
  wf_world (run (handle (PutBook (ObjectId.to_hex oid_prince)
                                (JObj [("category", JStr "Conte")]%string))) w0).2.
Proof. split; [exact w0_wf | exact (handle_preserves_wf w0 _ w0_wf)]. Defined.

Lemma handle_internal_error_witness :
  wf_world w0 /\
  (run (handle (GetBooks (Some "(") None None)) w0).1 = internal_error /\
  exists e, compile_query (list_query (Some "(") None None) = Err e.
Proof.
  assert (H500 : (run (handle (GetBooks (Some "(") None None)) w0).1 = internal_error)
    by reflexivity.
  split; [exact w0_wf|]. split; [exact H500|].
  exact (handle_internal_error w0 (GetBooks (Some "(") None None) w0_wf H500).
Defined.

Lemma of_string_to_hex_witness :
  0 <= oid_prince < 2 ^ 96 /\
  (String.length (ObjectId.to_hex oid_prince) = 24%nat /\
   ObjectId.PyObjectId_validate (ObjectId.to_hex oid_prince) = Ok oid_prince).
Proof.
  assert (Hr : 0 <= oid_prince < 2 ^ 96) by apply ObjectId.generate_range.
  split; [exact Hr | exact (ObjectId.of_string_to_hex oid_prince Hr)].
Defined.

Lemma to_hex_of_string_witness :
  ObjectId.PyObjectId_validate space_id = Ok space_oid /\
  ObjectId.to_hex space_oid = str_lower (ObjectId.strip_ws space_id).
Proof.
  assert (Hs : ObjectId.PyObjectId_validate space_id = Ok space_oid) by (vm_compute; reflexivity).
  split; [exact Hs | exact (ObjectId.to_hex_of_string space_id space_oid Hs)].
Defined.

Lemma handle_answer_typed_witness :
  wf_world w0 /\ answer_typed (GetBook (ObjectId.to_hex oid_prince))
                   (run (handle (GetBook (ObjectId.to_hex oid_prince))) w0).1.
Proof. split; [exact w0_wf | exact (handle_answer_typed w0 _ w0_wf)]. Defined.

Lemma create_book_refines_witness :
  wf_world w0 /\
  (let oid := ObjectId.generate (w_time w0) (w_rand w0) (w_inc w0) in
   let fs := BookModel_dict_exclude_id dune in
   match spec_insert oid fs (abs (w_docs w0)) with
   | Some m => (run (create_book dune) w0).1 = Resp 201 (book_json (mkDoc oid fs)) /\
       abs (w_docs (run (create_book dune) w0).2) = m
   | None => (run (create_book dune) w0).1 = internal_error /\
       w_docs (run (create_book dune) w0).2 = w_docs w0
   end).
Proof. split; [exact w0_wf | exact (create_book_refines w0 dune w0_wf)]. Defined.




Lemma w_ascii_wf : wf_world w_ascii.
Proof. apply wf_docsb_spec. vm_compute. reflexivity. Qed.

Lemma list_books_refines_witness :
  wf_world w_ascii /\
  Forall (fun kp => literal kp.2 = true) (spec_filter (Some "UNE") None (Some ""))%string /\
  Forall (fun d => Forall (fun kv => ascii_str kv.2 = true) (d_fields d)) (w_docs w_ascii) /\
  exists ds, run (list_books (Some "UNE") None (Some ""))%string w_ascii =
      (Resp 200 (JArr (map book_json ds)), w_ascii) /\ List.NoDup (map d_id ds) /\
    abs ds = spec_find_many (spec_filter (Some "UNE") None (Some ""))%string
      (abs (w_docs w_ascii)).
Proof.
  assert (Hl : Forall (fun kp => literal kp.2 = true) (spec_filter (Some "UNE") None (Some ""))%string)
    by (repeat constructor).
  assert (Ha : Forall (fun d => Forall (fun kv => ascii_str kv.2 = true) (d_fields d)) (w_docs w_ascii))
    by (vm_compute; repeat constructor).
  split; [exact w_ascii_wf|]. split; [exact Hl|]. split; [exact Ha|].
  exact (list_books_refines w_ascii _ _ _ w_ascii_wf Hl Ha).
Defined.

Lemma preflight_any_origin_witness :
  hget "origin" preflight_delete = Some evil_origin /\
  hget "access-control-request-method" preflight_delete = Some "DELETE"%string /\
  mem "DELETE" ALL_METHODS = true /\
  (h_status (serve (Options preflight_delete) w0).1 = 200 /\ (serve (Options preflight_delete) w0).2 = w0 /\
   hget "access-control-allow-origin" (h_headers (serve (Options preflight_delete) w0).1) = Some evil_origin /\
   hget "access-control-allow-credentials" (h_headers (serve (Options preflight_delete) w0).1) =
     Some "true"%string).
Proof.
  assert (Ho : hget "origin" preflight_delete = Some evil_origin) by reflexivity.
  assert (Hm : hget "access-control-request-method" preflight_delete = Some "DELETE"%string)
    by reflexivity.
  assert (Hmem : mem "DELETE" ALL_METHODS = true) by reflexivity.
  split; [exact Ho|]. split; [exact Hm|]. split; [exact Hmem|].
  exact (preflight_any_origin preflight_delete w0 _ _ Ho Hm Hmem).
Defined.

Lemma cookie_any_origin_witness :
  hget "origin" cookie_request = Some evil_origin /\ hhas "cookie" cookie_request = true /\
  status (run (handle (DeleteBook prince_hex)) w0).1 <> 500 /\
  (hget "access-control-allow-origin"
     (h_headers (serve (Routed (DeleteBook prince_hex) cookie_request) w0).1) =
     Some evil_origin /\
   hget "access-control-allow-credentials"
     (h_headers (serve (Routed (DeleteBook prince_hex) cookie_request) w0).1) =
     Some "true"%string).
Proof.
  assert (Ho : hget "origin" cookie_request = Some evil_origin) by reflexivity.
  assert (Hc : hhas "cookie" cookie_request = true) by reflexivity.
  assert (H500 : status (run (handle (DeleteBook prince_hex)) w0).1 <> 500)
    by (vm_compute; discriminate).
  split; [exact Ho|]. split; [exact Hc|]. split; [exact H500|].
  exact (cookie_any_origin _ cookie_request w0 _ Ho Hc H500).
Defined.

Lemma create_book_counter_wrap_witness :
  wf_world w_wrapped /\
  In (ObjectId.generate (w_time w_wrapped) (w_rand w_wrapped) I0) (map d_id (w_docs w_wrapped)) /\
  w_inc w_wrapped mod 2 ^ 24 = I0 mod 2 ^ 24 /\
  ((run (create_book dune) w_wrapped).1 = internal_error /\
   w_docs (run (create_book dune) w_wrapped).2 = w_docs w_wrapped).
Proof.
  assert (Hw : wf_world w_wrapped) by exact w0_wf.
  assert (Hin : In (ObjectId.generate (w_time w_wrapped) (w_rand w_wrapped) I0)
                   (map d_id (w_docs w_wrapped))) by (vm_compute; left; reflexivity).
  assert (Hc : w_inc w_wrapped mod 2 ^ 24 = I0 mod 2 ^ 24) by (vm_compute; reflexivity).
  split; [exact Hw|]. split; [exact Hin|]. split; [exact Hc|].
  exact (create_book_counter_wrap w_wrapped dune I0 Hw Hin Hc).
Defined.

Lemma post_ignores_id_witness :
  ~ In "_id"%string (map fst dune_kvs) /\ ~ In "id"%string (map fst dune_kvs) /\
  (status (run (handle (PostBooks (JObj (("_id"%string, JArr []) :: dune_kvs)))) w0).1 = 422 /\
   (run (handle (PostBooks (JObj (("_id"%string, JArr []) :: dune_kvs)))) w0).2 = w0).
Proof.
  assert (H1 : ~ In "_id"%string (map fst dune_kvs)) by (simpl; intuition discriminate).
  assert (H2 : ~ In "id"%string (map fst dune_kvs)) by (simpl; intuition discriminate).
  split; [exact H1|]. split; [exact H2|].
  exact (proj2 (post_ignores_id w0 dune_kvs (JArr []) H1 H2) I).
Defined.


End Scenario.
